(** * Offline exam analyzer: a shallow embedding of [src/offline_processor.py]

    The development follows the Python module top to bottom: Python values
    and exceptions, the data model ([AlertEvent], [SessionSummary]), the
    analyzer object with its instance-scoped debounce counters, the frame loop
    of [analyze_video], the alert generation of [_generate_alerts] and the
    verdict computation of [_save_session_log].

    Modelling conventions.
    - Python [int] is [Z]; Python [float] is a binary64 primitive float.
    - Code that mutates [self] or the disk runs in a state-and-exception
      monad over a [World] (the analyzer object and the file system); a raised
      exception keeps the mutations made before it.
    - External collaborators (OpenCV, pathlib, the clock, the detector
      classes, the scoring functions, the audio analyzer) are fields of an
      environment record [Env].
    - A detector call is a function of the frame it is given that returns a
      Python value or raises; state internal to a detector is not modelled.
    - Paths are strings; [p / c] is [p ++ "/" ++ c], which is what pathlib
      gives for a normalised [p] and a relative [c]; the ancestors of a path
      are its prefixes that end before a ["/"].
    - The file system holds the directories and files the analyzer creates.
      [mkdir] creates missing ancestors when asked to and raises when a
      regular file is in the way; [open(p, "w")] raises when the parent
      directory is missing and truncates the file otherwise; [json.dump]
      raises [TypeError] on a value that is not JSON-encodable and leaves
      the truncated file behind; [cv2.imwrite] returns a boolean, which the
      code drops.  The video and the configuration file are read through
      [Env]. *)

From Stdlib Require Import Floats ZArith.
From stdpp Require Import gmap strings list pretty.

#[local] Set Warnings "-register-all,-inexact-float".
Local Open Scope Z_scope.

(** ** Python values *)

Inductive PyVal : Type :=
| VNone
| VBool (b : bool)
| VInt (z : Z)
| VFloat (f : float)
| VStr (s : string)
| VList (l : list PyVal)
| VTuple (l : list PyVal)
| VDict (kvs : list (string * PyVal))   (* keys distinct, in insertion order *)
| VObject (cls : string).               (* an instance of any other class *)

(** [bool(v)]: the truth value Python's [if v] and [not v] use. *)
Definition truthy (v : PyVal) : bool :=
  match v with
  | VNone => false
  | VBool b => b
  | VInt z => negb (z =? 0)
  | VFloat f => negb (PrimFloat.eqb f 0%float)
  | VStr s => negb (String.eqb s "")
  | VList l | VTuple l => match l with [] => false | _ => true end
  | VDict kvs => match kvs with [] => false | _ => true end
  | VObject _ => true
  end.

(** [isinstance(v, list)]. *)
Definition isinstance_list (v : PyVal) : bool :=
  match v with VList _ => true | _ => false end.

(** [isinstance(v, int)]; [bool] is a subclass of [int]. *)
Definition isinstance_int (v : PyVal) : bool :=
  match v with VInt _ | VBool _ => true | _ => false end.

(** [v > 1] for a value that passed [isinstance(v, int)]. *)
Definition int_gt_1 (v : PyVal) : bool :=
  match v with
  | VInt z => 1 <? z
  | _ => false
  end.

(** [v != s] for a string literal [s]. *)
Definition ne_str (v : PyVal) (s : string) : bool :=
  match v with
  | VStr s' => negb (String.eqb s' s)
  | _ => true
  end.

(** Exceptions that can reach the caller of [analyze_video] or of
    [OfflineExamAnalyzer]. *)
Inductive exn : Type :=
| RuntimeError (msg : string)
| TypeError
| ValueError
| ZeroDivisionError
| KeyError (key : string)
| FileExistsError
| FileNotFoundError
| NotADirectoryError
| IsADirectoryError
| Raised (name : string).

Definition Outcome (A : Type) : Type := exn + A.

(** [a, b = v]: iterable unpacking into exactly two targets. *)
Definition chars (s : string) : list PyVal :=
  (fun c => VStr (String c EmptyString)) <$> String.list_ascii_of_string s.

Definition unpack2 (v : PyVal) : Outcome (PyVal * PyVal) :=
  let two (l : list PyVal) : Outcome (PyVal * PyVal) :=
    match l with
    | [a; b] => inr (a, b)
    | _ => inl ValueError
    end in
  match v with
  | VList l | VTuple l => two l
  | VStr s => two (chars s)
  | VDict kvs => two ((fun kv => VStr kv.1) <$> kvs)
  | VNone | VBool _ | VInt _ | VFloat _ | VObject _ => inl TypeError
  end.

(** [v[k]] for a string key [k]. *)
Fixpoint assoc (k : string) (kvs : list (string * PyVal)) : option PyVal :=
  match kvs with
  | [] => None
  | (k', v) :: rest => if String.eqb k' k then Some v else assoc k rest
  end.

Definition getitem (v : PyVal) (k : string) : Outcome PyVal :=
  match v with
  | VDict kvs =>
      match assoc k kvs with
      | Some x => inr x
      | None => inl (KeyError k)
      end
  | _ => inl TypeError
  end.

(** Whether [json.dump] can encode [v]: tuples are written as arrays, and
    only an object of another class makes it raise. *)
Fixpoint json_ok (v : PyVal) : bool :=
  match v with
  | VObject _ => false
  | VList l | VTuple l => forallb json_ok l
  | VDict kvs => forallb (fun kv => json_ok kv.2) kvs
  | _ => true
  end.

(** Sequencing of computations that return or raise. *)
Definition obind {A B} (o : Outcome A) (k : A -> Outcome B) : Outcome B :=
  match o with
  | inl e => inl e
  | inr a => k a
  end.

(** ** Floats *)

(** [float(z)] for an index or a size (below 2^63 in absolute value; exact
    below 2^53). *)
Definition float_of_Z (z : Z) : float :=
  if z <? 0 then PrimFloat.opp (PrimFloat.of_uint63 (Uint63.of_Z (- z)))
  else PrimFloat.of_uint63 (Uint63.of_Z z).

(** [int(f)]: truncation toward zero; infinities and NaN raise. *)
Definition int_of_float (f : float) : Outcome Z :=
  match Prim2SF f with
  | S754_zero _ => inr 0
  | S754_infinity _ => inl (Raised "OverflowError")
  | S754_nan => inl ValueError
  | S754_finite s m e =>
      let a := if 0 <=? e then Z.shiftl (Z.pos m) e
               else Z.shiftr (Z.pos m) (- e) in
      inr (if s then - a else a)
  end.

(** [f or 30.0]. *)
Definition float_or (f d : float) : float :=
  if PrimFloat.eqb f 0%float then d else f.

(** ** Data model *)

Record Frame : Type := mkFrame {
  shape0 : Z;          (* rows *)
  shape1 : Z;          (* columns *)
  pixels : nat         (* image content *)
}.

Record AlertEvent : Type := mkAlertEvent {
  a_session_id : string;
  a_timestamp : float;
  a_frame_index : Z;
  a_type : string;
  a_severity : string;
  a_image_path : option string;
  a_details : PyVal
}.

Record SessionSummary : Type := mkSessionSummary {
  session_id : string;
  duration_seconds : float;
  num_frames : Z;
  fps : float;
  alerts : list AlertEvent
}.

(** The document [_save_session_log] dumps as JSON. *)
Record SessionLog : Type := mkSessionLog {
  log_session : SessionSummary;
  log_verdict : string;
  log_alerts : list AlertEvent;
  log_video_score : float;
  log_audio_score : float;
  log_overall_score : float;
  log_audio : option PyVal;
  log_generated_at : string
}.

(** ** Performance constants *)

Record Perf : Type := mkPerf {
  FRAME_STRIDE : Z;
  RESIZE_WIDTH : Z;
  OBJ_DETECT_EVERY : Z;
  MF_DETECT_EVERY : Z
}.

Definition perf_default : Perf :=
  {| FRAME_STRIDE := 5; RESIZE_WIDTH := 480;
     OBJ_DETECT_EVERY := 10; MF_DETECT_EVERY := 4 |}.

(** ** File system *)

(** What a regular file holds: an image, a complete session record, or
    what [open(p, "w")] leaves until the dump has completed: an empty or
    cut-off text. *)
Inductive FileData : Type :=
| Image (f : Frame)
| Json (doc : SessionLog)
| Truncated.

Record FileSystem : Type := mkFS {
  dirs : gset string;
  files : gmap string FileData
}.

Definition path_join (p c : string) : string := (p ++ "/" ++ c)%string.
Infix "//" := path_join (at level 40, left associativity).

Definition slash : Ascii.ascii := Ascii.ascii_of_nat 47.

(** The prefixes of [p] that end just before a ["/"]. *)
Fixpoint slices (p : string) : list string :=
  match p with
  | EmptyString => []
  | String c rest =>
      (if Ascii.eqb c slash then [EmptyString] else [])
      ++ (String c <$> slices rest)
  end.

(** The ancestors of [p], outermost first, and its parent directory;
    [None] for a path in the working directory or in the root. *)
Definition parents (p : string) : list string :=
  filter (fun s => s <> ""%string) (slices p).

Definition parent (p : string) : option string := last (parents p).

Definition is_file (d : FileSystem) (p : string) : bool :=
  bool_decide (is_Some (files d !! p)).

Definition is_dir (d : FileSystem) (p : string) : bool :=
  bool_decide (p ∈ dirs d).

Definition parent_ok (d : FileSystem) (p : string) : bool :=
  match parent p with
  | Some q => is_dir d q
  | None => true
  end.

(** What stands in the way of a directory at [p]: an ancestor that is a
    regular file, or a regular file at [p] itself. *)
Definition blocked (d : FileSystem) (p : string) : option exn :=
  if existsb (is_file d) (parents p) then Some NotADirectoryError
  else if is_file d p then Some FileExistsError
  else None.

Definition add_dirs (ps : list string) (d : FileSystem) : FileSystem :=
  {| dirs := list_to_set ps ∪ dirs d; files := files d |}.

(** The disk after [p] and its missing ancestors were created. *)
Definition mkdir_p (p : string) (d : FileSystem) : FileSystem :=
  add_dirs (parents p ++ [p]) d.

(** [Path(p).mkdir(parents=par, exist_ok=True)]. *)
Definition fs_mkdir (par : bool) (p : string) (d : FileSystem)
    : Outcome FileSystem :=
  match blocked d p with
  | Some e => inl e
  | None =>
      if par then inr (mkdir_p p d)
      else if is_dir d p then inr d
      else if parent_ok d p then inr (add_dirs [p] d)
      else inl FileNotFoundError
  end.

Definition fs_write (p : string) (c : FileData) (d : FileSystem) : FileSystem :=
  {| dirs := dirs d; files := <[ p := c ]> (files d) |}.

(** [open(p, "w")]: the file is created, or emptied when it exists. *)
Definition fs_open_w (p : string) (d : FileSystem) : Outcome FileSystem :=
  if is_dir d p then inl IsADirectoryError
  else if existsb (is_file d) (parents p) then inl NotADirectoryError
  else if parent_ok d p then inr (fs_write p Truncated d)
  else inl FileNotFoundError.

(** [cv2.imwrite(p, frame)] when OpenCV reports [ok]: the image is written
    when the encoder succeeded and the file could be created. *)
Definition fs_imwrite (ok : bool) (p : string) (frame : Frame) (d : FileSystem)
    : FileSystem :=
  if ok && negb (is_dir d p) && parent_ok d p
  then fs_write p (Image frame) d
  else d.

(** ** External collaborators *)

(** A detector method applied to a frame returns some Python value or
    raises. *)
Definition Detector : Type := Frame -> Outcome PyVal.

(** What [cv2.VideoCapture] found at a path that could be opened: the
    reported frame rate and the frames [cap.read()] yields before it
    returns [ret = False]. *)
Record Video : Type := mkVideo {
  cap_fps : float;
  cap_frames : list Frame
}.

(** [load_config] gives what [yaml.safe_load] read, or raises; a detector
    class applied to the configuration gives a detector, or raises;
    [cv2_imwrite p frame] is the boolean [cv2.imwrite] returns for an image
    it could create a file for. *)
Record Env : Type := mkEnv {
  load_config : string -> Outcome PyVal;
  FaceDetector : PyVal -> Outcome Detector;
  EyeTracker : PyVal -> Outcome Detector;
  MouthMonitor : PyVal -> Outcome Detector;
  MultiFaceDetector : PyVal -> Outcome Detector;
  ObjectDetector : PyVal -> Outcome Detector;
  VideoCapture : string -> option Video;       (* [None]: not [isOpened()] *)
  cv2_resize : Frame -> Z -> Z -> Outcome Frame;
  cv2_imwrite : string -> Frame -> bool;
  path_stem : string -> string;                (* [Path(p).stem] *)
  now_strftime : string;                       (* [%Y%m%d_%H%M%S] *)
  now_isoformat : string;
  compute_video_score : Z -> gmap string Z -> list AlertEvent -> float;
  compute_audio_score : option PyVal -> float;
  compute_overall_score : float -> float -> float;
  speaker_analyze : string -> string -> Outcome PyVal
}.

(** ** The analyzer object and the world it runs in *)

Record Analyzer : Type := mkAnalyzer {
  cfg : PyVal;
  logs_dir : string;
  evidence_root : string;
  face_detector : option Detector;
  eye_tracker : option Detector;
  mouth_monitor : option Detector;
  multi_face_detector : option Detector;
  object_detector : option Detector;
  audio_enabled : bool;
  speaker_analyzer : option string;
  _gaze_away_frames : Z;
  _mouth_moving_frames : Z;
  _multi_face_frames : Z
}.

Definition set_gaze (c : Z) (a : Analyzer) : Analyzer :=
  mkAnalyzer (cfg a) (logs_dir a) (evidence_root a) (face_detector a)
    (eye_tracker a) (mouth_monitor a) (multi_face_detector a)
    (object_detector a) (audio_enabled a) (speaker_analyzer a)
    c (_mouth_moving_frames a) (_multi_face_frames a).

Definition set_mouth (c : Z) (a : Analyzer) : Analyzer :=
  mkAnalyzer (cfg a) (logs_dir a) (evidence_root a) (face_detector a)
    (eye_tracker a) (mouth_monitor a) (multi_face_detector a)
    (object_detector a) (audio_enabled a) (speaker_analyzer a)
    (_gaze_away_frames a) c (_multi_face_frames a).

Definition set_multi (c : Z) (a : Analyzer) : Analyzer :=
  mkAnalyzer (cfg a) (logs_dir a) (evidence_root a) (face_detector a)
    (eye_tracker a) (mouth_monitor a) (multi_face_detector a)
    (object_detector a) (audio_enabled a) (speaker_analyzer a)
    (_gaze_away_frames a) (_mouth_moving_frames a) c.

Definition set_speaker (s : option string) (a : Analyzer) : Analyzer :=
  mkAnalyzer (cfg a) (logs_dir a) (evidence_root a) (face_detector a)
    (eye_tracker a) (mouth_monitor a) (multi_face_detector a)
    (object_detector a) (audio_enabled a) s
    (_gaze_away_frames a) (_mouth_moving_frames a) (_multi_face_frames a).

Record World : Type := mkWorld {
  self : Analyzer;
  disk : FileSystem
}.

(** ** State and exception monad *)

Definition M (A : Type) : Type := World -> Outcome A * World.

Definition ret {A} (a : A) : M A := fun w => (inr a, w).

Definition raise {A} (e : exn) : M A := fun w => (inl e, w).

Definition bind {A B} (m : M A) (k : A -> M B) : M B :=
  fun w =>
    match m w with
    | (inl e, w') => (inl e, w')
    | (inr a, w') => k a w'
    end.

Definition lift {A} (o : Outcome A) : M A := fun w => (o, w).

Definition get_self : M Analyzer := fun w => (inr (self w), w).

Definition modify_self (f : Analyzer -> Analyzer) : M unit :=
  fun w => (inr tt, mkWorld (f (self w)) (disk w)).

Definition modify_disk (f : FileSystem -> FileSystem) : M unit :=
  fun w => (inr tt, mkWorld (self w) (f (disk w))).

(** A file-system call that may raise; the disk is as it was when it
    does. *)
Definition disk_op (f : FileSystem -> Outcome FileSystem) : M unit :=
  fun w =>
    match f (disk w) with
    | inl e => (inl e, w)
    | inr d => (inr tt, mkWorld (self w) d)
    end.

Declare Scope prog_scope.
Delimit Scope prog_scope with prog.
Notation "'let*' x ':=' m 'in' k" := (bind m (fun x => k))
  (at level 10, x name, m at level 100, k at level 200) : prog_scope.
Notation "m ;; k" := (bind m (fun _ => k))
  (at level 100, k at level 200, right associativity) : prog_scope.
Notation "'let?' x ':=' o 'in' k" := (obind o (fun x => k))
  (at level 10, x name, o at level 100, k at level 200) : prog_scope.

(** A [for] loop over a list that threads an accumulator. *)
Fixpoint for_each {A S} (body : A -> S -> M S) (xs : list A) (s : S) : M S :=
  match xs with
  | [] => ret s
  | x :: xs' => bind (body x s) (for_each body xs')
  end.

(** [a % b] on ints. *)
Definition py_mod (a b : Z) : M Z :=
  if b =? 0 then raise ZeroDivisionError else ret (a mod b).

(** [a / b] with a float divisor. *)
Definition py_truediv (a b : float) : M float :=
  if PrimFloat.eqb b 0%float then raise ZeroDivisionError
  else ret (PrimFloat.div a b).

Local Open Scope prog_scope.

(** ** [OfflineExamAnalyzer.__init__] *)

(** [Class(self.cfg) if det[name]["enabled"] else None] (lines 75-79). *)
Definition construct (class : PyVal -> Outcome Detector) (cfg det : PyVal)
    (name : string) : Outcome (option Detector) :=
  let? section := getitem det name in
  let? enabled := getitem section "enabled" in
  if truthy enabled then
    let? d := class cfg in
    inr (Some d)
  else inr None.

(** Lines 73-86: the attributes set once both directories exist.
    [audio_enabled] is kept as the truth value of the configured entry, which
    is all [analyze_video] uses of it. *)
Definition attributes (env : Env) (cfg : PyVal) (logs_dir evidence_root : string)
    : Outcome Analyzer :=
  let? det := getitem cfg "detection" in
  let? face_detector := construct (FaceDetector env) cfg det "face" in
  let? eye_tracker := construct (EyeTracker env) cfg det "eyes" in
  let? mouth_monitor := construct (MouthMonitor env) cfg det "mouth" in
  let? multi_face_detector := construct (MultiFaceDetector env) cfg det "multi_face" in
  let? object_detector := construct (ObjectDetector env) cfg det "objects" in
  let? audio_monitoring := getitem cfg "audio_monitoring" in
  let? audio_enabled := getitem audio_monitoring "enabled" in
  inr {| cfg := cfg;
         logs_dir := logs_dir;
         evidence_root := evidence_root;
         face_detector := face_detector;
         eye_tracker := eye_tracker;
         mouth_monitor := mouth_monitor;
         multi_face_detector := multi_face_detector;
         object_detector := object_detector;
         audio_enabled := truthy audio_enabled;
         speaker_analyzer := None;
         _gaze_away_frames := 0;
         _mouth_moving_frames := 0;
         _multi_face_frames := 0 |}.

(** The new analyzer, or the exception, and the disk [__init__] leaves. *)
Definition __init__ (env : Env) (config_path logs_dir : string) (d : FileSystem)
    : Outcome Analyzer * FileSystem :=
  match load_config env config_path with
  | inl e => (inl e, d)
  | inr cfg =>
      match fs_mkdir true logs_dir d with
      | inl e => (inl e, d)
      | inr d =>
          let evidence_root := logs_dir // "evidence" in
          match fs_mkdir false evidence_root d with
          | inl e => (inl e, d)
          | inr d => (attributes env cfg logs_dir evidence_root, d)
          end
      end
  end.

(** ** [OfflineExamAnalyzer._generate_session_id] *)

Definition _generate_session_id (env : Env) (video_path : string) : string :=
  (path_stem env video_path ++ "_" ++ now_strftime env)%string.

(** ** [OfflineExamAnalyzer._generate_alerts] *)

(** The nested [save_evidence(tag)]: the file name is the tag and the raw
    frame index; [cv2.imwrite] is called on it and the path returned, whatever
    [cv2.imwrite] returned. *)
Definition save_evidence (env : Env) (evidence_dir : string) (frame_idx : Z)
    (frame : Frame) (tag : string) : M string :=
  let path := evidence_dir // (tag ++ "_" ++ pretty frame_idx ++ ".jpg")%string in
  modify_disk (fs_imwrite (cv2_imwrite env path frame) path frame) ;;
  ret path.

Definition _generate_alerts (env : Env) (session_id : string) (frame_idx : Z)
    (t : float) (frame : Frame) (evidence_dir : string)
    (face_present gaze_direction mouth_moving : PyVal)
    (multiple_faces : bool) (num_faces : PyVal) (object_list : list PyVal)
    : M (list AlertEvent) :=
  let save_evidence := save_evidence env evidence_dir frame_idx frame in
  let alerts := [] in
  let* alerts :=
    (if negb (truthy face_present) then
       let* p := save_evidence "face_missing" in
       ret (alerts ++ [mkAlertEvent session_id t frame_idx "FACE_MISSING" "medium"
                         (Some p) (VDict [])])
     else ret alerts) in
  (if ne_str gaze_direction "center" then
     modify_self (fun a => set_gaze (_gaze_away_frames a + 1) a)
   else modify_self (set_gaze 0)) ;;
  let* a := get_self in
  let* alerts :=
    (if 3 <=? _gaze_away_frames a then
       let* p := save_evidence "gaze_away" in
       modify_self (set_gaze 0) ;;
       ret (alerts ++ [mkAlertEvent session_id t frame_idx "GAZE_AWAY" "medium"
                         (Some p) (VDict [])])
     else ret alerts) in
  (if truthy mouth_moving then
     modify_self (fun a => set_mouth (_mouth_moving_frames a + 1) a)
   else modify_self (set_mouth 0)) ;;
  let* a := get_self in
  let* alerts :=
    (if 3 <=? _mouth_moving_frames a then
       let* p := save_evidence "mouth" in
       modify_self (set_mouth 0) ;;
       ret (alerts ++ [mkAlertEvent session_id t frame_idx "MOUTH_MOVEMENT" "medium"
                         (Some p) (VDict [])])
     else ret alerts) in
  (if multiple_faces then
     modify_self (fun a => set_multi (_multi_face_frames a + 1) a)
   else modify_self (set_multi 0)) ;;
  let* a := get_self in
  let* alerts :=
    (if 5 <=? _multi_face_frames a then
       let* p := save_evidence "multi_face" in
       modify_self (set_multi 0) ;;
       ret (alerts ++ [mkAlertEvent session_id t frame_idx "MULTI_FACE" "high"
                         (Some p) (VDict [("num_faces", num_faces)])])
     else ret alerts) in
  let* alerts :=
    for_each
      (fun obj alerts =>
         let* p := save_evidence "object" in
         ret (alerts ++ [mkAlertEvent session_id t frame_idx "OBJECT_DETECTED" "high"
                           (Some p) obj]))
      object_list alerts in
  ret alerts.

(** ** [OfflineExamAnalyzer._save_session_log] *)

(** [collections.Counter(iterable)] and [Counter.get(key, default)]. *)
Definition Counter (xs : list string) : gmap string Z :=
  fold_left (fun m k => <[ k := default 0 (m !! k) + 1 ]> m) xs ∅.

Definition counter_get (m : gmap string Z) (k : string) (d : Z) : Z :=
  default d (m !! k).

(** Lines 267-271: the verdict from the type counts, the overall score and
    the number of alerts. *)
Definition verdict_of (counts : gmap string Z) (overall_score : float)
    (n_alerts : Z) : string :=
  let verdict := "CLEAN"%string in
  if (0 <? counter_get counts "MULTI_FACE" 0)
     || (0 <? counter_get counts "OBJECT_DETECTED" 0)
  then "CHEATING"%string
  else if PrimFloat.ltb overall_score 0.7%float || (5 <? n_alerts)
  then "SUSPICIOUS"%string
  else verdict.

Definition session_log (env : Env) (summary : SessionSummary)
    (audio_summary : option PyVal) : SessionLog :=
  let alerts_list := alerts summary in
  let counts := Counter (a_type <$> alerts_list) in
  let n := Z.of_nat (length alerts_list) in
  let video_score := compute_video_score env n counts alerts_list in
  let audio_score := compute_audio_score env audio_summary in
  let overall_score := compute_overall_score env video_score audio_score in
  {| log_session := summary;
     log_verdict := verdict_of counts overall_score n;
     log_alerts := alerts_list;
     log_video_score := video_score;
     log_audio_score := audio_score;
     log_overall_score := overall_score;
     log_audio := audio_summary;
     log_generated_at := now_isoformat env |}.

(** Whether [json.dump] can encode the document: everything in it is a
    string, a number or a list or mapping of such, except the details of the
    alerts and the audio summary, which are whatever the detectors and the
    audio analyzer returned. *)
Definition json_ok_log (log : SessionLog) : bool :=
  forallb (fun e => json_ok (a_details e)) (log_alerts log)
  && from_option json_ok true (log_audio log).

Definition _save_session_log (env : Env) (summary : SessionSummary)
    (audio_summary : option PyVal) : M unit :=
  let* a := get_self in
  let out := logs_dir a // (session_id summary ++ ".json")%string in
  let log := session_log env summary audio_summary in
  disk_op (fs_open_w out) ;;
  if json_ok_log log then modify_disk (fs_write out (Json log))
  else raise TypeError.

(** ** [OfflineExamAnalyzer.analyze_video] *)

(** The local variables of the frame loop. [submitted] is a history
    variable: the [frame_idx] argument of every [_generate_alerts] call so
    far, oldest first. *)
Record Locals : Type := mkLocals {
  frame_idx : Z;
  processed_idx : Z;
  last_faces : PyVal;
  last_multi : bool;
  last_objects : list PyVal;
  alerts_so_far : list AlertEvent;
  submitted : list Z
}.

Definition locals_init : Locals :=
  {| frame_idx := 0; processed_idx := 0; last_faces := VInt 1;
     last_multi := false; last_objects := []; alerts_so_far := [];
     submitted := [] |}.

(** One iteration of [while True], for a frame that [cap.read()] returned. *)
Definition loop_body (env : Env) (perf : Perf) (session_id evidence_dir : string)
    (fps : float) (frame : Frame) (l : Locals) : M Locals :=
  let* r := py_mod (frame_idx l) (FRAME_STRIDE perf) in
  if negb (r =? 0) then
    ret (mkLocals (frame_idx l + 1) (processed_idx l) (last_faces l)
           (last_multi l) (last_objects l) (alerts_so_far l) (submitted l))
  else
    let* t := py_truediv (float_of_Z (frame_idx l)) fps in
    let* frame :=
      (if RESIZE_WIDTH perf <? shape1 frame then
         let* scale := py_truediv (float_of_Z (RESIZE_WIDTH perf))
                         (float_of_Z (shape1 frame)) in
         let* h := lift (int_of_float
                           (PrimFloat.mul (float_of_Z (shape0 frame)) scale)) in
         lift (cv2_resize env frame (RESIZE_WIDTH perf) h)
       else ret frame) in
    let* a := get_self in
    let* face_present :=
      match face_detector a with
      | Some d => lift (d frame)
      | None => ret (VBool true)
      end in
    let* gaze_dir :=
      match eye_tracker a with
      | Some d =>
          let* res := lift (d frame) in
          let* p := lift (unpack2 res) in
          ret p.1
      | None => ret (VStr "center")
      end in
    let* mouth_moving :=
      match mouth_monitor a with
      | Some d => lift (d frame)
      | None => ret (VBool false)
      end in
    (* Object detection *)
    let last_objects := [] in
    let* last_objects :=
      match object_detector a with
      | Some d =>
          let* r := py_mod (processed_idx l) (OBJ_DETECT_EVERY perf) in
          if r =? 0 then
            let* res := lift (d frame) in
            ret (match res with VList items => items | _ => [] end)
          else ret last_objects
      | None => ret last_objects
      end in
    (* Multi-face *)
    let* lf :=
      match multi_face_detector a with
      | Some d =>
          let* r := py_mod (processed_idx l) (MF_DETECT_EVERY perf) in
          if r =? 0 then
            let* mf := lift (d frame) in
            let last_faces := if isinstance_int mf then mf else VInt 1 in
            ret (last_faces, int_gt_1 last_faces)
          else ret (last_faces l, last_multi l)
      | None => ret (last_faces l, last_multi l)
      end in
    let* new_alerts :=
      _generate_alerts env session_id (frame_idx l) t frame evidence_dir
        face_present gaze_dir mouth_moving lf.2 lf.1 last_objects in
    ret (mkLocals (frame_idx l + 1) (processed_idx l + 1) lf.1 lf.2
           last_objects (alerts_so_far l ++ new_alerts)
           (submitted l ++ [frame_idx l])).

(** [bool(s)] for an optional string argument. *)
Definition str_truthy (s : option string) : bool :=
  match s with
  | Some s => negb (String.eqb s "")
  | None => false
  end.

(** The frame loop together with what follows it (lines 100-179), for a
    capture that opened. *)
Definition run_session (env : Env) (perf : Perf) (cap : Video)
    (audio_path : option string) (session_id evidence_dir : string)
    : M SessionSummary :=
  let fps := float_or (cap_fps cap) 30.0%float in
  let* l := for_each (loop_body env perf session_id evidence_dir fps)
              (cap_frames cap) locals_init in
  let* duration := py_truediv (float_of_Z (frame_idx l)) fps in
  let summary :=
    {| session_id := session_id; duration_seconds := duration;
       num_frames := frame_idx l; fps := fps; alerts := alerts_so_far l |} in
  let* a := get_self in
  let* audio_summary :=
    (if audio_enabled a && str_truthy audio_path then
       modify_self (set_speaker (Some (logs_dir a))) ;;
       let* res := lift (speaker_analyze env (logs_dir a) (default ""%string audio_path)) in
       ret (Some res)
     else ret None) in
  _save_session_log env summary audio_summary ;;
  ret summary.

Definition analyze_video (env : Env) (perf : Perf) (video_path : string)
    (audio_path session_id : option string) : M SessionSummary :=
  let session_id :=
    if str_truthy session_id then default ""%string session_id
    else _generate_session_id env video_path in
  let* a := get_self in
  let evidence_dir := evidence_root a // session_id in
  disk_op (fs_mkdir true evidence_dir) ;;
  match VideoCapture env video_path with
  | None => raise (RuntimeError ("Cannot open video: " ++ video_path)%string)
  | Some cap => run_session env perf cap audio_path session_id evidence_dir
  end.

(** ** Module-level wrapper [analyze_recording] *)

Definition analyze_recording (env : Env) (perf : Perf) (video_path : string)
    (audio_path session_id : option string) (config_path logs_dir : string)
    (d : FileSystem) : Outcome SessionSummary * FileSystem :=
  match __init__ env config_path logs_dir d with
  | (inl e, d) => (inl e, d)
  | (inr analyzer, d) =>
      let r := analyze_video env perf video_path audio_path session_id
                 (mkWorld analyzer d) in
      (r.1, disk r.2)
  end.

(** * Definitions used to state and check the properties *)

(** ** One call of [_generate_alerts], as pure functions *)

(** The counter after the increment-or-reset, before the threshold test. *)
Definition tick (c : Z) (sig : bool) : Z := if sig then c + 1 else 0.

Definition fires (thr c : Z) (sig : bool) : bool := thr <=? tick c sig.

Definition settle (thr c : Z) (sig : bool) : Z :=
  if fires thr c sig then 0 else tick c sig.

(** The alert built at one site of [_generate_alerts]. *)
Definition event (sid : string) (t : float) (i : Z) (ed ty sev tag : string)
    (details : PyVal) : AlertEvent :=
  mkAlertEvent sid t i ty sev
    (Some (ed // (tag ++ "_" ++ pretty i ++ ".jpg")%string)) details.

Definition frame_alerts (sid : string) (i : Z) (t : float) (ed : string)
    (fp gd mm : PyVal) (mf : bool) (nf : PyVal) (objs : list PyVal)
    (a : Analyzer) : list AlertEvent :=
  (if negb (truthy fp)
   then [event sid t i ed "FACE_MISSING" "medium" "face_missing" (VDict [])]
   else []) ++
  (if fires 3 (_gaze_away_frames a) (ne_str gd "center")
   then [event sid t i ed "GAZE_AWAY" "medium" "gaze_away" (VDict [])]
   else []) ++
  (if fires 3 (_mouth_moving_frames a) (truthy mm)
   then [event sid t i ed "MOUTH_MOVEMENT" "medium" "mouth" (VDict [])]
   else []) ++
  (if fires 5 (_multi_face_frames a) mf
   then [event sid t i ed "MULTI_FACE" "high" "multi_face"
           (VDict [("num_faces"%string, nf)])]
   else []) ++
  (event sid t i ed "OBJECT_DETECTED" "high" "object" <$> objs).

Definition frame_self (gd mm : PyVal) (mf : bool) (a : Analyzer) : Analyzer :=
  set_multi (settle 5 (_multi_face_frames a) mf)
    (set_mouth (settle 3 (_mouth_moving_frames a) (truthy mm))
       (set_gaze (settle 3 (_gaze_away_frames a) (ne_str gd "center")) a)).

(** The disk after [cv2.imwrite] was called for the evidence of each alert,
    oldest first. *)
Definition write_evidence (env : Env) (fr : Frame) (al : list AlertEvent)
    (d : FileSystem) : FileSystem :=
  fold_left
    (fun d e => match a_image_path e with
                | Some p => fs_imwrite (cv2_imwrite env p fr) p fr d
                | None => d
                end) al d.

(** ** The frame loop *)

(** The locals after a raw frame that the stride drops. *)
Definition skip_frame (l : Locals) : Locals :=
  mkLocals (frame_idx l + 1) (processed_idx l) (last_faces l)
    (last_multi l) (last_objects l) (alerts_so_far l) (submitted l).

(** The ceiling of [a / b] for a positive [b]. *)
Definition ceil_div (a b : Z) : Z := (a + b - 1) / b.

(** The alerts of one type, in order. *)
Definition alerts_of_type (ty : string) (al : list AlertEvent) : list AlertEvent :=
  filter (fun e => a_type e = ty) al.

(** ** Consecutive calls of [_generate_alerts] *)

(** The arguments of one call that vary from frame to frame. *)
Record Signals : Type := mkSignals {
  s_frame_idx : Z;
  s_t : float;
  s_frame : Frame;
  s_face : PyVal;
  s_gaze : PyVal;
  s_mouth : PyVal;
  s_multi : bool;
  s_num_faces : PyVal;
  s_objects : list PyVal
}.

(** What the frame loop does with [_generate_alerts]: one call per processed
    frame, the returned alerts appended to the session's list. *)
Definition feed (env : Env) (sid ed : string) (inputs : list Signals)
    (acc : list AlertEvent) : M (list AlertEvent) :=
  for_each
    (fun s alerts =>
       let* new := _generate_alerts env sid (s_frame_idx s) (s_t s) (s_frame s) ed
                     (s_face s) (s_gaze s) (s_mouth s) (s_multi s)
                     (s_num_faces s) (s_objects s) in
       ret (alerts ++ new))
    inputs acc.

Inductive Sustained : Type := GazeAway | MouthMovement | MultiFace.

Definition threshold (k : Sustained) : Z :=
  match k with GazeAway => 3 | MouthMovement => 3 | MultiFace => 5 end.

Definition alert_type (k : Sustained) : string :=
  match k with
  | GazeAway => "GAZE_AWAY"
  | MouthMovement => "MOUTH_MOVEMENT"
  | MultiFace => "MULTI_FACE"
  end.

Definition signal (k : Sustained) (s : Signals) : bool :=
  match k with
  | GazeAway => ne_str (s_gaze s) "center"
  | MouthMovement => truthy (s_mouth s)
  | MultiFace => s_multi s
  end.

Definition counter (k : Sustained) (a : Analyzer) : Z :=
  match k with
  | GazeAway => _gaze_away_frames a
  | MouthMovement => _mouth_moving_frames a
  | MultiFace => _multi_face_frames a
  end.

(** The alert of kind [k] raised on the frame of [s]. *)
Definition sustained_event (sid ed : string) (k : Sustained) (s : Signals)
    : AlertEvent :=
  let i := s_frame_idx s in
  match k with
  | GazeAway =>
      mkAlertEvent sid (s_t s) i "GAZE_AWAY" "medium"
        (Some (ed // ("gaze_away_" ++ pretty i ++ ".jpg")%string)) (VDict [])
  | MouthMovement =>
      mkAlertEvent sid (s_t s) i "MOUTH_MOVEMENT" "medium"
        (Some (ed // ("mouth_" ++ pretty i ++ ".jpg")%string)) (VDict [])
  | MultiFace =>
      mkAlertEvent sid (s_t s) i "MULTI_FACE" "high"
        (Some (ed // ("multi_face_" ++ pretty i ++ ".jpg")%string))
        (VDict [("num_faces"%string, s_num_faces s)])
  end.

(** All alerts of a sequence of calls, and the analyzer after them. *)
Fixpoint all_alerts (sid ed : string) (inputs : list Signals) (a : Analyzer)
    : list AlertEvent :=
  match inputs with
  | [] => []
  | s :: rest =>
      frame_alerts sid (s_frame_idx s) (s_t s) ed (s_face s) (s_gaze s)
        (s_mouth s) (s_multi s) (s_num_faces s) (s_objects s) a
      ++ all_alerts sid ed rest (frame_self (s_gaze s) (s_mouth s) (s_multi s) a)
  end.

(** A single debounce counter run over a sequence: the elements on which it
    fires, and its final value. *)
Fixpoint fired {X} (sig : X -> bool) (thr c : Z) (xs : list X) : list X :=
  match xs with
  | [] => []
  | x :: rest =>
      (if fires thr c (sig x) then [x] else [])
      ++ fired sig thr (settle thr c (sig x)) rest
  end.

Fixpoint counter_after {X} (sig : X -> bool) (thr c : Z) (xs : list X) : Z :=
  match xs with
  | [] => c
  | x :: rest => counter_after sig thr (settle thr c (sig x)) rest
  end.

(** ** Session identifier and verdict policy *)

(** The identifier [analyze_video] works with: the supplied one unless it is
    [None] or empty. *)
Definition effective_session_id (env : Env) (video_path : string)
    (session_id : option string) : string :=
  if str_truthy session_id then default ""%string session_id
  else _generate_session_id env video_path.

(** The verdict policy in the words of the specification: first match wins;
    any MULTI_FACE or OBJECT_DETECTED alert present gives CHEATING; else an
    overall score below 0.7 or more than 5 alerts in total gives SUSPICIOUS;
    else CLEAN. *)
Definition cheating_alert (e : AlertEvent) : Prop :=
  a_type e = "MULTI_FACE"%string \/ a_type e = "OBJECT_DETECTED"%string.

Definition verdict_policy (al : list AlertEvent) (overall_score : float) : string :=
  if bool_decide (Exists cheating_alert al) then "CHEATING"%string
  else if PrimFloat.ltb overall_score 0.7%float || bool_decide (5 < length al)%nat
  then "SUSPICIOUS"%string
  else "CLEAN"%string.

(** ** Evidence paths *)

(** The tag [_generate_alerts] passes to [save_evidence] for each alert
    type. *)
Definition evidence_tag (ty : string) : string :=
  if decide (ty = "FACE_MISSING"%string) then "face_missing"
  else if decide (ty = "GAZE_AWAY"%string) then "gaze_away"
  else if decide (ty = "MOUTH_MOVEMENT"%string) then "mouth"
  else if decide (ty = "MULTI_FACE"%string) then "multi_face"
  else "object".

Definition alert_types : list string :=
  ["FACE_MISSING"; "GAZE_AWAY"; "MOUTH_MOVEMENT"; "MULTI_FACE"; "OBJECT_DETECTED"]%string.

Definition evidence_path (ed ty : string) (i : Z) : string :=
  ed // (evidence_tag ty ++ "_" ++ pretty i ++ ".jpg")%string.

Definition wf_alert (ed : string) (e : AlertEvent) : Prop :=
  a_type e ∈ alert_types
  /\ a_image_path e = Some (evidence_path ed (a_type e) (a_frame_index e)).

Definition alert_key (e : AlertEvent) : string * Z := (a_type e, a_frame_index e).

Definition debounced (e : AlertEvent) : Prop := a_type e <> "OBJECT_DETECTED"%string.

Definition alerts_inv (ed : string) (n : Z) (al : list AlertEvent) : Prop :=
  Forall (wf_alert ed) al
  /\ Forall (fun e => a_frame_index e < n) al
  /\ NoDup (alert_key <$> filter debounced al).

(** ** Scenarios *)

Definition phone : PyVal := VDict [("label"%string, VStr "phone")].
Definition book : PyVal := VDict [("label"%string, VStr "book")].

(** Test frames, told apart by their content: 0 a calm frame, 1 an empty
    chair, 2 the candidate looking left, 3 a phone in view, 4 a phone and a
    book in view, 5 a second person, 6 a frame on which the object and
    multi-face detectors return values of the wrong type, 7 a frame on which
    the face detector raises, 8 a frame for which it returns [None], 9 a
    frame for which the object detector returns an object of its own class. *)
Definition shot (content : nat) : Frame := mkFrame 360 480 content.

Definition demo_face : Detector := fun f =>
  match pixels f with
  | 1%nat => inr (VBool false)
  | 7%nat => inl (Raised "DetectorCrash")
  | 8%nat => inr VNone
  | _ => inr (VBool true)
  end.

Definition demo_eyes : Detector := fun f =>
  match pixels f with
  | 2%nat => inr (VTuple [VStr "left"; VNone])
  | _ => inr (VTuple [VStr "center"; VNone])
  end.

Definition demo_mouth : Detector := fun _ => inr (VBool false).

Definition demo_multi_face : Detector := fun f =>
  match pixels f with
  | 5%nat => inr (VInt 2)
  | 6%nat => inr (VFloat 2%float)
  | _ => inr (VInt 1)
  end.

Definition demo_objects : Detector := fun f =>
  match pixels f with
  | 3%nat => inr (VList [phone])
  | 4%nat => inr (VList [phone; book])
  | 6%nat => inr (VStr "phone")
  | 9%nat => inr (VList [VObject "Box"])
  | _ => inr (VList [])
  end.

Definition demo_videos : list (string * Video) :=
  [ ("calm.mp4"%string, mkVideo 30%float (replicate 7 (shot 0)));
    ("chair_phone.mp4"%string, mkVideo 30%float [mkFrame 360 480 1]);
    ("gaze2.mp4"%string, mkVideo 30%float (replicate 6 (shot 2)));
    ("gaze1.mp4"%string, mkVideo 30%float [shot 2]);
    ("gaze3.mp4"%string, mkVideo 30%float (replicate 11 (shot 2)));
    ("phone.mp4"%string, mkVideo 30%float (replicate 6 (shot 3)));
    ("desk.mp4"%string, mkVideo 0%float [shot 4]);
    ("crowd.mp4"%string, mkVideo 30%float (shot 5 :: replicate 5 (shot 0)));
    ("glitch.mp4"%string, mkVideo 30%float [shot 6]);
    ("crash.mp4"%string, mkVideo 30%float [shot 0; shot 0; shot 0; shot 0; shot 0; shot 7]);
    ("blank.mp4"%string, mkVideo 30%float [shot 8]) ].

Fixpoint before_dot (s : string) : string :=
  match s with
  | EmptyString => EmptyString
  | String c rest => if Ascii.eqb c (Ascii.ascii_of_nat 46) then EmptyString else String c (before_dot rest)
  end.

(** A configuration file with every [enabled] entry set to [flag]. *)
Definition config_with (flag : bool) : PyVal :=
  let entry := VDict [("enabled"%string, VBool flag)] in
  VDict [("detection"%string,
          VDict [("face"%string, entry); ("eyes"%string, entry);
                 ("mouth"%string, entry); ("multi_face"%string, entry);
                 ("objects"%string, entry)]);
         ("audio_monitoring"%string, entry)].

Definition all_enabled : PyVal := config_with true.

Definition demo_env : Env :=
  {| load_config := fun _ => inr all_enabled;
     FaceDetector := fun _ => inr demo_face;
     EyeTracker := fun _ => inr demo_eyes;
     MouthMonitor := fun _ => inr demo_mouth;
     MultiFaceDetector := fun _ => inr demo_multi_face;
     ObjectDetector := fun _ => inr demo_objects;
     VideoCapture := fun p => (list_to_map demo_videos : gmap string Video) !! p;
     cv2_resize := fun f w h => inr (mkFrame h w (pixels f));
     cv2_imwrite := fun _ _ => true;
     path_stem := before_dot;
     now_strftime := "20240101_120000";
     now_isoformat := "2024-01-01T12:00:00";
     compute_video_score := fun n _ _ => if n =? 0 then 1%float else 0.5%float;
     compute_audio_score := fun _ => 1%float;
     compute_overall_score := fun v a => PrimFloat.div (PrimFloat.add v a) 2%float;
     speaker_analyze := fun _ _ => inr (VDict []) |}.

Definition empty_disk : FileSystem := mkFS ∅ ∅.

(** The analyzer [OfflineExamAnalyzer(config_path, "logs")] on an empty
    disk. *)
Definition demo_world : World :=
  match __init__ demo_env "config/config.yaml" "logs" empty_disk with
  | (inr a, d) => mkWorld a d
  | (inl _, d) => mkWorld (mkAnalyzer all_enabled "" "" None None None None None
                             false None 0 0 0) d
  end.

(** The type and raw frame index of each alert of a run, or its exception. *)
Definition alert_keys (r : Outcome SessionSummary * World) : Outcome (list (string * Z)) :=
  match r.1 with
  | inr s => inr (alert_key <$> alerts s)
  | inl e => inl e
  end.

Definition demo_run (video : string) (sid : string) (w : World)
    : Outcome SessionSummary * World :=
  analyze_video demo_env perf_default video None (Some sid) w.

(** The evidence path of each alert of a run, or its exception. *)
Definition alert_paths (r : Outcome SessionSummary * World)
    : Outcome (list (option string)) :=
  match r.1 with
  | inr s => inr (a_image_path <$> alerts s)
  | inl e => inl e
  end.

(** ** Detector failures *)

(** [d] with every result that fails the type test [ok] replaced by
    [neutral]. *)
Definition guarded (ok : PyVal -> bool) (neutral : PyVal) (d : Detector) : Detector :=
  fun f =>
    match d f with
    | inr v => inr (if ok v then v else neutral)
    | inl e => inl e
    end.

(** The analyzer whose object detector returns the empty list wherever the
    original returns a non-list, and whose multi-face detector returns 1
    wherever the original returns a non-int. *)
Definition with_neutral_defaults (a : Analyzer) : Analyzer :=
  mkAnalyzer (cfg a) (logs_dir a) (evidence_root a) (face_detector a)
    (eye_tracker a) (mouth_monitor a)
    (guarded isinstance_int (VInt 1) <$> multi_face_detector a)
    (guarded isinstance_list (VList []) <$> object_detector a)
    (audio_enabled a) (speaker_analyzer a)
    (_gaze_away_frames a) (_mouth_moving_frames a) (_multi_face_frames a).

(** The outcome of a run, with the analyzer's detectors replaced. *)
Definition neutralised {A} (r : Outcome A * World) : Outcome A * World :=
  (r.1, mkWorld (with_neutral_defaults (self r.2)) (disk r.2)).

(** A computation that neither reads nor writes the world. *)
Definition pure {A} (m : M A) : Prop := exists o, forall w, m w = (o, w).

(** The frame the detectors are given: [fr] itself, or [fr] scaled down to
    [RESIZE_WIDTH] columns when it is wider (lines 120-122). *)
Definition seen_frame (env : Env) (perf : Perf) (fr : Frame) : Outcome Frame :=
  if RESIZE_WIDTH perf <? shape1 fr then
    if PrimFloat.eqb (float_of_Z (shape1 fr)) 0%float then inl ZeroDivisionError
    else
      match int_of_float
              (PrimFloat.mul (float_of_Z (shape0 fr))
                 (PrimFloat.div (float_of_Z (RESIZE_WIDTH perf))
                    (float_of_Z (shape1 fr)))) with
      | inl e => inl e
      | inr h => cv2_resize env fr (RESIZE_WIDTH perf) h
      end
  else inr fr.

Definition returns (od : option Detector) (fr : Frame) : Prop :=
  match od with
  | Some d => exists v, d fr = inr v
  | None => True
  end.

Definition unpacks (od : option Detector) (fr : Frame) : Prop :=
  match od with
  | Some d => exists v p, d fr = inr v /\ unpack2 v = inr p
  | None => True
  end.

(** Whether the cadence [every] lets a detector run on processed frame
    [idx]. *)
Definition due (every idx : Z) : Prop := every <> 0 /\ idx mod every = 0.

(** The first detector call on frame [fr] that raises, raises [e]: the
    detectors are called in the order face, eyes, mouth, objects, multi-face,
    the last two only when due. *)
Inductive detector_raises (perf : Perf) (a : Analyzer) (l : Locals) (fr : Frame)
    (e : exn) : Prop :=
| face_raises d :
    face_detector a = Some d -> d fr = inl e ->
    detector_raises perf a l fr e
| eyes_raise d :
    returns (face_detector a) fr ->
    eye_tracker a = Some d -> d fr = inl e ->
    detector_raises perf a l fr e
| mouth_raises d :
    returns (face_detector a) fr -> unpacks (eye_tracker a) fr ->
    mouth_monitor a = Some d -> d fr = inl e ->
    detector_raises perf a l fr e
| objects_raise d :
    returns (face_detector a) fr -> unpacks (eye_tracker a) fr ->
    returns (mouth_monitor a) fr ->
    object_detector a = Some d ->
    due (OBJ_DETECT_EVERY perf) (processed_idx l) -> d fr = inl e ->
    detector_raises perf a l fr e
| multi_face_raises d :
    returns (face_detector a) fr -> unpacks (eye_tracker a) fr ->
    returns (mouth_monitor a) fr ->
    (object_detector a = None
     \/ (OBJ_DETECT_EVERY perf <> 0
         /\ processed_idx l mod OBJ_DETECT_EVERY perf <> 0)
     \/ (due (OBJ_DETECT_EVERY perf) (processed_idx l)
         /\ returns (object_detector a) fr)) ->
    multi_face_detector a = Some d ->
    due (MF_DETECT_EVERY perf) (processed_idx l) -> d fr = inl e ->
    detector_raises perf a l fr e.

(** ** The calls of [_generate_alerts] a session makes *)

(** Lines 118-142: the arguments of the [_generate_alerts] call for a frame
    on the stride, from the detectors of [a] and the locals [l], or the first
    exception on the way. *)
Definition signals_of (env : Env) (perf : Perf) (a : Analyzer) (fps : float)
    (l : Locals) (fr : Frame) : Outcome Signals :=
  if PrimFloat.eqb fps 0%float then inl ZeroDivisionError
  else
    let? frame := seen_frame env perf fr in
    let? face_present :=
      match face_detector a with
      | Some d => d frame
      | None => inr (VBool true)
      end in
    let? gaze_dir :=
      match eye_tracker a with
      | Some d =>
          let? res := d frame in
          let? p := unpack2 res in
          inr p.1
      | None => inr (VStr "center")
      end in
    let? mouth_moving :=
      match mouth_monitor a with
      | Some d => d frame
      | None => inr (VBool false)
      end in
    let? objects :=
      match object_detector a with
      | Some d =>
          if OBJ_DETECT_EVERY perf =? 0 then inl ZeroDivisionError
          else if processed_idx l mod OBJ_DETECT_EVERY perf =? 0 then
            let? res := d frame in
            inr (match res with VList items => items | _ => [] end)
          else inr []
      | None => inr []
      end in
    let? lf :=
      match multi_face_detector a with
      | Some d =>
          if MF_DETECT_EVERY perf =? 0 then inl ZeroDivisionError
          else if processed_idx l mod MF_DETECT_EVERY perf =? 0 then
            let? mf := d frame in
            let last_faces := if isinstance_int mf then mf else VInt 1 in
            inr (last_faces, int_gt_1 last_faces)
          else inr (last_faces l, last_multi l)
      | None => inr (last_faces l, last_multi l)
      end in
    inr (mkSignals (frame_idx l) (PrimFloat.div (float_of_Z (frame_idx l)) fps)
           frame face_present gaze_dir mouth_moving lf.2 lf.1 objects).

(** The locals after the call with arguments [s], alerts apart. *)
Definition step_locals (l : Locals) (s : Signals) : Locals :=
  mkLocals (frame_idx l + 1) (processed_idx l + 1) (s_num_faces s) (s_multi s)
    (s_objects s) (alerts_so_far l) (submitted l).

(** The arguments of the calls of [_generate_alerts] over the frames of a
    video, in order: one call per frame whose raw index the stride keeps. *)
Fixpoint calls (env : Env) (perf : Perf) (a : Analyzer) (fps : float)
    (frames : list Frame) (l : Locals) : Outcome (list Signals) :=
  match frames with
  | [] => inr []
  | fr :: rest =>
      if FRAME_STRIDE perf =? 0 then inl ZeroDivisionError
      else if negb (frame_idx l mod FRAME_STRIDE perf =? 0) then
        calls env perf a fps rest (skip_frame l)
      else
        let? s := signals_of env perf a fps l fr in
        let? ss := calls env perf a fps rest (step_locals l s) in
        inr (s :: ss)
  end.

(** ** Concrete runs *)

Definition no_summary : SessionSummary := mkSessionSummary "" 0%float 0 0%float [].

Definition summary_of (r : Outcome SessionSummary * World) : SessionSummary :=
  match r.1 with
  | inr s => s
  | inl _ => no_summary
  end.

Definition desk_run : Outcome SessionSummary * World :=
  demo_run "desk.mp4" "s1" demo_world.

Definition calm_frames : list Frame := replicate 7 (shot 0).

Definition calm_loop : Outcome Locals * World :=
  for_each (loop_body demo_env perf_default "s0" "logs/evidence/s0" 30%float)
    calm_frames locals_init demo_world.

Definition locals_of (r : Outcome Locals * World) : Locals :=
  match r.1 with
  | inr l => l
  | inl _ => locals_init
  end.

Definition calm_signals (i : Z) : Signals :=
  mkSignals i (float_of_Z i) (shot 0) (VBool true) (VStr "center") (VBool false)
    false (VInt 1) [].

Definition away_signals (i : Z) : Signals :=
  mkSignals i (float_of_Z i) (shot 2) (VBool true) (VStr "left") (VBool false)
    false (VInt 1) [].

(** A processed frame that both cadences skip: processed index 1, with two
    faces seen on processed frame 0 and the multi-face counter at 4. *)
Definition held_locals : Locals := mkLocals 5 1 (VInt 2) true [phone] [] [0].

Definition held_world : World :=
  mkWorld (set_multi 4 (self demo_world)) (disk demo_world).

Definition held_step : Outcome Locals * World :=
  loop_body demo_env perf_default "s1" "logs/evidence/s1" 30%float (shot 0)
    held_locals held_world.


Definition crash_prefix : Outcome Locals * World :=
  for_each
    (loop_body demo_env perf_default "s1" "logs/evidence/s1" 30%float)
    (replicate 5 (shot 0)) locals_init
    (mkWorld (self demo_world) (mkdir_p "logs/evidence/s1" (disk demo_world))).

(** * Further definitions: what a processed frame is, and what sessions
    leave behind *)

(** ** What the detectors contribute to one processed frame *)

(** The value a per-frame detector hands to the alert evaluation: its own
    result when it is enabled, the neutral default otherwise. *)
Definition face_value (od : option Detector) (fr : Frame) (v : PyVal) : Prop :=
  match od with
  | Some d => d fr = inr v
  | None => v = VBool true
  end.

Definition gaze_value (od : option Detector) (fr : Frame) (v : PyVal) : Prop :=
  match od with
  | Some d => exists res p, d fr = inr res /\ unpack2 res = inr p /\ v = p.1
  | None => v = VStr "center"
  end.

Definition mouth_value (od : option Detector) (fr : Frame) (v : PyVal) : Prop :=
  match od with
  | Some d => d fr = inr v
  | None => v = VBool false
  end.

(** The object list of a processed frame: the detector's list when it is
    enabled and due, the empty list otherwise. *)
Definition objects_value (perf : Perf) (l : Locals) (od : option Detector)
    (fr : Frame) (objs : list PyVal) : Prop :=
  match od with
  | Some d =>
      OBJ_DETECT_EVERY perf <> 0
      /\ if processed_idx l mod OBJ_DETECT_EVERY perf =? 0
         then exists res, d fr = inr res
                /\ objs = match res with VList items => items | _ => [] end
         else objs = []
  | None => objs = []
  end.

(** The face count and multiple-faces flag of a processed frame: recomputed
    when the detector is enabled and due, carried over otherwise. *)
Definition multi_value (perf : Perf) (l : Locals) (od : option Detector)
    (fr : Frame) (nf : PyVal) (mf : bool) : Prop :=
  match od with
  | Some d =>
      MF_DETECT_EVERY perf <> 0
      /\ if processed_idx l mod MF_DETECT_EVERY perf =? 0
         then exists res, d fr = inr res
                /\ nf = (if isinstance_int res then res else VInt 1)
                /\ mf = int_gt_1 nf
         else nf = last_faces l /\ mf = last_multi l
  | None => nf = last_faces l /\ mf = last_multi l
  end.

(** A processed frame: what [loop_body] does with a frame on the stride,
    from the detector values to the new locals and world. *)
Definition processed (env : Env) (perf : Perf) (sid ed : string) (fps : float)
    (fr : Frame) (l : Locals) (w : World) (l' : Locals) (w' : World) : Prop :=
  exists fr' fp gd mm objs nf mf,
    let t := PrimFloat.div (float_of_Z (frame_idx l)) fps in
    let al := frame_alerts sid (frame_idx l) t ed fp gd mm mf nf objs (self w) in
    seen_frame env perf fr = inr fr'
    /\ face_value (face_detector (self w)) fr' fp
    /\ gaze_value (eye_tracker (self w)) fr' gd
    /\ mouth_value (mouth_monitor (self w)) fr' mm
    /\ objects_value perf l (object_detector (self w)) fr' objs
    /\ multi_value perf l (multi_face_detector (self w)) fr' nf mf
    /\ l' = mkLocals (frame_idx l + 1) (processed_idx l + 1) nf mf objs
              (alerts_so_far l ++ al) (submitted l ++ [frame_idx l])
    /\ w' = mkWorld (frame_self gd mm mf (self w))
               (write_evidence env fr' al (disk w)).

(** The summary [analyze_video] builds after a loop that ended with locals
    [l]. *)
Definition summary_after (sid : string) (cap : Video) (l : Locals) : SessionSummary :=
  {| session_id := sid;
     duration_seconds :=
       PrimFloat.div (float_of_Z (frame_idx l)) (float_or (cap_fps cap) 30%float);
     num_frames := frame_idx l;
     fps := float_or (cap_fps cap) 30%float;
     alerts := alerts_so_far l |}.

(** The path of a session's record. *)
Definition record_path (a : Analyzer) (sid : string) : string :=
  logs_dir a // (sid ++ ".json")%string.

(** Lines 273-285 on the disk: the record is opened for writing, then
    dumped. *)
Definition save_record (out : string) (log : SessionLog) (d : FileSystem)
    : Outcome unit * FileSystem :=
  match fs_open_w out d with
  | inl e => (inl e, d)
  | inr d1 =>
      if json_ok_log log then (inr tt, fs_write out (Json log) d1)
      else (inl TypeError, d1)
  end.

(** What follows the audio analysis: the record is saved and the summary
    returned. *)
Definition finish (env : Env) (summary : SessionSummary) (audio : option PyVal)
    (w : World) : Outcome SessionSummary * World :=
  let r := save_record (record_path (self w) (session_id summary))
             (session_log env summary audio) (disk w) in
  (match r.1 with inl e => inl e | inr _ => inr summary end,
   mkWorld (self w) r.2).

(** ** Analyzer state across a call *)

(** Each debounce counter is below its threshold and not negative. *)
Definition counters_in_range (a : Analyzer) : Prop :=
  0 <= _gaze_away_frames a < 3
  /\ 0 <= _mouth_moving_frames a < 3
  /\ 0 <= _multi_face_frames a < 5.

(** [a'] has the configuration, directories, detectors and audio flag of
    [a]. *)
Definition same_setup (a a' : Analyzer) : Prop :=
  cfg a' = cfg a
  /\ logs_dir a' = logs_dir a
  /\ evidence_root a' = evidence_root a
  /\ face_detector a' = face_detector a
  /\ eye_tracker a' = eye_tracker a
  /\ mouth_monitor a' = mouth_monitor a
  /\ multi_face_detector a' = multi_face_detector a
  /\ object_detector a' = object_detector a
  /\ audio_enabled a' = audio_enabled a.

(** ** The alerts of a session *)

(** Lines 204-250: FACE_MISSING, GAZE_AWAY and MOUTH_MOVEMENT are "medium",
    MULTI_FACE and OBJECT_DETECTED are "high". *)
Definition severity_of (ty : string) : string :=
  if decide (ty = "MULTI_FACE"%string \/ ty = "OBJECT_DETECTED"%string)
  then "high" else "medium".

(** An alert of session [sid], with evidence under [ed], of a video played
    at [fps]. *)
Definition alert_ok (sid ed : string) (fps : float) (e : AlertEvent) : Prop :=
  a_session_id e = sid
  /\ a_type e ∈ alert_types
  /\ a_severity e = severity_of (a_type e)
  /\ a_timestamp e = PrimFloat.div (float_of_Z (a_frame_index e)) fps
  /\ a_image_path e = Some (evidence_path ed (a_type e) (a_frame_index e)).

(** The details of the alerts the analyzer builds itself: empty, except for
    MULTI_FACE, which carries a face count above 1. *)
Definition details_ok (e : AlertEvent) : Prop :=
  (a_type e = "MULTI_FACE"%string ->
   exists n, 1 < n /\ a_details e = VDict [("num_faces"%string, VInt n)])
  /\ (a_type e <> "MULTI_FACE"%string -> a_type e <> "OBJECT_DETECTED"%string ->
      a_details e = VDict []).

(** Alerts in the order of their frames. *)
Definition by_frame (al : list AlertEvent) : Prop :=
  forall i j e1 e2,
    (i <= j)%nat -> al !! i = Some e1 -> al !! j = Some e2 ->
    a_frame_index e1 <= a_frame_index e2.

(** ** Files *)

(** [s] ends with [suffix]. *)
Definition ends_with (suffix s : string) : Prop :=
  exists p, s = (p ++ suffix)%string.

Fixpoint last_ascii (s : string) : option Ascii.ascii :=
  match s with
  | EmptyString => None
  | String c rest =>
      match rest with
      | EmptyString => Some c
      | String _ _ => last_ascii rest
      end
  end.

(** The file at [p] is an image. *)
Definition is_image (d : FileSystem) (p : string) : Prop :=
  exists f, files d !! p = Some (Image f).

(** A run of the scenario with three processed frames looking away. *)
Definition gaze_run : Outcome SessionSummary * World :=
  demo_run "gaze3.mp4" "s3" demo_world.

(** ** A configuration with every detector disabled *)

Definition all_disabled : PyVal := config_with false.

Definition idle_env : Env :=
  {| load_config := fun _ => inr all_disabled;
     FaceDetector := FaceDetector demo_env;
     EyeTracker := EyeTracker demo_env;
     MouthMonitor := MouthMonitor demo_env;
     MultiFaceDetector := MultiFaceDetector demo_env;
     ObjectDetector := ObjectDetector demo_env;
     VideoCapture := VideoCapture demo_env;
     cv2_resize := cv2_resize demo_env;
     cv2_imwrite := cv2_imwrite demo_env;
     path_stem := path_stem demo_env;
     now_strftime := now_strftime demo_env;
     now_isoformat := now_isoformat demo_env;
     compute_video_score := compute_video_score demo_env;
     compute_audio_score := compute_audio_score demo_env;
     compute_overall_score := compute_overall_score demo_env;
     speaker_analyze := speaker_analyze demo_env |}.

Definition idle_world : World :=
  match __init__ idle_env "config/config.yaml" "logs" empty_disk with
  | (inr a, d) => mkWorld a d
  | (inl _, _) => demo_world
  end.

(** The video with a phone and a book in view, seen by no detector. *)
Definition idle_run : Outcome SessionSummary * World :=
  analyze_video idle_env perf_default "desk.mp4" None (Some "s1"%string) idle_world.

(** No detector is enabled. *)
Definition no_detectors (a : Analyzer) : Prop :=
  face_detector a = None /\ eye_tracker a = None /\ mouth_monitor a = None
  /\ multi_face_detector a = None /\ object_detector a = None.

(** A run with an audio file. *)
Definition audio_run : Outcome SessionSummary * World :=
  analyze_video demo_env perf_default "calm.mp4" (Some "exam.wav"%string)
    (Some "s5"%string) demo_world.

(** ** Frames the stride drops *)

(** Two frame sequences of the same length that agree at every index the
    stride [S] keeps. *)
Definition same_sampled (S : Z) (fs1 fs2 : list Frame) : Prop :=
  length fs1 = length fs2
  /\ forall i f1 f2,
       fs1 !! i = Some f1 -> fs2 !! i = Some f2 ->
       Z.of_nat i mod S = 0 -> f1 = f2.

(** Two takes that differ only in frames 1 to 4; one of those frames makes
    the face detector crash.  A video of an empty chair whose frames 0, 5 and
    10 differ in size, frame 5 being wider than [RESIZE_WIDTH].  A video whose
    only frame makes the object detector return an object of its own class. *)
Definition cut_videos : list (string * Video) :=
  [ ("take1.mp4"%string, mkVideo 30%float (replicate 6 (shot 2)));
    ("take2.mp4"%string,
     mkVideo 30%float [shot 2; shot 7; shot 3; shot 5; shot 1; shot 2]);
    ("chair.mp4"%string,
     mkVideo 30%float
       ([mkFrame 360 480 1] ++ replicate 4 (shot 0) ++ [mkFrame 720 1280 1]
        ++ replicate 4 (shot 0) ++ [mkFrame 240 320 1]));
    ("boxed.mp4"%string, mkVideo 30%float [shot 9]) ].

Definition cut_env : Env :=
  {| load_config := load_config demo_env;
     FaceDetector := FaceDetector demo_env;
     EyeTracker := EyeTracker demo_env;
     MouthMonitor := MouthMonitor demo_env;
     MultiFaceDetector := MultiFaceDetector demo_env;
     ObjectDetector := ObjectDetector demo_env;
     VideoCapture := fun p => (list_to_map cut_videos : gmap string Video) !! p;
     cv2_resize := cv2_resize demo_env;
     cv2_imwrite := cv2_imwrite demo_env;
     path_stem := path_stem demo_env;
     now_strftime := now_strftime demo_env;
     now_isoformat := now_isoformat demo_env;
     compute_video_score := compute_video_score demo_env;
     compute_audio_score := compute_audio_score demo_env;
     compute_overall_score := compute_overall_score demo_env;
     speaker_analyze := speaker_analyze demo_env |}.

(** ** The configuration *)

(** [cfg["detection"][name]["enabled"]], the entry that decides whether
    the detector [name] is built (lines 73-79). *)
Definition flag (cfg : PyVal) (name : string) : Outcome PyVal :=
  let? det := getitem cfg "detection" in
  let? section := getitem det name in
  getitem section "enabled".

(** The configuration switches the detector [name] off. *)
Definition configured_off (cfg : PyVal) (name : string) : Prop :=
  exists v, flag cfg name = inr v /\ truthy v = false.

(** A configuration file without a [detection] section. *)
Definition broken_env : Env :=
  {| load_config := fun _ => inr (VDict [("audio_monitoring"%string,
                                           VDict [("enabled"%string, VBool false)])]);
     FaceDetector := FaceDetector demo_env;
     EyeTracker := EyeTracker demo_env;
     MouthMonitor := MouthMonitor demo_env;
     MultiFaceDetector := MultiFaceDetector demo_env;
     ObjectDetector := ObjectDetector demo_env;
     VideoCapture := VideoCapture demo_env;
     cv2_resize := cv2_resize demo_env;
     cv2_imwrite := cv2_imwrite demo_env;
     path_stem := path_stem demo_env;
     now_strftime := now_strftime demo_env;
     now_isoformat := now_isoformat demo_env;
     compute_video_score := compute_video_score demo_env;
     compute_audio_score := compute_audio_score demo_env;
     compute_overall_score := compute_overall_score demo_env;
     speaker_analyze := speaker_analyze demo_env |}.

(** The wrapper called with its default logs directory on an empty disk. *)
Definition default_recording : Outcome SessionSummary * FileSystem :=
  analyze_recording demo_env perf_default "desk.mp4" None (Some "s1"%string)
    "config/config.yaml" "logs/sessions" empty_disk.

(** ** The verdict as a level *)

(** CLEAN below SUSPICIOUS below CHEATING. *)
Definition verdict_rank (v : string) : Z :=
  if String.eqb v "CHEATING" then 2
  else if String.eqb v "SUSPICIOUS" then 1
  else 0.

(** The type counts of the session record (line 263). *)
Definition type_counts (al : list AlertEvent) : gmap string Z :=
  Counter (a_type <$> al).

(** ** What an evidence file shows *)

(** The frame of the video an alert was raised on, as the detectors saw it
    (resized when wider than [RESIZE_WIDTH]), and the alert's evidence path. *)
Definition raised_on (env : Env) (perf : Perf) (frames : list Frame)
    (e : AlertEvent) (p : string) (frame : Frame) : Prop :=
  a_image_path e = Some p
  /\ exists fr, frames !! Z.to_nat (a_frame_index e) = Some fr
               /\ seen_frame env perf fr = inr frame.

(** The evidence file of alert [e] holds the frame the alert was raised
    on. *)
Definition shows_frame (env : Env) (perf : Perf) (frames : list Frame)
    (d : FileSystem) (e : AlertEvent) : Prop :=
  exists p frame,
    raised_on env perf frames e p frame /\ files d !! p = Some (Image frame).


(** What the session did to the evidence path of [e]: the frame is there
    if [cv2.imwrite] reported success and the path was not a directory, and
    the path is as it was otherwise. *)
Definition evidence_state (env : Env) (perf : Perf) (frames : list Frame)
    (d d' : FileSystem) (e : AlertEvent) : Prop :=
  exists p frame,
    raised_on env perf frames e p frame
    /\ files d' !! p
       = if cv2_imwrite env p frame && negb (is_dir d p)
         then Some (Image frame) else files d !! p.


(** The empty chair, analysed with and without a working [cv2.imwrite],
    and the video with an object that cannot be encoded. *)
Definition chair_run : Outcome SessionSummary * World :=
  analyze_video cut_env perf_default "chair.mp4" None (Some "s7"%string) demo_world.



Definition chair_frames : list Frame :=
  [mkFrame 360 480 1] ++ replicate 4 (shot 0) ++ [mkFrame 720 1280 1]
  ++ replicate 4 (shot 0) ++ [mkFrame 240 320 1].

(** The frame loop over the same frames, the evidence directory in place. *)
Definition chair_world : World :=
  mkWorld (self demo_world) (mkdir_p "logs/evidence/s7" (disk demo_world)).

Definition chair_loop : Outcome Locals * World :=
  for_each (loop_body cut_env perf_default "s7" "logs/evidence/s7" 30%float)
    chair_frames locals_init chair_world.

(** * Properties *)

(** ** One call of [_generate_alerts] *)

#[local] Arguments ret {A} a w /.
#[local] Arguments raise {A} e w /.
#[local] Arguments bind {A B} m k w /.
#[local] Arguments lift {A} o w /.
#[local] Arguments get_self w /.
#[local] Arguments modify_self f w /.
#[local] Arguments modify_disk f w /.
#[local] Arguments disk_op f w /.
#[local] Arguments save_evidence env evidence_dir frame_idx frame tag w /.

Lemma object_loop env sid i t fr ed objs : forall acc a d,
  for_each
      (fun obj alerts =>
         let* p := save_evidence env ed i fr "object" in
         ret (alerts ++ [mkAlertEvent sid t i "OBJECT_DETECTED" "high"
                           (Some p) obj]))
      objs acc (mkWorld a d)
  = (inr (acc ++ (event sid t i ed "OBJECT_DETECTED" "high" "object" <$> objs)),
     mkWorld a (write_evidence env fr
                  (event sid t i ed "OBJECT_DETECTED" "high" "object" <$> objs) d)).
Proof.
  induction objs as [|o objs IH]; intros acc a d; simpl.
  - by rewrite app_nil_r.
  - rewrite IH. by rewrite <- app_assoc.
Qed.

Lemma generate_alerts_run env sid i t fr ed fp gd mm mf nf objs a d :
  _generate_alerts env sid i t fr ed fp gd mm mf nf objs (mkWorld a d)
  = (inr (frame_alerts sid i t ed fp gd mm mf nf objs a),
     mkWorld (frame_self gd mm mf a)
       (write_evidence env fr (frame_alerts sid i t ed fp gd mm mf nf objs a) d)).
Proof.
  destruct a as [c ld er fd et mo mfd od ae sa g m k].
  unfold _generate_alerts, frame_alerts, frame_self, settle, fires, tick.
  destruct (truthy fp), (ne_str gd "center"), (truthy mm), mf; simpl.
  all: repeat match goal with
      | |- context [if ?c then _ else _] => destruct c eqn:?; simpl
      end.
  all: rewrite object_loop; reflexivity.
Qed.

(** ** Inversion of the monad's primitives *)

Lemma bind_inr {A B} (m : M A) (k : A -> M B) w b w' :
  bind m k w = (inr b, w') ->
  exists a w1, m w = (inr a, w1) /\ k a w1 = (inr b, w').
Proof.
  unfold bind. destruct (m w) as [[e|a] w1]; [discriminate|]. eauto.
Qed.

Lemma bind_inl {A B} (m : M A) (k : A -> M B) w e w' :
  m w = (inl e, w') -> bind m k w = (inl e, w').
Proof. unfold bind. by intros ->. Qed.

Lemma bind_run {A B} (m : M A) (k : A -> M B) w a w1 :
  m w = (inr a, w1) -> bind m k w = k a w1.
Proof. unfold bind. by intros ->. Qed.

Lemma py_mod_inr a b w r w1 :
  py_mod a b w = (inr r, w1) -> b <> 0 /\ r = a mod b /\ w1 = w.
Proof.
  unfold py_mod. destruct (b =? 0) eqn:E; simpl; [discriminate|].
  apply Z.eqb_neq in E. intros; by simplify_eq.
Qed.

Lemma py_truediv_inr a b w r w1 :
  py_truediv a b w = (inr r, w1) -> r = PrimFloat.div a b /\ w1 = w.
Proof.
  unfold py_truediv. destruct (PrimFloat.eqb b 0); simpl; [discriminate|].
  intros; by simplify_eq.
Qed.

Tactic Notation "inv_bind" hyp(H) "as" ident(x) ident(w1) ident(Hx) :=
  cbv beta in H; apply bind_inr in H; destruct H as (x & w1 & Hx & H);
  cbv beta in H.

(** ** One iteration of the frame loop *)

Ltac inv_obind H :=
  repeat match type of H with
         | obind ?o _ = inr _ =>
             let E := fresh "E" in
             destruct o eqn:E; [discriminate H|]; cbn [obind] in H
         end.

Ltac unfold_monad := cbn [bind ret raise lift get_self obind fst snd].

Lemma loop_body_inv env perf sid ed fps fr l w l' w' :
  loop_body env perf sid ed fps fr l w = (inr l', w') ->
  FRAME_STRIDE perf <> 0 /\
  ((frame_idx l mod FRAME_STRIDE perf <> 0 /\ l' = skip_frame l /\ w' = w)
   \/
   (frame_idx l mod FRAME_STRIDE perf = 0 /\
    exists t fr' fp gd mm objs nf mf,
      let al := frame_alerts sid (frame_idx l) t ed fp gd mm mf nf objs (self w) in
      l' = mkLocals (frame_idx l + 1) (processed_idx l + 1) nf mf objs
             (alerts_so_far l ++ al) (submitted l ++ [frame_idx l]) /\
      w' = mkWorld (frame_self gd mm mf (self w))
             (write_evidence env fr' al (disk w)) /\
      (object_detector (self w) = None \/
       processed_idx l mod OBJ_DETECT_EVERY perf <> 0 -> objs = []) /\
      (multi_face_detector (self w) = None \/
       processed_idx l mod MF_DETECT_EVERY perf <> 0 ->
       nf = last_faces l /\ mf = last_multi l))).
Proof.
  unfold loop_body. intros H.
  inv_bind H as r w1 Hr. apply py_mod_inr in Hr as (ES & -> & ->).
  split; [done|].
  destruct (frame_idx l mod FRAME_STRIDE perf =? 0) eqn:EM;
    cbv beta iota delta [negb] in H.
  2:{ left. apply Z.eqb_neq in EM. simpl in H. by simplify_eq. }
  apply Z.eqb_eq in EM. right. split; [done|].
  inv_bind H as t w1 Ht. apply py_truediv_inr in Ht as (-> & ->).
  inv_bind H as fr' w1 Hfr.
  assert (w1 = w) as ->.
  { clear H.
    destruct (RESIZE_WIDTH perf <? shape1 fr); [|simpl in Hfr; by simplify_eq].
    inv_bind Hfr as sc w2 Hsc. apply py_truediv_inr in Hsc as (-> & ->).
    inv_bind Hfr as h w2 Hh. simpl in Hh, Hfr. by simplify_eq. }
  clear Hfr.
  inv_bind H as a w1 Ha. simpl in Ha. injection Ha as <- <-.
  inv_bind H as fp w1 Hfp.
  assert (w1 = w) as ->.
  { clear H. destruct (face_detector (self w)); simpl in Hfp; by simplify_eq. }
  clear Hfp.
  inv_bind H as gd w1 Hgd.
  assert (w1 = w) as ->.
  { clear H.
    destruct (eye_tracker (self w)); [|simpl in Hgd; by simplify_eq].
    inv_bind Hgd as res w2 Hres. inv_bind Hgd as p w3 Hp.
    simpl in Hres, Hp, Hgd. by simplify_eq. }
  clear Hgd.
  inv_bind H as mm w1 Hmm.
  assert (w1 = w) as ->.
  { clear H. destruct (mouth_monitor (self w)); simpl in Hmm; by simplify_eq. }
  clear Hmm.
  inv_bind H as objs w1 Hobjs.
  assert (w1 = w /\
          (object_detector (self w) = None \/
           processed_idx l mod OBJ_DETECT_EVERY perf <> 0 -> objs = []))
    as [-> Hobj].
  { clear H. destruct (object_detector (self w)) as [dobj|]; simpl in Hobjs.
    - unfold py_mod in Hobjs.
      destruct (OBJ_DETECT_EVERY perf =? 0); simpl in Hobjs; [discriminate|].
      destruct (processed_idx l mod OBJ_DETECT_EVERY perf =? 0) eqn:EO;
        simpl in Hobjs.
      + apply Z.eqb_eq in EO. destruct (dobj fr'); simplify_eq.
        split; [done|]. intros [?|?]; done.
      + simplify_eq. done.
    - simplify_eq. done. }
  clear Hobjs.
  inv_bind H as lf w1 Hlf.
  assert (w1 = w /\
          (multi_face_detector (self w) = None \/
           processed_idx l mod MF_DETECT_EVERY perf <> 0 ->
           lf.1 = last_faces l /\ lf.2 = last_multi l))
    as [-> Hmf].
  { clear H. destruct (multi_face_detector (self w)) as [dmf|]; simpl in Hlf.
    - unfold py_mod in Hlf.
      destruct (MF_DETECT_EVERY perf =? 0); simpl in Hlf; [discriminate|].
      destruct (processed_idx l mod MF_DETECT_EVERY perf =? 0) eqn:EO;
        simpl in Hlf.
      + apply Z.eqb_eq in EO. destruct (dmf fr'); simplify_eq.
        split; [done|]. intros [?|?]; done.
      + simplify_eq. done.
    - simplify_eq. done. }
  clear Hlf.
  inv_bind H as al w1 Hal.
  destruct w as [a d]. rewrite generate_alerts_run in Hal. simpl in H.
  simplify_eq.
  exists (PrimFloat.div (float_of_Z (frame_idx l)) fps), fr', fp, gd, mm, objs, lf.1, lf.2.
  simpl. done.
Qed.

(** A frame on the stride: the detectors are asked for the arguments of the
    call, [_generate_alerts] is called with them, and the locals take what
    it returns. *)
Lemma loop_body_on_stride env perf sid ed fps fr l w :
  FRAME_STRIDE perf <> 0 -> frame_idx l mod FRAME_STRIDE perf = 0 ->
  loop_body env perf sid ed fps fr l w
  = match signals_of env perf (self w) fps l fr with
    | inl e => (inl e, w)
    | inr s =>
        let r := _generate_alerts env sid (s_frame_idx s) (s_t s) (s_frame s) ed
                   (s_face s) (s_gaze s) (s_mouth s) (s_multi s) (s_num_faces s)
                   (s_objects s) w in
        (match r.1 with
         | inl e => inl e
         | inr new =>
             inr (mkLocals (frame_idx l + 1) (processed_idx l + 1) (s_num_faces s)
                    (s_multi s) (s_objects s) (alerts_so_far l ++ new)
                    (submitted l ++ [frame_idx l]))
         end, r.2)
    end.
Proof.
  intros HS HM. unfold loop_body, signals_of, seen_frame, py_mod, py_truediv.
  apply Z.eqb_neq in HS. rewrite HS, HM.
  cbn [bind ret raise lift get_self obind fst snd Z.eqb negb].
  destruct (PrimFloat.eqb fps 0); [done|]. unfold_monad.
  destruct (RESIZE_WIDTH perf <? shape1 fr);
    [destruct (PrimFloat.eqb (float_of_Z (shape1 fr)) 0);
       [by unfold_monad|]; unfold_monad;
     destruct (int_of_float _) as [e|h]; [by unfold_monad|]; unfold_monad;
     destruct (cv2_resize env fr (RESIZE_WIDTH perf) h) as [e|fr'];
       [by unfold_monad|]
    |]; unfold_monad.
  all: destruct (face_detector (self w)) as [d1|]; unfold_monad;
    [destruct (d1 _) as [e|fp]; [by unfold_monad|]; unfold_monad|].
  all: destruct (eye_tracker (self w)) as [d2|]; unfold_monad;
    [destruct (d2 _) as [e|res]; [by unfold_monad|]; unfold_monad;
     destruct (unpack2 res) as [e|p]; [by unfold_monad|]; unfold_monad|].
  all: destruct (mouth_monitor (self w)) as [d3|]; unfold_monad;
    [destruct (d3 _) as [e|mm]; [by unfold_monad|]; unfold_monad|].
  all: destruct (object_detector (self w)) as [d4|]; unfold_monad;
    [destruct (OBJ_DETECT_EVERY perf =? 0); [by unfold_monad|]; unfold_monad;
     destruct (_ mod OBJ_DETECT_EVERY perf =? 0); unfold_monad;
     [destruct (d4 _) as [e|objs]; [by unfold_monad|]; unfold_monad|]|].
  all: destruct (multi_face_detector (self w)) as [d5|]; unfold_monad;
    [destruct (MF_DETECT_EVERY perf =? 0); [by unfold_monad|]; unfold_monad;
     destruct (_ mod MF_DETECT_EVERY perf =? 0); unfold_monad;
     [destruct (d5 _) as [e|mf]; [by unfold_monad|]; unfold_monad|]|].
  all: cbv zeta; cbn [s_frame_idx s_t s_frame s_face s_gaze s_mouth s_multi
                        s_num_faces s_objects fst snd].
  all: match goal with
       | |- context [_generate_alerts ?x1 ?x2 ?x3 ?x4 ?x5 ?x6 ?x7 ?x8 ?x9 ?x10 ?x11
                       ?x12 ?x13] =>
           destruct (_generate_alerts x1 x2 x3 x4 x5 x6 x7 x8 x9 x10 x11 x12 x13)
             as [[e|new] w1]
       end; done.
Qed.

(** The call is for the frame's raw index and is given the frame the
    detectors saw. *)
Lemma signals_of_inr env perf a fps l fr s :
  signals_of env perf a fps l fr = inr s ->
  s_frame_idx s = frame_idx l /\ seen_frame env perf fr = inr (s_frame s).
Proof.
  unfold signals_of. destruct (PrimFloat.eqb fps 0); [discriminate|].
  intros H. inv_obind H. by injection H as <-.
Qed.

Lemma signals_of_locals env perf a fps l l2 fr :
  frame_idx l = frame_idx l2 -> processed_idx l = processed_idx l2 ->
  last_faces l = last_faces l2 -> last_multi l = last_multi l2 ->
  signals_of env perf a fps l fr = signals_of env perf a fps l2 fr.
Proof. unfold signals_of. by intros -> -> -> ->. Qed.

Lemma signals_of_frame_self env perf gd mm mf a fps l fr :
  signals_of env perf (frame_self gd mm mf a) fps l fr
  = signals_of env perf a fps l fr.
Proof. by destruct a. Qed.

(** The calls depend on the locals through the two indices and the cached
    face count only. *)
Lemma calls_locals env perf a fps frames : forall l l2,
  frame_idx l = frame_idx l2 -> processed_idx l = processed_idx l2 ->
  last_faces l = last_faces l2 -> last_multi l = last_multi l2 ->
  calls env perf a fps frames l = calls env perf a fps frames l2.
Proof.
  induction frames as [|fr frames IH]; intros l l2 H1 H2 H3 H4; [done|].
  simpl. rewrite (signals_of_locals _ _ _ _ l l2) by done. rewrite H1.
  destruct (FRAME_STRIDE perf =? 0); [done|].
  destruct (negb _).
  - apply IH; simpl; congruence.
  - destruct (signals_of _ _ _ _ l2 fr) as [e|s]; [done|]. cbn [obind].
    rewrite (IH (step_locals l s) (step_locals l2 s)); simpl; congruence.
Qed.

Lemma calls_frame_self env perf gd mm mf a fps frames : forall l,
  calls env perf (frame_self gd mm mf a) fps frames l
  = calls env perf a fps frames l.
Proof.
  induction frames as [|fr frames IH]; intros l; [done|].
  simpl. rewrite signals_of_frame_self, IH.
  destruct (FRAME_STRIDE perf =? 0); [done|].
  destruct (negb _); [done|].
  destruct (signals_of _ _ _ _ l fr) as [e|s]; [done|]. cbn [obind].
  by rewrite IH.
Qed.

(** ** Stride decimation *)

Lemma ceil_div_spec a b :
  0 < b -> (ceil_div a b - 1) * b < a <= ceil_div a b * b.
Proof.
  intros Hb. unfold ceil_div.
  pose proof (Z.div_mod (a + b - 1) b ltac:(lia)) as E.
  pose proof (Z.mod_pos_bound (a + b - 1) b Hb) as B.
  nia.
Qed.

Lemma ceil_div_step n S :
  0 < S -> 0 <= n ->
  (n mod S = 0 -> ceil_div (n + 1) S = ceil_div n S + 1 /\ ceil_div n S * S = n)
  /\ (n mod S <> 0 -> ceil_div (n + 1) S = ceil_div n S).
Proof.
  intros HS Hn.
  pose proof (ceil_div_spec n S HS) as C0.
  pose proof (ceil_div_spec (n + 1) S HS) as C1.
  pose proof (Z.div_mod n S ltac:(lia)) as E.
  pose proof (Z.mod_pos_bound n S HS) as B.
  set (q := n / S) in *. set (r := n mod S) in *.
  set (c0 := ceil_div n S) in *. set (c1 := ceil_div (n + 1) S) in *.
  split; intros Hm.
  - assert (c0 = q) as -> by nia. assert (c1 = q + 1) as -> by nia. nia.
  - assert (c0 = q + 1) as -> by nia. assert (c1 = q + 1) as -> by nia. done.
Qed.

Lemma multiples_below (S : Z) (n : nat) :
  0 < S ->
  filter (fun i => i mod S = 0) (seqZ 0 (Z.of_nat n))
  = (fun k => k * S) <$> seqZ 0 (ceil_div (Z.of_nat n) S).
Proof.
  intros HS. induction n as [|n IH].
  - unfold ceil_div. rewrite Z.div_small by lia. done.
  - rewrite seqZ_S, filter_app, IH. simpl.
    destruct (ceil_div_step (Z.of_nat n) S HS ltac:(lia)) as [H0 H1].
    pose proof (ceil_div_spec (Z.of_nat n) S HS) as Hc.
    assert (0 <= ceil_div (Z.of_nat n) S) as Hpos by nia.
    replace (Z.of_nat (Datatypes.S n)) with (Z.of_nat n + 1) by lia.
    destruct (decide (Z.of_nat n mod S = 0)) as [Hm|Hm].
    + destruct (H0 Hm) as [-> Hq].
      rewrite filter_cons_True by done. rewrite filter_nil.
      rewrite <- (Z2Nat.id (ceil_div (Z.of_nat n) S)) at 2 by done.
      replace (Z.of_nat (Z.to_nat (ceil_div (Z.of_nat n) S)) + 1)
        with (Z.of_nat (Datatypes.S (Z.to_nat (ceil_div (Z.of_nat n) S)))) by lia.
      rewrite seqZ_S, fmap_app, Z2Nat.id by done. simpl.
      do 2 f_equal. lia.
    + rewrite (H1 Hm). rewrite filter_cons_False by done.
      by rewrite filter_nil, app_nil_r.
Qed.

Lemma for_each_cons_inr {A S} (body : A -> S -> M S) x xs s w s' w' :
  for_each body (x :: xs) s w = (inr s', w') ->
  exists s1 w1, body x s w = (inr s1, w1) /\ for_each body xs s1 w1 = (inr s', w').
Proof. apply bind_inr. Qed.

Lemma loop_sampling env perf sid ed fps frames : forall l w l' w',
  0 < FRAME_STRIDE perf ->
  for_each (loop_body env perf sid ed fps) frames l w = (inr l', w') ->
  let hits := filter (fun i => i mod FRAME_STRIDE perf = 0)
                (seqZ (frame_idx l) (Z.of_nat (length frames))) in
  frame_idx l' = frame_idx l + Z.of_nat (length frames)
  /\ submitted l' = submitted l ++ hits
  /\ processed_idx l' = processed_idx l + Z.of_nat (length hits).
Proof.
  induction frames as [|fr frames IH]; intros l w l' w' HS H.
  - simpl in H. simplify_eq. cbv zeta. simpl.
    rewrite seqZ_nil by lia. rewrite filter_nil, app_nil_r. simpl.
    split_and!; [lia|done|lia].
  - apply for_each_cons_inr in H as (l1 & w1 & Hb & H).
    apply IH in H as (Hf & Hs & Hp); [|done].
    apply loop_body_inv in Hb as [_ Hb].
    cbv zeta. rewrite seqZ_cons by (simpl; lia).
    replace (Z.pred (Z.of_nat (length (fr :: frames))))
      with (Z.of_nat (length frames)) by (simpl; lia).
    destruct Hb as [(Hm & -> & ->)|(Hm & t & fr' & fp & gd & mm & objs & nf & mf & Hl & _)].
    + rewrite filter_cons_False by done. simpl in *.
      replace (Z.succ (frame_idx l)) with (frame_idx l + 1) by lia.
      split_and!; [lia|done|done].
    + rewrite filter_cons_True by done. simpl in Hl. subst l1. simpl in *.
      replace (Z.succ (frame_idx l)) with (frame_idx l + 1) by lia.
      split_and!; [lia| by rewrite Hs, <- app_assoc | lia].
Qed.

(** A run of the frame loop that completes is the sequence of
    [_generate_alerts] calls that [calls] lists: it ends with the alerts
    those calls return, one after the other, and in the world they
    leave. *)
Lemma loop_calls env perf sid ed fps frames : forall l w l' w',
  for_each (loop_body env perf sid ed fps) frames l w = (inr l', w') ->
  exists inputs,
    calls env perf (self w) fps frames l = inr inputs
    /\ feed env sid ed inputs (alerts_so_far l) w = (inr (alerts_so_far l'), w')
    /\ submitted l' = submitted l ++ (s_frame_idx <$> inputs)
    /\ Forall (fun s => exists k fr,
                   frames !! k = Some fr
                   /\ s_frame_idx s = frame_idx l + Z.of_nat k
                   /\ seen_frame env perf fr = inr (s_frame s)) inputs.
Proof.
  induction frames as [|fr frames IH]; intros l w l' w' H.
  - simpl in H. injection H as <- <-. exists []. simpl.
    by rewrite app_nil_r.
  - apply for_each_cons_inr in H as (l1 & w1 & Hb & H).
    pose proof (loop_body_inv _ _ _ _ _ _ _ _ _ _ Hb) as [HS Hcases].
    assert ((FRAME_STRIDE perf =? 0) = false) as HS0 by by apply Z.eqb_neq.
    destruct (decide (frame_idx l mod FRAME_STRIDE perf = 0)) as [HM|HM].
    + clear Hcases. rewrite loop_body_on_stride in Hb by done.
      destruct (signals_of env perf (self w) fps l fr) as [e|s] eqn:Hsig;
        [discriminate|].
      cbv zeta in Hb. destruct w as [a d]. rewrite generate_alerts_run in Hb.
      cbn [fst snd self] in Hb, Hsig. injection Hb as <- <-.
      apply IH in H as (inputs & Hc & Hf & Hs & Hfr). clear IH.
      cbn [self alerts_so_far submitted frame_idx] in Hc, Hf, Hs, Hfr.
      rewrite calls_frame_self in Hc.
      rewrite (calls_locals _ _ _ _ _ _ (step_locals l s)) in Hc by done.
      destruct (signals_of_inr _ _ _ _ _ _ _ Hsig) as [Hi Hseen].
      exists (s :: inputs). split_and!.
      * cbn [calls self]. rewrite HS0, HM, Hsig. cbn [Z.eqb negb obind].
        by rewrite Hc.
      * unfold feed in *. cbn [for_each]. unfold bind at 1.
        unfold bind at 1. rewrite generate_alerts_run. cbn [ret].
        exact Hf.
      * rewrite Hs, fmap_cons, Hi, <- app_assoc. done.
      * apply Forall_cons. split.
        -- exists 0%nat, fr. split_and!; [done|lia|done].
        -- eapply Forall_impl; [exact Hfr|].
           intros s0 (k & fr0 & Hk & Hk' & Hk''). exists (S k), fr0.
           split_and!; [done|lia|done].
    + destruct Hcases as [(_ & -> & ->)|[? _]]; [|done].
      apply IH in H as (inputs & Hc & Hf & Hs & Hfr). clear IH.
      exists inputs. split_and!.
      * cbn [calls]. rewrite HS0.
        destruct (frame_idx l mod FRAME_STRIDE perf =? 0) eqn:E;
          [by apply Z.eqb_eq in E|]. exact Hc.
      * exact Hf.
      * exact Hs.
      * eapply Forall_impl; [exact Hfr|].
        intros s0 (k & fr0 & Hk & Hk' & Hk''). exists (S k), fr0.
        simpl in Hk'. split_and!; [done|lia|done].
Qed.

(** C6: with a positive stride [S], a run of the frame loop over [F] decoded
    frames that completes is a sequence of exactly [ceil (F / S)] calls of
    [_generate_alerts]: the alerts it has collected and the world it ends in
    are those of running these calls one after the other from the world it
    started in.  The arguments of the calls are what the detectors gave for
    the frames concerned; the raw frame indices passed are, in order,
    [0, S, 2S, ...], exactly the multiples of [S] below [F], and each call
    is given the frame of the video at its index (scaled down when it is
    wide). *)
Theorem stride_sampling env perf sid ed fps frames w l' w' :
  0 < FRAME_STRIDE perf ->
  for_each (loop_body env perf sid ed fps) frames locals_init w = (inr l', w') ->
  let S := FRAME_STRIDE perf in
  let F := Z.of_nat (length frames) in
  exists inputs,
    calls env perf (self w) fps frames locals_init = inr inputs
    /\ feed env sid ed inputs [] w = (inr (alerts_so_far l'), w')
    /\ Z.of_nat (length inputs) = ceil_div F S
    /\ s_frame_idx <$> inputs = (fun k => k * S) <$> seqZ 0 (ceil_div F S)
    /\ (forall i, i ∈ (s_frame_idx <$> inputs) <-> 0 <= i < F /\ i mod S = 0)
    /\ Forall (fun s => exists fr,
                   frames !! Z.to_nat (s_frame_idx s) = Some fr
                   /\ seen_frame env perf fr = inr (s_frame s)) inputs
    /\ processed_idx l' = ceil_div F S
    /\ submitted l' = s_frame_idx <$> inputs
    /\ frame_idx l' = F.
Proof.
  intros HS H.
  destruct (loop_calls _ _ _ _ _ _ _ _ _ _ H) as (inputs & Hc & Hfeed & Hsub & Hfr).
  apply loop_sampling in H as (Hf & Hs & Hp); [|done].
  simpl in Hf, Hs, Hp, Hsub, Hfr, Hfeed. cbv zeta.
  pose proof (ceil_div_spec (Z.of_nat (length frames)) (FRAME_STRIDE perf) HS) as Hcd.
  assert (0 <= ceil_div (Z.of_nat (length frames)) (FRAME_STRIDE perf)) by nia.
  exists inputs. rewrite <- Hsub. rewrite Hp, Hs.
  assert (Z.of_nat (length inputs) = Z.of_nat (length (submitted l'))) as ->
    by by rewrite Hsub, length_fmap.
  rewrite Hs. rewrite multiples_below by done.
  rewrite length_fmap, length_seqZ, Z2Nat.id by done.
  split_and!; try done.
  - intros i. rewrite <- multiples_below by done.
    rewrite list_elem_of_filter, elem_of_seqZ.
    split; intros [? ?]; split; (done || lia).
  - eapply Forall_impl; [exact Hfr|].
    intros s (k & fr & Hk & Hk' & Hk''). exists fr.
    rewrite Hk', Z.add_0_l, Nat2Z.id. done.
Qed.

(** ** Alerts by type *)

Lemma alerts_of_type_app ty al1 al2 :
  alerts_of_type ty (al1 ++ al2) = alerts_of_type ty al1 ++ alerts_of_type ty al2.
Proof. apply filter_app. Qed.

Lemma alerts_of_type_events_same sid t i ed ty sev tag objs :
  alerts_of_type ty (event sid t i ed ty sev tag <$> objs)
  = event sid t i ed ty sev tag <$> objs.
Proof.
  induction objs as [|o objs IH]; [done|].
  unfold alerts_of_type in *. rewrite fmap_cons.
  rewrite filter_cons_True by done. by rewrite IH.
Qed.

Lemma alerts_of_type_events_other sid t i ed ty ty' sev tag objs :
  ty <> ty' ->
  alerts_of_type ty' (event sid t i ed ty sev tag <$> objs) = [].
Proof.
  intros Hne. induction objs as [|o objs IH]; [done|].
  unfold alerts_of_type in *. rewrite fmap_cons.
  rewrite filter_cons_False by done. by rewrite IH.
Qed.

Ltac split_alerts :=
  unfold frame_alerts;
  rewrite !alerts_of_type_app;
  first [ rewrite alerts_of_type_events_same
        | rewrite alerts_of_type_events_other by discriminate ];
  repeat match goal with
         | |- context [negb ?c] => destruct c; cbn [negb]
         | |- context [if ?c then _ else _] => destruct c
         end;
  reflexivity.

Lemma face_missing_alerts sid i t ed fp gd mm mf nf objs a :
  alerts_of_type "FACE_MISSING" (frame_alerts sid i t ed fp gd mm mf nf objs a)
  = if truthy fp then []
    else [event sid t i ed "FACE_MISSING" "medium" "face_missing" (VDict [])].
Proof. split_alerts. Qed.

Lemma object_alerts sid i t ed fp gd mm mf nf objs a :
  alerts_of_type "OBJECT_DETECTED" (frame_alerts sid i t ed fp gd mm mf nf objs a)
  = event sid t i ed "OBJECT_DETECTED" "high" "object" <$> objs.
Proof. split_alerts. Qed.

Lemma gaze_alerts sid i t ed fp gd mm mf nf objs a :
  alerts_of_type "GAZE_AWAY" (frame_alerts sid i t ed fp gd mm mf nf objs a)
  = if fires 3 (_gaze_away_frames a) (ne_str gd "center")
    then [event sid t i ed "GAZE_AWAY" "medium" "gaze_away" (VDict [])]
    else [].
Proof. split_alerts. Qed.

Lemma mouth_alerts sid i t ed fp gd mm mf nf objs a :
  alerts_of_type "MOUTH_MOVEMENT" (frame_alerts sid i t ed fp gd mm mf nf objs a)
  = if fires 3 (_mouth_moving_frames a) (truthy mm)
    then [event sid t i ed "MOUTH_MOVEMENT" "medium" "mouth" (VDict [])]
    else [].
Proof. split_alerts. Qed.

Lemma multi_face_alerts sid i t ed fp gd mm mf nf objs a :
  alerts_of_type "MULTI_FACE" (frame_alerts sid i t ed fp gd mm mf nf objs a)
  = if fires 5 (_multi_face_frames a) mf
    then [event sid t i ed "MULTI_FACE" "high" "multi_face"
            (VDict [("num_faces"%string, nf)])]
    else [].
Proof. split_alerts. Qed.

(** C7: FACE_MISSING and OBJECT_DETECTED are instantaneous.  Whatever the
    debounce counters hold, one call of [_generate_alerts] returns exactly
    one FACE_MISSING alert for this frame when the face value is falsy (none
    otherwise) and exactly one OBJECT_DETECTED alert for this frame per item
    of the object list, in order and carrying that item as details. *)
Theorem instantaneous_alerts env sid i t fr ed fp gd mm mf nf objs w :
  exists al,
    (_generate_alerts env sid i t fr ed fp gd mm mf nf objs w).1 = inr al
    /\ alerts_of_type "FACE_MISSING" al
       = (if truthy fp then []
          else [mkAlertEvent sid t i "FACE_MISSING" "medium"
                  (Some (ed // ("face_missing_" ++ pretty i ++ ".jpg")%string))
                  (VDict [])])
    /\ length (alerts_of_type "FACE_MISSING" al)
       = (if truthy fp then 0%nat else 1%nat)
    /\ alerts_of_type "OBJECT_DETECTED" al
       = (fun obj => mkAlertEvent sid t i "OBJECT_DETECTED" "high"
                       (Some (ed // ("object_" ++ pretty i ++ ".jpg")%string))
                       obj) <$> objs
    /\ length (alerts_of_type "OBJECT_DETECTED" al) = length objs.
Proof.
  destruct w as [a d]. rewrite generate_alerts_run. simpl.
  eexists; split; [reflexivity|].
  rewrite face_missing_alerts, object_alerts.
  split_and!.
  - by destruct (truthy fp).
  - by destruct (truthy fp).
  - done.
  - by rewrite length_fmap.
Qed.

(** ** Consecutive calls of [_generate_alerts] *)

Lemma feed_run env sid ed inputs : forall acc a d,
  exists a' d',
    feed env sid ed inputs acc (mkWorld a d)
    = (inr (acc ++ all_alerts sid ed inputs a), mkWorld a' d').
Proof.
  induction inputs as [|s rest IH]; intros acc a d.
  - exists a, d. simpl. by rewrite app_nil_r.
  - unfold feed. simpl. rewrite generate_alerts_run.
    destruct (IH (acc ++ frame_alerts sid (s_frame_idx s) (s_t s) ed (s_face s)
                    (s_gaze s) (s_mouth s) (s_multi s) (s_num_faces s)
                    (s_objects s) a)
                 (frame_self (s_gaze s) (s_mouth s) (s_multi s) a)
                 (write_evidence env (s_frame s)
                    (frame_alerts sid (s_frame_idx s) (s_t s) ed (s_face s)
                       (s_gaze s) (s_mouth s) (s_multi s) (s_num_faces s)
                       (s_objects s) a) d)) as (a' & d' & E).
    exists a', d'. unfold feed in E. rewrite E. by rewrite <- app_assoc.
Qed.

Lemma counter_frame_self k s a :
  counter k (frame_self (s_gaze s) (s_mouth s) (s_multi s) a)
  = settle (threshold k) (counter k a) (signal k s).
Proof. destruct k; reflexivity. Qed.

Lemma sustained_alerts sid ed k inputs : forall a,
  alerts_of_type (alert_type k) (all_alerts sid ed inputs a)
  = sustained_event sid ed k <$> fired (signal k) (threshold k) (counter k a) inputs.
Proof.
  induction inputs as [|s rest IH]; intros a; [done|].
  simpl. rewrite alerts_of_type_app, IH, counter_frame_self, fmap_app.
  f_equal.
  destruct k; simpl;
    [rewrite gaze_alerts | rewrite mouth_alerts | rewrite multi_face_alerts];
    by destruct (fires _ _ _).
Qed.

(** The alerts a run of the frame loop collects are those of consecutive
    [_generate_alerts] calls, one per frame index it submitted. *)
Lemma loop_alerts_feed env perf sid ed fps frames : forall l w l' w',
  for_each (loop_body env perf sid ed fps) frames l w = (inr l', w') ->
  exists inputs,
    alerts_so_far l' = alerts_so_far l ++ all_alerts sid ed inputs (self w)
    /\ submitted l' = submitted l ++ (s_frame_idx <$> inputs).
Proof.
  induction frames as [|fr frames IH]; intros l w l' w' H.
  - simpl in H. simplify_eq. exists []. simpl. by rewrite !app_nil_r.
  - apply for_each_cons_inr in H as (l1 & w1 & Hb & H).
    apply IH in H as (inputs & Ha & Hs). clear IH.
    apply loop_body_inv in Hb as [_ Hb].
    destruct Hb as [(_ & -> & ->)|(_ & t & fr' & fp & gd & mm & objs & nf & mf & -> & -> & _)].
    + exists inputs. done.
    + exists (mkSignals (frame_idx l) t fr' fp gd mm mf nf objs :: inputs).
      simpl in *. rewrite Ha, Hs, <- !app_assoc. done.
Qed.

Section Debounce.
Context {X : Type} (sig : X -> bool) (thr : Z).

Lemma fired_app c xs ys :
  fired sig thr c (xs ++ ys)
  = fired sig thr c xs ++ fired sig thr (counter_after sig thr c xs) ys.
Proof.
  revert c. induction xs as [|x xs IH]; intros c; [done|].
  simpl. by rewrite IH, app_assoc.
Qed.

Lemma counter_after_app c xs ys :
  counter_after sig thr c (xs ++ ys)
  = counter_after sig thr (counter_after sig thr c xs) ys.
Proof. revert c. induction xs as [|x xs IH]; intros c; [done|]. simpl. by rewrite IH. Qed.

Hypothesis thr_pos : 0 < thr.

(** While the signal is false nothing fires and the counter is zero. *)
Lemma quiet c xs :
  Forall (fun x => sig x = false) xs ->
  fired sig thr c xs = []
  /\ counter_after sig thr c xs = match xs with [] => c | _ => 0 end.
Proof.
  intros H. revert c. induction H as [|x xs Hx _ IH]; intros c; [done|].
  simpl. unfold settle, fires, tick. rewrite Hx.
  destruct (Z.leb_spec thr 0); [lia|].
  destruct (IH 0) as [-> ->]. split; [done|]. by destruct xs.
Qed.

(** Below the threshold a true signal only counts. *)
Lemma ramp c xs :
  Forall (fun x => sig x = true) xs ->
  c + Z.of_nat (length xs) < thr ->
  fired sig thr c xs = []
  /\ counter_after sig thr c xs = c + Z.of_nat (length xs).
Proof.
  intros H. revert c. induction H as [|x xs Hx _ IH]; intros c Hc.
  - simpl. split; [done|lia].
  - simpl in *. unfold settle, fires, tick. rewrite Hx.
    destruct (Z.leb_spec thr (c + 1)); [lia|].
    destruct (IH (c + 1)) as [-> ->]; [lia|]. split; [done|lia].
Qed.

(** [thr] true signals in a row from a zero counter fire once, on the last
    of them, and leave the counter at zero. *)
Lemma burst xs :
  Forall (fun x => sig x = true) xs ->
  Z.of_nat (length xs) = thr ->
  exists x, last xs = Some x
    /\ fired sig thr 0 xs = [x]
    /\ counter_after sig thr 0 xs = 0.
Proof.
  intros H Hlen. destruct xs as [|x0 xs0] using rev_ind; [simpl in Hlen; lia|].
  clear IHxs0. rewrite length_app in Hlen. simpl in Hlen.
  apply Forall_app in H as [Hinit Hx]. rewrite Forall_singleton in Hx.
  exists x0. rewrite last_snoc, fired_app, counter_after_app.
  destruct (ramp 0 xs0 Hinit) as [-> ->]; [lia|].
  simpl. unfold settle, fires, tick. rewrite Hx.
  destruct (Z.leb_spec thr (0 + Z.of_nat (length xs0) + 1)); [done|lia].
Qed.
End Debounce.

(** C5: for each sustained signal (gaze away and mouth moving with threshold
    3, multiple faces with threshold 5), a run of calls in which the signal is
    true on exactly [threshold] consecutive frames, false before and after
    (the counter being zero when the run starts the sequence), yields exactly
    one alert of that type, raised on the last frame of the run, where the
    counter reaches the threshold; a run of [2 * threshold] consecutive true
    frames yields exactly two, on its [threshold]-th and its last frame. *)
Theorem sustained_debounce env sid ed (k : Sustained)
    (pre mid post : list Signals) w :
  Forall (fun s => signal k s = false) pre ->
  Forall (fun s => signal k s = true) mid ->
  Forall (fun s => signal k s = false) post ->
  (pre = [] -> counter k (self w) = 0) ->
  exists al,
    (feed env sid ed (pre ++ mid ++ post) [] w).1 = inr al
    /\ (Z.of_nat (length mid) = threshold k ->
        exists s, last mid = Some s
          /\ alerts_of_type (alert_type k) al = [sustained_event sid ed k s])
    /\ (Z.of_nat (length mid) = 2 * threshold k ->
        exists s1 s2,
          mid !! Z.to_nat (threshold k - 1) = Some s1
          /\ last mid = Some s2
          /\ alerts_of_type (alert_type k) al
             = [sustained_event sid ed k s1; sustained_event sid ed k s2]).
Proof.
  intros Hpre Hmid Hpost Hc0. destruct w as [a d]. simpl in Hc0.
  destruct (feed_run env sid ed (pre ++ mid ++ post) [] a d) as (a' & d' & E0).
  rewrite E0.
  eexists; split; [reflexivity|]. simpl.
  assert (0 < threshold k) as Hthr by (destruct k; done).
  rewrite sustained_alerts, !fired_app.
  destruct (quiet (signal k) (threshold k) Hthr (counter k a) pre Hpre) as [-> Hc].
  assert (counter_after (signal k) (threshold k) (counter k a) pre = 0) as ->.
  { rewrite Hc. destruct pre; [by apply Hc0|done]. }
  simpl. split.
  - intros Hlen.
    destruct (burst (signal k) (threshold k) Hthr mid Hmid Hlen) as (s & Hlast & -> & ->).
    destruct (quiet (signal k) (threshold k) Hthr 0 post Hpost) as [-> _].
    exists s. done.
  - intros Hlen.
    set (n := Z.to_nat (threshold k)).
    assert (mid = take n mid ++ drop n mid) as E by (by rewrite take_drop).
    assert (Z.of_nat (length (take n mid)) = threshold k) as L1
      by (rewrite length_take; lia).
    assert (Z.of_nat (length (drop n mid)) = threshold k) as L2
      by (rewrite length_drop; lia).
    rewrite E in Hmid. apply Forall_app in Hmid as [H1 H2].
    destruct (burst (signal k) (threshold k) Hthr _ H1 L1) as (s1 & Hl1 & F1 & C1).
    destruct (burst (signal k) (threshold k) Hthr _ H2 L2) as (s2 & Hl2 & F2 & C2).
    exists s1, s2. split_and!.
    + rewrite last_lookup in Hl1. rewrite lookup_take_lt in Hl1 by lia.
      rewrite <- Hl1. f_equal. rewrite length_take. lia.
    + rewrite E. rewrite last_app, Hl2. done.
    + rewrite E at 1 2. rewrite fired_app, counter_after_app, F1, C1, F2, C2.
      destruct (quiet (signal k) (threshold k) Hthr 0 post Hpost) as [-> _].
      done.
Qed.

(** ** The session as a whole *)

Lemma analyze_video_blocked env perf vp ap sid w e :
  blocked (disk w) (evidence_root (self w) // effective_session_id env vp sid)
  = Some e ->
  analyze_video env perf vp ap sid w = (inl e, w).
Proof.
  intros H. unfold analyze_video. fold (effective_session_id env vp sid).
  simpl. unfold fs_mkdir. by rewrite H.
Qed.

Lemma analyze_video_unopenable env perf vp ap sid w :
  VideoCapture env vp = None ->
  blocked (disk w) (evidence_root (self w) // effective_session_id env vp sid)
  = None ->
  analyze_video env perf vp ap sid w
  = (inl (RuntimeError ("Cannot open video: " ++ vp)%string),
     mkWorld (self w)
       (mkdir_p (evidence_root (self w) // effective_session_id env vp sid)
          (disk w))).
Proof.
  intros H Hb. unfold analyze_video. fold (effective_session_id env vp sid).
  simpl. unfold fs_mkdir. rewrite Hb. simpl. by rewrite H.
Qed.

Lemma analyze_video_opened env perf vp ap sid cap w :
  VideoCapture env vp = Some cap ->
  blocked (disk w) (evidence_root (self w) // effective_session_id env vp sid)
  = None ->
  analyze_video env perf vp ap sid w
  = run_session env perf cap ap (effective_session_id env vp sid)
      (evidence_root (self w) // effective_session_id env vp sid)
      (mkWorld (self w)
         (mkdir_p (evidence_root (self w) // effective_session_id env vp sid)
            (disk w))).
Proof.
  intros H Hb. unfold analyze_video. fold (effective_session_id env vp sid).
  simpl. unfold fs_mkdir. rewrite Hb. simpl. by rewrite H.
Qed.

(** A call that returns had its evidence directory created and its capture
    opened. *)
Lemma analyze_video_inr env perf vp ap sid w summary w' :
  analyze_video env perf vp ap sid w = (inr summary, w') ->
  exists cap,
    VideoCapture env vp = Some cap
    /\ blocked (disk w) (evidence_root (self w) // effective_session_id env vp sid)
       = None
    /\ run_session env perf cap ap (effective_session_id env vp sid)
         (evidence_root (self w) // effective_session_id env vp sid)
         (mkWorld (self w)
            (mkdir_p (evidence_root (self w) // effective_session_id env vp sid)
               (disk w)))
       = (inr summary, w').
Proof.
  intros H.
  destruct (blocked (disk w)
              (evidence_root (self w) // effective_session_id env vp sid))
    as [e|] eqn:Hb.
  { rewrite (analyze_video_blocked _ _ _ _ _ _ e) in H by done. discriminate. }
  destruct (VideoCapture env vp) as [cap|] eqn:Hcap.
  2:{ rewrite analyze_video_unopenable in H by done. discriminate. }
  rewrite (analyze_video_opened _ _ _ _ _ cap) in H by done. eauto.
Qed.

Lemma loop_logs_dir env perf sid ed fps frames : forall l w l' w',
  for_each (loop_body env perf sid ed fps) frames l w = (inr l', w') ->
  logs_dir (self w') = logs_dir (self w).
Proof.
  induction frames as [|fr frames IH]; intros l w l' w' H.
  - simpl in H. by simplify_eq.
  - apply for_each_cons_inr in H as (l1 & w1 & Hb & H).
    apply IH in H. rewrite H.
    apply loop_body_inv in Hb as [_ Hb].
    destruct Hb as [(_ & _ & ->)|(_ & t & fr' & fp & gd & mm & objs & nf & mf & _ & -> & _)];
      done.
Qed.

Lemma float_or_nonzero f : PrimFloat.eqb (float_or f 30%float) 0%float = false.
Proof. unfold float_or. destruct (PrimFloat.eqb f 0%float) eqn:E; [reflexivity|exact E]. Qed.

Lemma save_session_log_run env summary audio w :
  _save_session_log env summary audio w
  = let r := save_record (record_path (self w) (session_id summary))
               (session_log env summary audio) (disk w) in
    (r.1, mkWorld (self w) r.2).
Proof.
  unfold _save_session_log, save_record, record_path. simpl.
  destruct w as [a d]. simpl.
  destruct (fs_open_w _ d) as [e|d1]; [done|]. simpl.
  by destruct (json_ok_log _).
Qed.

(** A record that was saved: the file could be opened, the document could
    be encoded, and the file holds it. *)
Lemma save_record_inr out log d u d' :
  save_record out log d = (inr u, d') ->
  fs_open_w out d = inr (fs_write out Truncated d)
  /\ json_ok_log log = true
  /\ d' = fs_write out (Json log) d.
Proof.
  unfold save_record, fs_open_w.
  destruct (is_dir d out); [discriminate|].
  destruct (existsb (is_file d) (parents out)); [discriminate|].
  destruct (parent_ok d out); [|discriminate].
  destruct (json_ok_log log); [|discriminate].
  intros H. injection H as _ <-. split_and!; try done.
  unfold fs_write. simpl. f_equal. apply insert_insert_eq.
Qed.

Lemma run_session_eq env perf cap ap sid ed w :
  run_session env perf cap ap sid ed w
  = match for_each (loop_body env perf sid ed (float_or (cap_fps cap) 30%float))
            (cap_frames cap) locals_init w with
    | (inl e, w1) => (inl e, w1)
    | (inr l, w1) =>
        let summary := summary_after sid cap l in
        if audio_enabled (self w1) && str_truthy ap then
          let a1 := set_speaker (Some (logs_dir (self w1))) (self w1) in
          match speaker_analyze env (logs_dir (self w1)) (default ""%string ap) with
          | inl e => (inl e, mkWorld a1 (disk w1))
          | inr res => finish env summary (Some res) (mkWorld a1 (disk w1))
          end
        else finish env summary None w1
    end.
Proof.
  unfold run_session, bind at 1.
  destruct (for_each _ (cap_frames cap) locals_init w) as [[e|l] w1]; [reflexivity|].
  unfold py_truediv. rewrite float_or_nonzero. cbv zeta.
  cbn [bind ret get_self].
  destruct (audio_enabled (self w1) && str_truthy ap).
  - cbn [bind modify_self lift ret self disk].
    destruct (speaker_analyze env (logs_dir (self w1)) (default ""%string ap))
      as [e|res]; [reflexivity|].
    rewrite save_session_log_run. unfold finish.
    cbv zeta. cbn [self disk fst snd].
    by destruct (save_record _ _ _) as [[e|u] d1].
  - cbn [bind ret]. rewrite save_session_log_run. unfold finish.
    cbv zeta. by destruct (save_record _ _ _) as [[e|u] d1].
Qed.

Lemma run_session_inv env perf cap ap sid ed w summary w' :
  run_session env perf cap ap sid ed w = (inr summary, w') ->
  exists l w1 audio,
    for_each (loop_body env perf sid ed (float_or (cap_fps cap) 30.0%float))
      (cap_frames cap) locals_init w = (inr l, w1)
    /\ session_id summary = sid
    /\ alerts summary = alerts_so_far l
    /\ num_frames summary = frame_idx l
    /\ files (disk w') !! (logs_dir (self w) // (sid ++ ".json")%string)
       = Some (Json (session_log env summary audio)).
Proof.
  rewrite run_session_eq. intros H.
  destruct (for_each _ (cap_frames cap) locals_init w) as [[e|l] w1] eqn:Hl;
    [discriminate|].
  pose proof (loop_logs_dir _ _ _ _ _ _ _ _ _ _ Hl) as Hld.
  cbv zeta in H.
  assert (forall audio a1,
            logs_dir a1 = logs_dir (self w1) ->
            finish env (summary_after sid cap l) audio (mkWorld a1 (disk w1))
            = (inr summary, w') ->
            summary = summary_after sid cap l
            /\ files (disk w') !! (logs_dir (self w) // (sid ++ ".json")%string)
               = Some (Json (session_log env summary audio))) as Hfin.
  { intros audio a1 Ha1. unfold finish. cbv zeta. cbn [self disk].
    destruct (save_record _ _ _) as [[e|u] d1] eqn:Hs; [discriminate|].
    intros Hf. injection Hf as <- <-.
    apply save_record_inr in Hs as (_ & _ & ->). split; [done|].
    unfold record_path. simpl. rewrite Ha1, Hld. apply lookup_insert_eq. }
  destruct (audio_enabled (self w1) && str_truthy ap).
  - destruct (speaker_analyze env (logs_dir (self w1)) (default ""%string ap))
      as [e|res]; [discriminate|].
    apply Hfin in H as [-> Hf]; [|done].
    exists l, w1, (Some res). done.
  - destruct w1 as [a1 d1]. apply Hfin in H as [-> Hf]; [|done].
    exists l, (mkWorld a1 d1), None. done.
Qed.

(** ** Verdict *)

Lemma Counter_fold k xs : forall m,
  counter_get
    (fold_left (fun m k => <[ k := default 0 (m !! k) + 1 ]> m) xs m) k 0
  = counter_get m k 0 + Z.of_nat (length (filter (fun x => x = k) xs)).
Proof.
  induction xs as [|x xs IH]; intros m; simpl; [lia|].
  rewrite IH. unfold counter_get.
  destruct (decide (x = k)) as [->|Hne].
  - rewrite lookup_insert_eq, filter_cons_True by done. simpl. lia.
  - rewrite lookup_insert_ne, filter_cons_False by done. done.
Qed.

Lemma Counter_get k xs :
  counter_get (Counter xs) k 0 = Z.of_nat (length (filter (fun x => x = k) xs)).
Proof. unfold Counter. rewrite Counter_fold. unfold counter_get. by rewrite lookup_empty. Qed.

Lemma Counter_pos k (al : list AlertEvent) :
  (0 <? counter_get (Counter (a_type <$> al)) k 0) = true
  <-> Exists (fun e => a_type e = k) al.
Proof.
  rewrite Counter_get, Z.ltb_lt, Exists_exists.
  induction al as [|e al IH]; simpl.
  - split; [lia|]. intros (x & Hx & _). by apply elem_of_nil in Hx.
  - destruct (decide (a_type e = k)) as [Hk|Hk].
    + rewrite filter_cons_True by done. simpl. split; [|lia].
      intros _. exists e. split; [left|done].
    + rewrite filter_cons_False by done. rewrite IH. split.
      * intros (x & Hx & Hxk). exists x. split; [by right|done].
      * intros (x & Hx & Hxk). apply elem_of_cons in Hx as [->|Hx]; [done|].
        by exists x.
Qed.

Lemma verdict_of_policy (al : list AlertEvent) (score : float) :
  verdict_of (Counter (a_type <$> al)) score (Z.of_nat (length al))
  = verdict_policy al score.
Proof.
  unfold verdict_of, verdict_policy.
  destruct (0 <? counter_get (Counter (a_type <$> al)) "MULTI_FACE" 0) eqn:E1;
  destruct (0 <? counter_get (Counter (a_type <$> al)) "OBJECT_DETECTED" 0) eqn:E2;
  simpl.
  1-3: rewrite bool_decide_eq_true_2; [done|].
  1,2: apply Counter_pos in E1; eapply Exists_impl; [exact E1|]; by left.
  1: apply Counter_pos in E2; eapply Exists_impl; [exact E2|]; by right.
  rewrite bool_decide_eq_false_2.
  - destruct (PrimFloat.ltb score 0.7); simpl; [done|].
    destruct (Z.ltb_spec 5 (Z.of_nat (length al))).
    + rewrite bool_decide_eq_true_2 by lia. done.
    + rewrite bool_decide_eq_false_2 by lia. done.
  - intros H. apply Exists_exists in H as (e & He & [Ht|Ht]).
    + assert ((0 <? counter_get (Counter (a_type <$> al)) "MULTI_FACE" 0) = true);
        [|congruence].
      apply Counter_pos, Exists_exists. eauto.
    + assert ((0 <? counter_get (Counter (a_type <$> al)) "OBJECT_DETECTED" 0) = true);
        [|congruence].
      apply Counter_pos, Exists_exists. eauto.
Qed.

(** C1: every run of [analyze_video] that completes has written the session
    record of the returned summary, and the verdict in it follows the
    first-match-wins policy over the collected alerts and the overall score:
    CHEATING if a MULTI_FACE or OBJECT_DETECTED alert is present, else
    SUSPICIOUS if the overall score is below 0.7 or there are more than 5
    alerts, else CLEAN. *)
Theorem verdict_precedence env perf vp ap sid w summary w' :
  analyze_video env perf vp ap sid w = (inr summary, w') ->
  exists log,
    files (disk w') !! (logs_dir (self w) // (session_id summary ++ ".json")%string)
      = Some (Json log)
    /\ log_session log = summary
    /\ log_alerts log = alerts summary
    /\ log_overall_score log
       = compute_overall_score env (log_video_score log) (log_audio_score log)
    /\ log_verdict log = verdict_policy (alerts summary) (log_overall_score log).
Proof.
  intros H. apply analyze_video_inr in H as (cap & _ & _ & H).
  apply run_session_inv in H as (l & w1 & audio & _ & Hsid & _ & _ & Hfile).
  simpl in Hfile. exists (session_log env summary audio).
  rewrite Hsid. split; [done|].
  unfold session_log. simpl. split_and!; try done.
  apply verdict_of_policy.
Qed.

(** C8: when the video cannot be opened, [analyze_video] raises and writes
    no file: the session's JSON record, like every other file, is as it was
    before the call.  The exception that reaches the caller is the
    [RuntimeError] of line 98, unless a regular file stood in the way of the
    evidence directory, in which case it is the error of [mkdir] on line
    94. *)
Theorem unopenable_video_writes_no_record env perf vp ap sid w :
  VideoCapture env vp = None ->
  let r := analyze_video env perf vp ap sid w in
  r.1 = inl (match blocked (disk w)
                     (evidence_root (self w) // effective_session_id env vp sid) with
             | Some e => e
             | None => RuntimeError ("Cannot open video: " ++ vp)%string
             end)
  /\ files (disk r.2) = files (disk w)
  /\ files (disk r.2)
       !! (logs_dir (self w) // (effective_session_id env vp sid ++ ".json")%string)
     = files (disk w)
       !! (logs_dir (self w) // (effective_session_id env vp sid ++ ".json")%string).
Proof.
  intros H. cbv zeta.
  destruct (blocked (disk w)
              (evidence_root (self w) // effective_session_id env vp sid))
    as [e|] eqn:Hb.
  - by rewrite (analyze_video_blocked _ _ _ _ _ _ e).
  - by rewrite analyze_video_unopenable.
Qed.


(** ** Evidence paths are keyed by type and frame *)

Lemma string_length_app (s t : string) :
  String.length (s ++ t) = (String.length s + String.length t)%nat.
Proof. induction s as [|c s IH]; simpl; [done|]. by rewrite IH. Qed.

Lemma string_app_inv_tail (s1 s2 t : string) :
  (s1 ++ t = s2 ++ t)%string -> s1 = s2.
Proof.
  revert s2. induction s1 as [|c s1 IH]; intros [|c2 s2] H.
  - done.
  - apply (f_equal String.length) in H.
    rewrite !string_length_app in H. simpl in H. lia.
  - apply (f_equal String.length) in H.
    rewrite !string_length_app in H. simpl in H. lia.
  - change (String c (s1 ++ t) = String c2 (s2 ++ t)) in H.
    injection H as -> H. f_equal. by apply IH.
Qed.

Lemma evidence_tag_table :
  evidence_tag "FACE_MISSING" = "face_missing"%string
  /\ evidence_tag "GAZE_AWAY" = "gaze_away"%string
  /\ evidence_tag "MOUTH_MOVEMENT" = "mouth"%string
  /\ evidence_tag "MULTI_FACE" = "multi_face"%string
  /\ evidence_tag "OBJECT_DETECTED" = "object"%string.
Proof. by vm_compute. Qed.

Lemma evidence_path_inj ed ty1 ty2 (i1 i2 : Z) :
  ty1 ∈ alert_types -> ty2 ∈ alert_types ->
  evidence_path ed ty1 i1 = evidence_path ed ty2 i2 ->
  ty1 = ty2 /\ i1 = i2.
Proof.
  unfold alert_types, evidence_path, path_join. intros H1 H2 H.
  apply String.app_inj, (String.app_inj "/") in H.
  rewrite !elem_of_cons, elem_of_nil in H1, H2.
  destruct evidence_tag_table as (T1 & T2 & T3 & T4 & T5).
  destruct H1 as [->|[->|[->|[->|[->|[]]]]]];
    destruct H2 as [->|[->|[->|[->|[->|[]]]]]];
    rewrite ?T1, ?T2, ?T3, ?T4, ?T5 in H;
    first [ apply String.app_inj, (String.app_inj "_"), string_app_inv_tail,
              pretty_Z_inj in H; done
          | cbv [String.app] in H; discriminate H ].
Qed.

Lemma debounced_objects sid t i ed objs :
  filter debounced (event sid t i ed "OBJECT_DETECTED" "high" "object" <$> objs) = [].
Proof.
  induction objs as [|o objs IH]; [done|].
  rewrite fmap_cons, filter_cons_False; [done|].
  unfold debounced. simpl. by intros H.
Qed.

Lemma frame_alerts_block sid i t ed fp gd mm mf nf objs a :
  let al := frame_alerts sid i t ed fp gd mm mf nf objs a in
  Forall (wf_alert ed) al
  /\ Forall (fun e => a_frame_index e = i) al
  /\ NoDup (a_type <$> filter debounced al).
Proof.
  cbv zeta. unfold frame_alerts.
  assert (Forall (wf_alert ed)
            (event sid t i ed "OBJECT_DETECTED" "high" "object" <$> objs)
          /\ Forall (fun e => a_frame_index e = i)
               (event sid t i ed "OBJECT_DETECTED" "high" "object" <$> objs))
    as [Hw Hi].
  { split; apply Forall_fmap, Forall_true; intros o; [|done].
    split; [|done]. apply (bool_decide_unpack _); by vm_compute. }
  rewrite !filter_app, debounced_objects.
  destruct (negb (truthy fp)), (fires 3 (_gaze_away_frames a) (ne_str gd "center")),
    (fires 3 (_mouth_moving_frames a) (truthy mm)), (fires 5 (_multi_face_frames a) mf).
  all: split_and!;
    [ repeat (apply Forall_app; split); try done;
      repeat constructor; apply (bool_decide_unpack _); by vm_compute
    | repeat (apply Forall_app; split); try done; repeat constructor
    | apply (bool_decide_unpack _); by vm_compute ].
Qed.

Lemma alerts_inv_step ed n al block :
  alerts_inv ed n al ->
  Forall (wf_alert ed) block ->
  Forall (fun e => a_frame_index e = n) block ->
  NoDup (a_type <$> filter debounced block) ->
  alerts_inv ed (n + 1) (al ++ block).
Proof.
  intros (Hw & Hlt & Hnd) Bw Bi Bnd. split_and!.
  - by apply Forall_app.
  - apply Forall_app. split.
    + eapply Forall_impl; [exact Hlt|]. simpl. lia.
    + eapply Forall_impl; [exact Bi|]. simpl. lia.
  - rewrite filter_app, fmap_app. apply NoDup_app. split_and!; [done| |].
    + intros k Hk1 Hk2.
      apply list_elem_of_fmap in Hk1 as (e1 & -> & He1).
      apply list_elem_of_fmap in Hk2 as (e2 & Hk & He2).
      apply list_elem_of_filter in He1 as [_ He1].
      apply list_elem_of_filter in He2 as [_ He2].
      rewrite Forall_forall in Hlt, Bi.
      specialize (Hlt _ He1). specialize (Bi _ He2).
      unfold alert_key in Hk. simplify_eq. lia.
    + apply (NoDup_fmap_1 fst). rewrite <- list_fmap_compose. exact Bnd.
Qed.

Lemma loop_alerts_inv env perf sid ed fps frames : forall l w l' w',
  for_each (loop_body env perf sid ed fps) frames l w = (inr l', w') ->
  alerts_inv ed (frame_idx l) (alerts_so_far l) ->
  alerts_inv ed (frame_idx l') (alerts_so_far l').
Proof.
  induction frames as [|fr frames IH]; intros l w l' w' H Hinv.
  - simpl in H. by simplify_eq.
  - apply for_each_cons_inr in H as (l1 & w1 & Hb & H).
    apply IH in H; [done|]. clear IH.
    apply loop_body_inv in Hb as [_ Hb].
    destruct Hb as [(_ & -> & _)|(_ & t & fr' & fp & gd & mm & objs & nf & mf & -> & _)].
    + simpl. destruct Hinv as (Hw & Hlt & Hnd). split_and!; try done.
      eapply Forall_impl; [exact Hlt|]. simpl. lia.
    + simpl.
      destruct (frame_alerts_block sid (frame_idx l) t ed fp gd mm mf nf objs (self w))
        as (B1 & B2 & B3).
      by apply alerts_inv_step.
Qed.

Lemma alerts_inv_paths ed n al :
  alerts_inv ed n al ->
  (forall e1 e2, e1 ∈ al -> e2 ∈ al ->
     (a_image_path e1 = a_image_path e2
      <-> a_type e1 = a_type e2 /\ a_frame_index e1 = a_frame_index e2))
  /\ (forall j1 j2 e1 e2,
        j1 <> j2 -> al !! j1 = Some e1 -> al !! j2 = Some e2 ->
        a_image_path e1 = a_image_path e2 ->
        a_type e1 = "OBJECT_DETECTED"%string
        /\ a_type e2 = "OBJECT_DETECTED"%string
        /\ a_frame_index e1 = a_frame_index e2).
Proof.
  intros (Hw & _ & Hnd). rewrite Forall_forall in Hw.
  assert (forall e1 e2, e1 ∈ al -> e2 ∈ al ->
            (a_image_path e1 = a_image_path e2
             <-> a_type e1 = a_type e2 /\ a_frame_index e1 = a_frame_index e2))
    as Hkey.
  { intros e1 e2 H1 H2.
    destruct (Hw _ H1) as [K1 P1]. destruct (Hw _ H2) as [K2 P2].
    rewrite P1, P2. split.
    - intros E. injection E as E. by apply evidence_path_inj in E.
    - intros [-> ->]. done. }
  split; [exact Hkey|].
  assert (forall j1 j2 e1 e2,
            (j1 < j2)%nat -> al !! j1 = Some e1 -> al !! j2 = Some e2 ->
            alert_key e1 = alert_key e2 -> a_type e1 = "OBJECT_DETECTED"%string)
    as Hlt.
  { intros j1 j2 e1 e2 Hj L1 L2 Hk.
    destruct (decide (a_type e1 = "OBJECT_DETECTED"%string)) as [|Hd]; [done|].
    exfalso.
    rewrite <- (take_drop_middle al j1 e1 L1) in Hnd, L2.
    rewrite lookup_app_r in L2 by (rewrite length_take; lia).
    rewrite length_take_le in L2
      by (apply lookup_lt_Some in L1; lia).
    destruct (j2 - j1)%nat as [|m] eqn:Ej; [lia|]. simpl in L2.
    rewrite filter_app in Hnd. rewrite filter_cons_True in Hnd by exact Hd.
    rewrite fmap_app, fmap_cons in Hnd.
    apply NoDup_app in Hnd as (_ & _ & Hnd).
    apply NoDup_cons in Hnd as [Hnotin _]. apply Hnotin.
    rewrite Hk. apply list_elem_of_fmap. exists e2. split; [done|].
    apply list_elem_of_filter. split.
    - unfold debounced. unfold alert_key in Hk. injection Hk as Ht _.
      by rewrite <- Ht.
    - by eapply list_elem_of_lookup_2. }
  intros j1 j2 e1 e2 Hne L1 L2 Hp.
  assert (e1 ∈ al) as M1 by (by eapply list_elem_of_lookup_2).
  assert (e2 ∈ al) as M2 by (by eapply list_elem_of_lookup_2).
  apply (Hkey e1 e2 M1 M2) in Hp as [Ht Hi].
  assert (alert_key e1 = alert_key e2) as Hk by (unfold alert_key; congruence).
  destruct (decide (j1 < j2)%nat).
  - pose proof (Hlt j1 j2 e1 e2 ltac:(done) L1 L2 Hk) as Hty.
    split_and!; congruence.
  - pose proof (Hlt j2 j1 e2 e1 ltac:(lia) L2 L1 (eq_sym Hk)) as Hty.
    split_and!; congruence.
Qed.

(** C9 (as amended): in a completed run, the evidence path of an alert is
    determined by, and determines, its alert type and raw frame index; two
    alerts at different positions of the session's alert list share an
    evidence path only when both are OBJECT_DETECTED alerts of one frame. *)
Theorem evidence_paths_keyed_by_type_and_frame env perf vp ap sid w summary w' :
  analyze_video env perf vp ap sid w = (inr summary, w') ->
  (forall e1 e2, e1 ∈ alerts summary -> e2 ∈ alerts summary ->
     (a_image_path e1 = a_image_path e2
      <-> a_type e1 = a_type e2 /\ a_frame_index e1 = a_frame_index e2))
  /\ (forall j1 j2 e1 e2,
        j1 <> j2 ->
        alerts summary !! j1 = Some e1 -> alerts summary !! j2 = Some e2 ->
        a_image_path e1 = a_image_path e2 ->
        a_type e1 = "OBJECT_DETECTED"%string
        /\ a_type e2 = "OBJECT_DETECTED"%string
        /\ a_frame_index e1 = a_frame_index e2).
Proof.
  intros H. apply analyze_video_inr in H as (cap & _ & _ & H).
  apply run_session_inv in H as (l & w1 & audio & Hloop & _ & -> & _).
  apply loop_alerts_inv in Hloop.
  - by eapply alerts_inv_paths.
  - simpl. split_and!; constructor.
Qed.

(** ** Scenario runs and detector cadence *)

Example demo_calm : alert_keys (demo_run "calm.mp4" "s0" demo_world) = inr [].
Proof. vm_compute. reflexivity. Qed.

Example demo_desk :
  alert_keys (demo_run "desk.mp4" "s1" demo_world)
  = inr [("OBJECT_DETECTED"%string, 0); ("OBJECT_DETECTED"%string, 0)].
Proof. vm_compute. reflexivity. Qed.

(** C9 (counterexample): one frame on which two objects are detected gives
    two OBJECT_DETECTED alerts with the same evidence path. *)
Lemma two_objects_one_evidence_path :
  exists ps,
    alert_paths (demo_run "desk.mp4" "s1" demo_world) = inr ps
    /\ ps = [Some "logs/evidence/s1/object_0.jpg"%string;
             Some "logs/evidence/s1/object_0.jpg"%string]
    /\ ~ NoDup ps.
Proof.
  eexists. split; [vm_compute; reflexivity|]. split; [reflexivity|].
  intros H. apply NoDup_cons in H as [H _]. apply H. by left.
Qed.

(** C4 (counterexample): the object detector sees a phone on every frame of
    the video; it runs on processed frame 0 (raw frame 0) and is skipped on
    processed frame 1 (raw frame 5), and no OBJECT_DETECTED alert is raised
    for raw frame 5: the list found on frame 0 is not held over. *)
Lemma object_list_not_held_over :
  demo_objects (shot 3) = inr (VList [phone])
  /\ 1 mod OBJ_DETECT_EVERY perf_default <> 0
  /\ alert_keys (demo_run "phone.mp4" "s1" demo_world)
     = inr [("OBJECT_DETECTED"%string, 0)].
Proof. split_and!; [reflexivity|done|vm_compute; reflexivity]. Qed.

(** C4 (as amended): on a processed frame that the multi-face cadence skips,
    the face count and the multiple-faces flag of the last run are kept and
    are what the alert evaluation of that frame uses; on a processed frame
    that the object cadence skips, the object list is empty and no
    OBJECT_DETECTED alert is raised. *)
Theorem cadence_skip env perf sid ed fps fr l w l' w' :
  loop_body env perf sid ed fps fr l w = (inr l', w') ->
  frame_idx l mod FRAME_STRIDE perf = 0 ->
  exists new t,
    alerts_so_far l' = alerts_so_far l ++ new
    /\ (processed_idx l mod MF_DETECT_EVERY perf <> 0 ->
        last_faces l' = last_faces l
        /\ last_multi l' = last_multi l
        /\ _multi_face_frames (self w')
           = settle 5 (_multi_face_frames (self w)) (last_multi l)
        /\ alerts_of_type "MULTI_FACE" new
           = if fires 5 (_multi_face_frames (self w)) (last_multi l)
             then [mkAlertEvent sid t (frame_idx l) "MULTI_FACE" "high"
                     (Some (ed // ("multi_face_" ++ pretty (frame_idx l) ++ ".jpg")%string))
                     (VDict [("num_faces"%string, last_faces l)])]
             else [])
    /\ (processed_idx l mod OBJ_DETECT_EVERY perf <> 0 ->
        last_objects l' = []
        /\ alerts_of_type "OBJECT_DETECTED" new = []).
Proof.
  intros H Hon. apply loop_body_inv in H as [_ H].
  destruct H as [(Hoff & _)|(_ & t & fr' & fp & gd & mm & objs & nf & mf & -> & -> & Hobj & Hmf)];
    [done|].
  eexists _, t. split; [reflexivity|]. simpl. split.
  - intros Hskip. destruct Hmf as [-> ->]; [by right|].
    split_and!; try done. by rewrite multi_face_alerts.
  - intros Hskip. rewrite Hobj by (by right). split; [done|].
    by rewrite object_alerts.
Qed.

(** C3 (failing run): one analyzer, two videos.  The first video ends after
    two processed frames with the gaze away, which leaves the gaze counter at
    2; the second video has a single frame with the gaze away, and the
    GAZE_AWAY alert fires on it, after one frame instead of three.  A fresh
    analyzer raises no alert on the second video. *)
Lemma counters_leak_into_next_session :
  let first := demo_run "gaze2.mp4" "s1" demo_world in
  let second := demo_run "gaze1.mp4" "s2" first.2 in
  _gaze_away_frames (self demo_world) = 0
  /\ alert_keys first = inr []
  /\ _gaze_away_frames (self first.2) = 2
  /\ alert_keys second = inr [("GAZE_AWAY"%string, 0)]
  /\ alert_keys (demo_run "gaze1.mp4" "s2" demo_world) = inr [].
Proof. vm_compute. split_and!; reflexivity. Qed.

(** C2 (counterexample): a face detector that raises on the sixth raw frame
    aborts the session: the exception reaches the caller and no session
    record is written.  A face detector that returns [None] is not treated as
    "face present": the frame gets a FACE_MISSING alert. *)
Lemma detector_failure_not_neutral :
  let crashed := demo_run "crash.mp4" "s1" demo_world in
  demo_face (shot 7) = inl (Raised "DetectorCrash")
  /\ crashed.1 = inl (Raised "DetectorCrash")
  /\ files (disk crashed.2) !! "logs/s1.json"%string = None
  /\ demo_face (shot 8) = inr VNone
  /\ alert_keys (demo_run "blank.mp4" "s2" demo_world)
     = inr [("FACE_MISSING"%string, 0)].
Proof. vm_compute. split_and!; reflexivity. Qed.

(** ** Detectors that return a value of the wrong type *)

Lemma pure_ret {A} (x : A) : pure (ret x).
Proof. by exists (inr x). Qed.

Lemma pure_raise {A} e : pure (@raise A e).
Proof. by exists (inl e). Qed.

Lemma pure_lift {A} (o : Outcome A) : pure (lift o).
Proof. by exists o. Qed.

Lemma pure_bind {A B} (m : M A) (k : A -> M B) :
  pure m -> (forall x, pure (k x)) -> pure (bind m k).
Proof.
  intros [o Ho] Hk. destruct o as [e|x].
  - exists (inl e). intros w. unfold bind. by rewrite Ho.
  - destruct (Hk x) as [o' Ho']. exists o'. intros w. unfold bind. by rewrite Ho.
Qed.

Lemma pure_py_mod a b : pure (py_mod a b).
Proof. unfold py_mod. destruct (b =? 0); [apply pure_raise|apply pure_ret]. Qed.

Lemma pure_py_truediv a b : pure (py_truediv a b).
Proof.
  unfold py_truediv. destruct (PrimFloat.eqb b 0); [apply pure_raise|apply pure_ret].
Qed.

Ltac solve_pure :=
  repeat first
    [ apply pure_ret | apply pure_raise | apply pure_lift
    | apply pure_py_mod | apply pure_py_truediv
    | apply pure_bind | intro
    | match goal with
      | |- pure (if ?c then _ else _) => destruct c
      | |- pure (match ?o with Some _ => _ | None => _ end) => destruct o
      end ].

Lemma bind_pure {A B} (m : M A) (k : A -> M B) o w :
  (forall w, m w = (o, w)) ->
  bind m k w = match o with inl e => (inl e, w) | inr x => k x w end.
Proof. intros H. unfold bind. rewrite H. by destruct o. Qed.

Lemma bind_ext_l {A B} (m1 m2 : M A) (k : A -> M B) w :
  m1 w = m2 w -> bind m1 k w = bind m2 k w.
Proof. unfold bind. by intros ->. Qed.

Lemma bind_get_self {B} (k : Analyzer -> M B) w :
  bind get_self k w = k (self w) w.
Proof. reflexivity. Qed.

Lemma frame_alerts_neutral sid i t ed fp gd mm mf nf objs a :
  frame_alerts sid i t ed fp gd mm mf nf objs (with_neutral_defaults a)
  = frame_alerts sid i t ed fp gd mm mf nf objs a.
Proof. reflexivity. Qed.

Lemma frame_self_neutral gd mm mf a :
  frame_self gd mm mf (with_neutral_defaults a)
  = with_neutral_defaults (frame_self gd mm mf a).
Proof. reflexivity. Qed.

(** Peel the first computation off both sides of a goal
    [bind m k w1 = neutralised (bind m k w2)] when [m] is pure. *)
Ltac peel x :=
  match goal with
  | |- bind ?m _ _ = neutralised (bind ?m _ _) =>
      let o := fresh "o" in
      let Ho := fresh "Ho" in
      assert (pure m) as [o Ho] by solve_pure;
      rewrite !(bind_pure m _ o _ Ho);
      clear Ho; destruct o as [?|x]; [reflexivity|]; cbv beta
  end.

Lemma loop_body_neutral env perf sid ed fps fr l a d :
  loop_body env perf sid ed fps fr l (mkWorld (with_neutral_defaults a) d)
  = neutralised (loop_body env perf sid ed fps fr l (mkWorld a d)).
Proof.
  unfold loop_body.
  peel r. destruct (negb (r =? 0)); [reflexivity|].
  peel t. peel fr'.
  rewrite !bind_get_self. cbn [self].
  change (face_detector (with_neutral_defaults a)) with (face_detector a).
  change (eye_tracker (with_neutral_defaults a)) with (eye_tracker a).
  change (mouth_monitor (with_neutral_defaults a)) with (mouth_monitor a).
  peel fp. peel gd. peel mm.
  match goal with
  | |- bind ?m1 ?k ?w = neutralised (bind ?m2 _ _) =>
      rewrite (bind_ext_l m1 m2 k w)
  end.
  2:{ cbn [with_neutral_defaults object_detector].
      destruct (object_detector a) as [dobj|]; [|reflexivity].
      unfold py_mod. simpl.
      destruct (OBJ_DETECT_EVERY perf =? 0); [reflexivity|]. simpl.
      destruct (processed_idx l mod OBJ_DETECT_EVERY perf =? 0); [|reflexivity].
      unfold guarded. destruct (dobj fr') as [e|v]; [reflexivity|].
      by destruct v. }
  peel objs.
  match goal with
  | |- bind ?m1 ?k ?w = neutralised (bind ?m2 _ _) =>
      rewrite (bind_ext_l m1 m2 k w)
  end.
  2:{ cbn [with_neutral_defaults multi_face_detector].
      destruct (multi_face_detector a) as [dmf|]; [|reflexivity].
      unfold py_mod. simpl.
      destruct (MF_DETECT_EVERY perf =? 0); [reflexivity|]. simpl.
      destruct (processed_idx l mod MF_DETECT_EVERY perf =? 0); [|reflexivity].
      unfold guarded. destruct (dmf fr') as [e|v]; [reflexivity|].
      by destruct v. }
  peel lf.
  unfold bind, neutralised. rewrite !generate_alerts_run. reflexivity.
Qed.

Lemma bind_neutral {A B} (m : M A) (k : A -> M B) a d :
  m (mkWorld (with_neutral_defaults a) d) = neutralised (m (mkWorld a d)) ->
  (forall x a1 d1,
     k x (mkWorld (with_neutral_defaults a1) d1)
     = neutralised (k x (mkWorld a1 d1))) ->
  bind m k (mkWorld (with_neutral_defaults a) d)
  = neutralised (bind m k (mkWorld a d)).
Proof.
  intros Hm Hk. unfold bind. rewrite Hm.
  destruct (m (mkWorld a d)) as [[e|x] [a1 d1]]; [reflexivity|].
  cbn [neutralised fst snd self disk]. apply Hk.
Qed.

Lemma for_each_neutral env perf sid ed fps frames : forall l a d,
  for_each (loop_body env perf sid ed fps) frames l
    (mkWorld (with_neutral_defaults a) d)
  = neutralised (for_each (loop_body env perf sid ed fps) frames l (mkWorld a d)).
Proof.
  induction frames as [|fr frames IH]; intros l a d; [reflexivity|].
  cbn [for_each]. apply bind_neutral; [apply loop_body_neutral|].
  intros l1 a1 d1. apply IH.
Qed.

Lemma run_session_neutral env perf cap ap sid ed a d :
  run_session env perf cap ap sid ed (mkWorld (with_neutral_defaults a) d)
  = neutralised (run_session env perf cap ap sid ed (mkWorld a d)).
Proof.
  rewrite !run_session_eq, for_each_neutral.
  destruct (for_each _ (cap_frames cap) locals_init (mkWorld a d))
    as [[e|l] [a1 d1]]; [reflexivity|].
  unfold neutralised at 1. cbn [fst snd self disk]. cbv zeta.
  change (audio_enabled (with_neutral_defaults a1)) with (audio_enabled a1).
  change (logs_dir (with_neutral_defaults a1)) with (logs_dir a1).
  destruct (audio_enabled a1 && str_truthy ap).
  - destruct (speaker_analyze env (logs_dir a1) (default ""%string ap));
      [reflexivity|].
    unfold finish, neutralised, record_path. cbn [fst snd self disk].
    change (logs_dir (set_speaker _ (with_neutral_defaults a1))) with (logs_dir a1).
    change (logs_dir (set_speaker _ a1)) with (logs_dir a1).
    by destruct (save_record _ _ d1) as [[e|u] d2].
  - unfold finish, neutralised, record_path. cbn [fst snd self disk].
    change (logs_dir (with_neutral_defaults a1)) with (logs_dir a1).
    by destruct (save_record _ _ d1) as [[e|u] d2].
Qed.

Lemma analyze_video_neutral env perf vp ap sid a d :
  analyze_video env perf vp ap sid (mkWorld (with_neutral_defaults a) d)
  = neutralised (analyze_video env perf vp ap sid (mkWorld a d)).
Proof.
  destruct (blocked d (evidence_root a // effective_session_id env vp sid))
    as [e|] eqn:Hb.
  { by rewrite !(analyze_video_blocked _ _ _ _ _ _ e). }
  destruct (VideoCapture env vp) as [cap|] eqn:Hcap.
  - rewrite !(analyze_video_opened _ _ _ _ _ cap) by done.
    apply run_session_neutral.
  - by rewrite !analyze_video_unopenable.
Qed.

(** ** Detectors that raise *)

Ltac step_returns H :=
  match type of H with
  | returns ?od _ =>
      destruct od as [?|]; [destruct H as [? H]; simpl; rewrite H|]; simpl
  end.

Ltac step_unpacks H :=
  match type of H with
  | unpacks ?od _ =>
      let Hp := fresh "Hp" in
      destruct od as [?|];
      [destruct H as (? & ? & H & Hp); simpl; rewrite H; simpl; rewrite Hp|];
      simpl
  end.

Ltac step_due H :=
  let Hne := fresh "Hne" in
  let Hmod := fresh "Hmod" in
  destruct H as [Hne Hmod];
  apply Z.eqb_neq in Hne; apply Z.eqb_eq in Hmod;
  rewrite Hne; simpl; rewrite Hmod; simpl.

Lemma loop_body_raises env perf sid ed fps fr0 fr l w e :
  FRAME_STRIDE perf <> 0 ->
  frame_idx l mod FRAME_STRIDE perf = 0 ->
  PrimFloat.eqb fps 0 = false ->
  seen_frame env perf fr0 = inr fr ->
  detector_raises perf (self w) l fr e ->
  loop_body env perf sid ed fps fr0 l w = (inl e, w).
Proof.
  intros HS Hon Hfps Hw Hr. unfold loop_body, py_mod, py_truediv.
  apply Z.eqb_neq in HS. apply Z.eqb_eq in Hon.
  rewrite HS. simpl. rewrite Hon, Hfps. simpl.
  assert ((if RESIZE_WIDTH perf <? shape1 fr0
           then
             let* scale := (if PrimFloat.eqb (float_of_Z (shape1 fr0)) 0%float
                            then raise ZeroDivisionError
                            else ret (PrimFloat.div (float_of_Z (RESIZE_WIDTH perf))
                                        (float_of_Z (shape1 fr0)))) in
             let* h := lift (int_of_float
                               (PrimFloat.mul (float_of_Z (shape0 fr0)) scale)) in
             lift (cv2_resize env fr0 (RESIZE_WIDTH perf) h)
           else ret fr0) w = (inr fr, w)) as ->.
  { unfold seen_frame in Hw.
    destruct (RESIZE_WIDTH perf <? shape1 fr0); [|simpl; congruence].
    destruct (PrimFloat.eqb (float_of_Z (shape1 fr0)) 0%float); [discriminate|].
    simpl. destruct (int_of_float _); [discriminate|]. simpl. by rewrite Hw. }
  destruct Hr as [d Hd He|d Hf Hd He|d Hf Hy Hd He|d Hf Hy Hm Hd Hdue He
                 |d Hf Hy Hm Ho Hd Hdue He].
  - rewrite Hd. simpl. by rewrite He.
  - step_returns Hf; rewrite Hd; simpl; by rewrite He.
  - step_returns Hf; step_unpacks Hy; rewrite Hd; simpl; by rewrite He.
  - step_returns Hf; step_unpacks Hy; step_returns Hm;
      rewrite Hd; simpl; step_due Hdue; by rewrite He.
  - step_returns Hf; step_unpacks Hy; step_returns Hm.
    all: destruct Ho as [Ho|[[Hne Hmod]|[Hdo Ho]]].
    all: try (rewrite Ho; simpl; rewrite Hd; simpl; step_due Hdue; by rewrite He).
    all: try (destruct (object_detector (self w)); simpl;
              [apply Z.eqb_neq in Hne; apply Z.eqb_neq in Hmod;
               rewrite Hne; simpl; rewrite Hmod; simpl|];
              rewrite Hd; simpl; step_due Hdue; by rewrite He).
    all: destruct (object_detector (self w)); simpl;
           [step_due Hdo; destruct Ho as [? Ho]; rewrite Ho; simpl|];
           rewrite Hd; simpl; step_due Hdue; by rewrite He.
Qed.

Lemma for_each_app {A S} (body : A -> S -> M S) xs ys s w :
  for_each body (xs ++ ys) s w = bind (for_each body xs s) (for_each body ys) w.
Proof.
  revert s w. induction xs as [|x xs IH]; intros s w; [reflexivity|].
  cbn [app for_each]. unfold bind.
  destruct (body x s w) as [[e|s1] w1]; [reflexivity|]. apply IH.
Qed.

(** C2 (as amended): the object detector and the multi-face detector are
    type-guarded, and nothing is caught.  (1) Replacing the two detectors by
    ones that return the neutral default (the empty list, respectively the
    count 1) wherever the originals return a value of the wrong type changes
    nothing in a run of [analyze_video]: same result or exception, same disk,
    same counters.  (2) When a detector call raises on a processed frame
    (scaled down if it is too wide), the evidence directory having been
    created and the frames before it processed, [analyze_video] raises that
    exception and stops there: the disk and the counters are left as they
    were when the frame was reached.  (3) When the evidence directory cannot
    be created, the exception of [mkdir] propagates likewise, nothing having
    been done. *)
Theorem wrong_type_guarded_exception_propagates env perf vp ap sid w :
  analyze_video env perf vp ap sid
    (mkWorld (with_neutral_defaults (self w)) (disk w))
  = neutralised (analyze_video env perf vp ap sid w)
  /\ (forall cap before fr0 after fr l w1 e,
       VideoCapture env vp = Some cap ->
       blocked (disk w) (evidence_root (self w) // effective_session_id env vp sid)
       = None ->
       cap_frames cap = before ++ fr0 :: after ->
       for_each
         (loop_body env perf (effective_session_id env vp sid)
            (evidence_root (self w) // effective_session_id env vp sid)
            (float_or (cap_fps cap) 30%float))
         before locals_init
         (mkWorld (self w)
            (mkdir_p (evidence_root (self w) // effective_session_id env vp sid)
               (disk w)))
       = (inr l, w1) ->
       FRAME_STRIDE perf <> 0 ->
       frame_idx l mod FRAME_STRIDE perf = 0 ->
       seen_frame env perf fr0 = inr fr ->
       detector_raises perf (self w1) l fr e ->
       analyze_video env perf vp ap sid w = (inl e, w1))
  /\ forall e,
       blocked (disk w) (evidence_root (self w) // effective_session_id env vp sid)
       = Some e ->
       analyze_video env perf vp ap sid w = (inl e, w).
Proof.
  split; [|split].
  3: by intros e; apply analyze_video_blocked.
  - destruct w as [a d]. apply analyze_video_neutral.
  - intros cap before fr0 after fr l w1 e Hcap Hblk Hfr Hpre HS Hon Hw Hr.
    rewrite (analyze_video_opened _ _ _ _ _ cap) by done.
    unfold run_session. rewrite Hfr.
    apply bind_inl. rewrite for_each_app.
    rewrite (bind_run _ _ _ _ _ Hpre). cbn [for_each].
    apply bind_inl. apply (loop_body_raises _ _ _ _ _ _ fr); try done.
    apply float_or_nonzero.
Qed.

(** ** The theorems at concrete runs *)

Lemma verdict_precedence_witness :
  analyze_video demo_env perf_default "desk.mp4" None (Some "s1"%string) demo_world
  = (inr (summary_of desk_run), desk_run.2)
  /\ exists log,
       files (disk desk_run.2) !! "logs/s1.json"%string = Some (Json log)
       /\ log_verdict log = "CHEATING"%string.
Proof.
  assert (analyze_video demo_env perf_default "desk.mp4" None (Some "s1"%string)
            demo_world = (inr (summary_of desk_run), desk_run.2)) as H
    by (vm_compute; reflexivity).
  split; [exact H|].
  destruct (verdict_precedence _ _ _ _ _ _ _ _ H) as (log & Hf & _ & _ & _ & Hv).
  exists log. split; [exact Hf|]. rewrite Hv. vm_compute. reflexivity.
Defined.

Lemma stride_sampling_witness :
  0 < FRAME_STRIDE perf_default
  /\ for_each (loop_body cut_env perf_default "s7" "logs/evidence/s7" 30%float)
       chair_frames locals_init chair_world
     = (inr (locals_of chair_loop), chair_loop.2)
  /\ a_frame_index <$> alerts_so_far (locals_of chair_loop) = [0; 5; 10]
  /\ exists inputs,
       calls cut_env perf_default (self chair_world) 30%float chair_frames locals_init
       = inr inputs
       /\ feed cut_env "s7" "logs/evidence/s7" inputs [] chair_world
          = (inr (alerts_so_far (locals_of chair_loop)), chair_loop.2)
       /\ Z.of_nat (length inputs) = 3
       /\ s_frame_idx <$> inputs = [0; 5; 10]
       /\ processed_idx (locals_of chair_loop) = 3.
Proof.
  assert (for_each (loop_body cut_env perf_default "s7" "logs/evidence/s7" 30%float)
            chair_frames locals_init chair_world
          = (inr (locals_of chair_loop), chair_loop.2)) as H
    by (vm_compute; reflexivity).
  assert (0 < FRAME_STRIDE perf_default) as HS by reflexivity.
  split; [exact HS|]. split; [exact H|].
  split; [vm_compute; reflexivity|].
  destruct (stride_sampling _ _ _ _ _ _ _ _ _ HS H)
    as (inputs & Hc & Hf & Hn & Hi & _ & _ & Hp & _).
  exists inputs.
  split; [exact Hc|]. split; [exact Hf|]. split; [exact Hn|].
  split; [exact Hi|exact Hp].
Defined.

Lemma sustained_debounce_witness :
  let pre := [calm_signals 0] in
  let mid3 := [away_signals 5; away_signals 10; away_signals 15] in
  let mid6 := mid3 ++ [away_signals 20; away_signals 25; away_signals 30] in
  let post := [calm_signals 35] in
  Forall (fun s => signal GazeAway s = false) pre
  /\ Forall (fun s => signal GazeAway s = true) mid3
  /\ Forall (fun s => signal GazeAway s = true) mid6
  /\ Forall (fun s => signal GazeAway s = false) post
  /\ (exists al,
        (feed demo_env "s" "ev" (pre ++ mid3 ++ post) [] demo_world).1 = inr al
        /\ alerts_of_type "GAZE_AWAY" al
           = [sustained_event "s" "ev" GazeAway (away_signals 15)])
  /\ (exists al,
        (feed demo_env "s" "ev" (pre ++ mid6 ++ post) [] demo_world).1 = inr al
        /\ alerts_of_type "GAZE_AWAY" al
           = [sustained_event "s" "ev" GazeAway (away_signals 15);
              sustained_event "s" "ev" GazeAway (away_signals 30)]).
Proof.
  cbv zeta.
  assert (Forall (fun s => signal GazeAway s = false) [calm_signals 0]) as Hpre
    by (repeat constructor).
  assert (Forall (fun s => signal GazeAway s = true)
            [away_signals 5; away_signals 10; away_signals 15]) as H3
    by (repeat constructor).
  assert (Forall (fun s => signal GazeAway s = true)
            ([away_signals 5; away_signals 10; away_signals 15]
             ++ [away_signals 20; away_signals 25; away_signals 30])) as H6
    by (repeat constructor).
  assert (Forall (fun s => signal GazeAway s = false) [calm_signals 35]) as Hpost
    by (repeat constructor).
  split_and!; try done.
  - destruct (sustained_debounce demo_env "s" "ev" GazeAway _ _ _ demo_world
                Hpre H3 Hpost)
      as (al & Hal & Hone & _); [done|].
    exists al. split; [exact Hal|].
    destruct (Hone eq_refl) as (s & Hs & Heq). simpl in Hs.
    injection Hs as <-. exact Heq.
  - destruct (sustained_debounce demo_env "s" "ev" GazeAway _ _ _ demo_world
                Hpre H6 Hpost)
      as (al & Hal & _ & Htwo); [done|].
    exists al. split; [exact Hal|].
    destruct (Htwo eq_refl) as (s1 & s2 & Hs1 & Hs2 & Heq).
    simpl in Hs1, Hs2. injection Hs1 as <-. injection Hs2 as <-. exact Heq.
Defined.

Lemma unopenable_video_writes_no_record_witness :
  VideoCapture demo_env "missing.mp4" = None
  /\ (demo_run "missing.mp4" "s9" demo_world).1
     = inl (RuntimeError "Cannot open video: missing.mp4")
  /\ files (disk (demo_run "missing.mp4" "s9" demo_world).2) !! "logs/s9.json"%string
     = None.
Proof.
  assert (VideoCapture demo_env "missing.mp4" = None) as H by (vm_compute; reflexivity).
  split; [exact H|].
  destruct (unopenable_video_writes_no_record demo_env perf_default "missing.mp4"
              None (Some "s9"%string) demo_world H) as (He & Hf & _).
  split.
  - unfold demo_run. rewrite He. vm_compute. reflexivity.
  - unfold demo_run. rewrite Hf. vm_compute. reflexivity.
Defined.


Lemma evidence_paths_keyed_by_type_and_frame_witness :
  analyze_video demo_env perf_default "desk.mp4" None (Some "s1"%string) demo_world
  = (inr (summary_of desk_run), desk_run.2)
  /\ forall j1 j2 e1 e2,
       j1 <> j2 ->
       alerts (summary_of desk_run) !! j1 = Some e1 ->
       alerts (summary_of desk_run) !! j2 = Some e2 ->
       a_image_path e1 = a_image_path e2 ->
       a_type e1 = "OBJECT_DETECTED"%string
       /\ a_type e2 = "OBJECT_DETECTED"%string
       /\ a_frame_index e1 = a_frame_index e2.
Proof.
  assert (analyze_video demo_env perf_default "desk.mp4" None (Some "s1"%string)
            demo_world = (inr (summary_of desk_run), desk_run.2)) as H
    by (vm_compute; reflexivity).
  split; [exact H|].
  exact (proj2 (evidence_paths_keyed_by_type_and_frame _ _ _ _ _ _ _ _ H)).
Defined.

Lemma cadence_skip_witness :
  loop_body demo_env perf_default "s1" "logs/evidence/s1" 30%float (shot 0)
    held_locals held_world
  = (inr (locals_of held_step), held_step.2)
  /\ frame_idx held_locals mod FRAME_STRIDE perf_default = 0
  /\ processed_idx held_locals mod MF_DETECT_EVERY perf_default <> 0
  /\ processed_idx held_locals mod OBJ_DETECT_EVERY perf_default <> 0
  /\ exists new,
       alerts_so_far (locals_of held_step) = alerts_so_far held_locals ++ new
       /\ last_faces (locals_of held_step) = VInt 2
       /\ last_multi (locals_of held_step) = true
       /\ alert_key <$> alerts_of_type "MULTI_FACE" new = [("MULTI_FACE"%string, 5)]
       /\ last_objects (locals_of held_step) = []
       /\ alerts_of_type "OBJECT_DETECTED" new = [].
Proof.
  assert (loop_body demo_env perf_default "s1" "logs/evidence/s1" 30%float (shot 0)
            held_locals held_world
          = (inr (locals_of held_step), held_step.2)) as H
    by (vm_compute; reflexivity).
  assert (frame_idx held_locals mod FRAME_STRIDE perf_default = 0) as Hon
    by reflexivity.
  assert (processed_idx held_locals mod MF_DETECT_EVERY perf_default <> 0) as Hmf
    by discriminate.
  assert (processed_idx held_locals mod OBJ_DETECT_EVERY perf_default <> 0) as Hobj
    by discriminate.
  split_and!; [exact H|exact Hon|exact Hmf|exact Hobj|].
  destruct (cadence_skip _ _ _ _ _ _ _ _ _ _ H Hon) as (new & t & Hal & Hheld & Hempty).
  destruct (Hheld Hmf) as (Hf & Hm & _ & Hmfa).
  destruct (Hempty Hobj) as (Ho & Hoa).
  exists new. split_and!; [exact Hal|exact Hf|exact Hm| |exact Ho|exact Hoa].
  rewrite Hmfa. reflexivity.
Defined.

Lemma wrong_type_guarded_exception_propagates_witness :
  VideoCapture demo_env "crash.mp4"
  = Some (mkVideo 30%float (replicate 5 (shot 0) ++ shot 7 :: []))
  /\ blocked (disk demo_world) "logs/evidence/s1" = None
  /\ crash_prefix = (inr (locals_of crash_prefix), crash_prefix.2)
  /\ FRAME_STRIDE perf_default <> 0
  /\ frame_idx (locals_of crash_prefix) mod FRAME_STRIDE perf_default = 0
  /\ seen_frame demo_env perf_default (shot 7) = inr (shot 7)
  /\ detector_raises perf_default (self crash_prefix.2) (locals_of crash_prefix)
       (shot 7) (Raised "DetectorCrash")
  /\ analyze_video demo_env perf_default "crash.mp4" None (Some "s1"%string)
       demo_world
     = (inl (Raised "DetectorCrash"), crash_prefix.2).
Proof.
  assert (VideoCapture demo_env "crash.mp4"
          = Some (mkVideo 30%float (replicate 5 (shot 0) ++ shot 7 :: []))) as Hcap
    by (vm_compute; reflexivity).
  assert (blocked (disk demo_world) "logs/evidence/s1" = None) as Hblk
    by (vm_compute; reflexivity).
  assert (crash_prefix = (inr (locals_of crash_prefix), crash_prefix.2)) as Hpre
    by (vm_compute; reflexivity).
  assert (FRAME_STRIDE perf_default <> 0) as HS by discriminate.
  assert (frame_idx (locals_of crash_prefix) mod FRAME_STRIDE perf_default = 0) as Hon
    by (vm_compute; reflexivity).
  assert (seen_frame demo_env perf_default (shot 7) = inr (shot 7)) as Hw
    by reflexivity.
  assert (detector_raises perf_default (self crash_prefix.2) (locals_of crash_prefix)
            (shot 7) (Raised "DetectorCrash")) as Hr
    by (apply face_raises with demo_face; vm_compute; reflexivity).
  split_and!; try assumption.
  destruct (wrong_type_guarded_exception_propagates demo_env perf_default
              "crash.mp4" None (Some "s1"%string) demo_world) as (_ & Hb & _).
  apply (Hb _ _ _ _ _ _ _ _ Hcap Hblk eq_refl Hpre HS Hon Hw Hr).
Defined.

(** ** Further checks *)

(** The three verdict examples of the specification, and a clean session. *)
Example verdict_low_score :
  verdict_of (Counter ["GAZE_AWAY"; "FACE_MISSING"]%string) 0.65%float 2
  = "SUSPICIOUS"%string.
Proof. vm_compute. reflexivity. Qed.

Example verdict_many_alerts :
  verdict_of (Counter (replicate 6 "FACE_MISSING"%string)) 0.9%float 6
  = "SUSPICIOUS"%string.
Proof. vm_compute. reflexivity. Qed.

Example verdict_object score :
  verdict_of (Counter ["OBJECT_DETECTED"%string]) score 1 = "CHEATING"%string.
Proof. reflexivity. Qed.

Example verdict_clean :
  verdict_of (Counter ["GAZE_AWAY"%string]) 0.7%float 1 = "CLEAN"%string.
Proof. vm_compute. reflexivity. Qed.

(** A new analyzer starts with all three counters at zero, so a session run
    through [analyze_recording] starts from zero counters. *)
Lemma add_dirs_present p d : p ∈ dirs d -> add_dirs [p] d = d.
Proof.
  intros H. destruct d as [ds fs]. unfold add_dirs. simpl in *. f_equal.
  apply set_eq. intros x.
  rewrite !elem_of_union, elem_of_singleton, elem_of_empty.
  split; [|tauto]. intros [[->|[]]|Hx]; done.
Qed.

(** What [__init__] sets when it returns (lines 66-86). *)
Lemma init_inr env config_path logs d a d' :
  __init__ env config_path logs d = (inr a, d') ->
  exists c,
    load_config env config_path = inr c
    /\ blocked d logs = None
    /\ d' = add_dirs [logs // "evidence"] (mkdir_p logs d)
    /\ attributes env c logs (logs // "evidence") = inr a.
Proof.
  unfold __init__. destruct (load_config env config_path) as [e|c]; [discriminate|].
  unfold fs_mkdir at 1. destruct (blocked d logs); [discriminate|].
  destruct (fs_mkdir false (logs // "evidence") (mkdir_p logs d)) as [e|d2] eqn:E2;
    [discriminate|].
  intros H. injection H as H <-. exists c. split_and!; try done.
  unfold fs_mkdir in E2.
  destruct (blocked (mkdir_p logs d) (logs // "evidence")); [discriminate|].
  destruct (is_dir (mkdir_p logs d) (logs // "evidence")) eqn:Ed.
  - injection E2 as <-. symmetry. apply add_dirs_present.
    unfold is_dir in Ed. by apply bool_decide_eq_true in Ed.
  - destruct (parent_ok (mkdir_p logs d) (logs // "evidence")); [|discriminate].
    by injection E2 as <-.
Qed.

(** A new analyzer starts with all three counters at zero, so a session run
    through [analyze_recording] starts from zero counters. *)
Lemma init_counters_zero env config_path logs d a d' :
  __init__ env config_path logs d = (inr a, d') ->
  _gaze_away_frames a = 0
  /\ _mouth_moving_frames a = 0
  /\ _multi_face_frames a = 0.
Proof.
  intros H. apply init_inr in H as (c & _ & _ & _ & H).
  unfold attributes in H. inv_obind H. by injection H as <-.
Qed.

(** One frame with an empty chair and, for the object detector, a phone. *)
Example empty_chair_and_phone :
  let fa := _generate_alerts demo_env "s" 0 0%float (shot 1) "logs" (VBool false)
              (VStr "center") (VBool false) false (VInt 1) [phone] demo_world in
  match fa.1 with
  | inr al => alert_key <$> al
  | inl _ => []
  end
  = [("FACE_MISSING"%string, 0); ("OBJECT_DETECTED"%string, 0)].
Proof. vm_compute. reflexivity. Qed.

(** A frame wider than [RESIZE_WIDTH] is scaled to 480 columns before the
    detectors and the evidence writer see it. *)
Example wide_frame_resized :
  files (disk (loop_body demo_env perf_default "s" "logs" 30%float
                 (mkFrame 720 1280 1) locals_init demo_world).2)
    !! "logs/face_missing_0.jpg"%string
  = Some (Image (mkFrame 270 480 1)).
Proof. vm_compute. reflexivity. Qed.

(** * Further properties of the analyzer *)

(** ** The frame loop, case by case *)

Lemma loop_body_processed env perf sid ed fps fr l w l' w' :
  loop_body env perf sid ed fps fr l w = (inr l', w') ->
  FRAME_STRIDE perf <> 0 /\
  ((frame_idx l mod FRAME_STRIDE perf <> 0 /\ l' = skip_frame l /\ w' = w)
   \/ (frame_idx l mod FRAME_STRIDE perf = 0
       /\ processed env perf sid ed fps fr l w l' w')).
Proof.
  unfold loop_body. intros H.
  inv_bind H as r w1 Hr. apply py_mod_inr in Hr as (ES & -> & ->).
  split; [done|].
  destruct (frame_idx l mod FRAME_STRIDE perf =? 0) eqn:EM;
    cbv beta iota delta [negb] in H.
  2:{ left. apply Z.eqb_neq in EM. simpl in H. by simplify_eq. }
  apply Z.eqb_eq in EM. right. split; [done|].
  inv_bind H as t w1 Ht. apply py_truediv_inr in Ht as (-> & ->).
  inv_bind H as fr' w1 Hfr.
  assert (w1 = w /\ seen_frame env perf fr = inr fr') as [-> Hseen].
  { clear H. unfold seen_frame.
    destruct (RESIZE_WIDTH perf <? shape1 fr); [|simpl in Hfr; by simplify_eq].
    inv_bind Hfr as sc w2 Hsc. unfold py_truediv in Hsc.
    destruct (PrimFloat.eqb (float_of_Z (shape1 fr)) 0); simpl in Hsc; [discriminate|].
    injection Hsc as <- <-.
    inv_bind Hfr as h w2 Hh. simpl in Hh, Hfr.
    injection Hh as Hh <-. rewrite Hh. by simplify_eq. }
  clear Hfr.
  inv_bind H as a w1 Ha. simpl in Ha. injection Ha as <- <-.
  inv_bind H as fp w1 Hfp.
  assert (w1 = w /\ face_value (face_detector (self w)) fr' fp) as [-> Vfp].
  { clear H. unfold face_value.
    destruct (face_detector (self w)); simpl in Hfp; by simplify_eq. }
  clear Hfp.
  inv_bind H as gd w1 Hgd.
  assert (w1 = w /\ gaze_value (eye_tracker (self w)) fr' gd) as [-> Vgd].
  { clear H. unfold gaze_value.
    destruct (eye_tracker (self w)); [|simpl in Hgd; by simplify_eq].
    inv_bind Hgd as res w2 Hres. inv_bind Hgd as p w3 Hp.
    simpl in Hres, Hp, Hgd. simplify_eq. split; [done|]. eauto. }
  clear Hgd.
  inv_bind H as mm w1 Hmm.
  assert (w1 = w /\ mouth_value (mouth_monitor (self w)) fr' mm) as [-> Vmm].
  { clear H. unfold mouth_value.
    destruct (mouth_monitor (self w)); simpl in Hmm; by simplify_eq. }
  clear Hmm.
  inv_bind H as objs w1 Hobjs.
  assert (w1 = w /\ objects_value perf l (object_detector (self w)) fr' objs)
    as [-> Vobj].
  { clear H. unfold objects_value.
    destruct (object_detector (self w)) as [dobj|]; simpl in Hobjs.
    - unfold py_mod in Hobjs.
      destruct (OBJ_DETECT_EVERY perf =? 0) eqn:E0; simpl in Hobjs; [discriminate|].
      apply Z.eqb_neq in E0.
      destruct (processed_idx l mod OBJ_DETECT_EVERY perf =? 0); simpl in Hobjs.
      + destruct (dobj fr') eqn:Ed; simplify_eq. split; [done|]. split; [done|]. eauto.
      + by simplify_eq.
    - by simplify_eq. }
  clear Hobjs.
  inv_bind H as lf w1 Hlf.
  assert (w1 = w /\ multi_value perf l (multi_face_detector (self w)) fr' lf.1 lf.2)
    as [-> Vmf].
  { clear H. unfold multi_value.
    destruct (multi_face_detector (self w)) as [dmf|]; simpl in Hlf.
    - unfold py_mod in Hlf.
      destruct (MF_DETECT_EVERY perf =? 0) eqn:E0; simpl in Hlf; [discriminate|].
      apply Z.eqb_neq in E0.
      destruct (processed_idx l mod MF_DETECT_EVERY perf =? 0); simpl in Hlf.
      + destruct (dmf fr') eqn:Ed; simplify_eq. split; [done|]. split; [done|]. eauto.
      + by simplify_eq.
    - by simplify_eq. }
  clear Hlf.
  inv_bind H as al w1 Hal.
  destruct w as [a d]. rewrite generate_alerts_run in Hal. simpl in H.
  simplify_eq.
  exists fr', fp, gd, mm, objs, lf.1, lf.2. simpl. done.
Qed.

(** A failing iteration fails before [_generate_alerts]: it changes
    nothing. *)
Ltac peel_fail x :=
  match goal with
  | |- (bind ?m ?k ?w).1 = inl _ -> (bind ?m ?k ?w).2 = _ =>
      let o := fresh "o" in
      let Ho := fresh "Ho" in
      assert (pure m) as [o Ho] by solve_pure;
      rewrite !(bind_pure m k o w Ho);
      clear Ho; destruct o as [?|x]; [reflexivity|]; cbv beta
  end.

Lemma loop_body_fail env perf sid ed fps fr l w e :
  (loop_body env perf sid ed fps fr l w).1 = inl e ->
  (loop_body env perf sid ed fps fr l w).2 = w.
Proof.
  unfold loop_body.
  peel_fail r. destruct (negb (r =? 0)); [reflexivity|].
  peel_fail t. peel_fail fr'.
  rewrite !bind_get_self.
  peel_fail fp. peel_fail gd. peel_fail mm. peel_fail objs. peel_fail lf.
  destruct w as [a d]. unfold bind. rewrite generate_alerts_run. discriminate.
Qed.

(** An invariant of the world that processed frames keep is kept by the
    whole loop, whether it completes or raises. *)
Lemma loop_invariant (P : World -> Prop) env perf sid ed fps :
  (forall fr l w l' w',
     P w -> processed env perf sid ed fps fr l w l' w' -> P w') ->
  forall frames l w,
    P w -> P (for_each (loop_body env perf sid ed fps) frames l w).2.
Proof.
  intros Hstep. induction frames as [|fr frames IH]; intros l w HP; [done|].
  cbn [for_each]. unfold bind.
  destruct (loop_body env perf sid ed fps fr l w) as [[e|l1] w1] eqn:Hb.
  - pose proof (loop_body_fail env perf sid ed fps fr l w e) as Hf.
    rewrite Hb in Hf. simpl in *. by rewrite Hf.
  - apply IH. apply loop_body_processed in Hb as [_ [(_ & _ & ->)|[_ Hp]]]; [done|].
    by eapply Hstep.
Qed.

(** The same for a property that relates the locals and the world, for a
    loop that completes. *)
Lemma loop_invariant_locals (P : Locals -> World -> Prop) env perf sid ed fps :
  (forall l w, P l w -> P (skip_frame l) w) ->
  (forall fr l w l' w',
     FRAME_STRIDE perf <> 0 -> frame_idx l mod FRAME_STRIDE perf = 0 ->
     P l w -> processed env perf sid ed fps fr l w l' w' -> P l' w') ->
  forall frames l w l' w',
    P l w ->
    for_each (loop_body env perf sid ed fps) frames l w = (inr l', w') ->
    P l' w'.
Proof.
  intros Hskip Hstep. induction frames as [|fr frames IH]; intros l w l' w' HP H.
  - simpl in H. by simplify_eq.
  - apply for_each_cons_inr in H as (l1 & w1 & Hb & H).
    eapply IH; [|exact H].
    apply loop_body_processed in Hb as [HS [(_ & -> & ->)|[Hon Hp]]].
    + by apply Hskip.
    + by eapply Hstep.
Qed.

Lemma loop_body_frame_idx env perf sid ed fps fr l w l' w' :
  loop_body env perf sid ed fps fr l w = (inr l', w') ->
  frame_idx l' = frame_idx l + 1.
Proof.
  intros H. apply loop_body_processed in H as [_ [(_ & -> & _)|[_ H]]]; [done|].
  destruct H as (fr' & fp & gd & mm & objs & nf & mf & H).
  destruct H as (_ & _ & _ & _ & _ & _ & -> & _). reflexivity.
Qed.

(** ** [analyze_video], case by case *)

(** How [finish] can end: the record could not be opened and the disk is
    as it was; or it was opened and the dump raised, which leaves a truncated
    record; or the record was written. *)
Lemma finish_cases env summary audio w :
  let rp := record_path (self w) (session_id summary) in
  let log := session_log env summary audio in
  let r := finish env summary audio w in
  (exists e, r = (inl e, w))
  \/ (json_ok_log log = false
      /\ r = (inl TypeError, mkWorld (self w) (fs_write rp Truncated (disk w))))
  \/ (json_ok_log log = true
      /\ fs_open_w rp (disk w) = inr (fs_write rp Truncated (disk w))
      /\ r = (inr summary, mkWorld (self w) (fs_write rp (Json log) (disk w)))).
Proof.
  cbv zeta. unfold finish, save_record. destruct w as [a d]. cbn [self disk].
  unfold fs_open_w.
  destruct (is_dir d _); [left; by eexists|].
  destruct (existsb (is_file d) _); [left; by eexists|].
  destruct (parent_ok d _); [|left; by eexists].
  destruct (json_ok_log _) eqn:Hj; simpl.
  - right. right. split_and!; try done. unfold fs_write. simpl.
    by rewrite insert_insert_eq.
  - right. left. done.
Qed.

(** A property of the world that creating the evidence directory, processing
    a frame, noting the speaker analyzer and opening the record keep holds in
    the world [analyze_video] leaves when it raises, and in the world in which
    it writes the session record when it returns. *)
Lemma analyze_video_world (P : World -> Prop) env perf vp ap sid0 w :
  let sid := effective_session_id env vp sid0 in
  let ed := evidence_root (self w) // sid in
  (forall w1, P w1 -> P (mkWorld (self w1) (mkdir_p ed (disk w1)))) ->
  (forall fps fr l w1 l' w1',
     P w1 -> processed env perf sid ed fps fr l w1 l' w1' -> P w1') ->
  (forall w1 s, P w1 -> P (mkWorld (set_speaker s (self w1)) (disk w1))) ->
  (forall w1,
     P w1 ->
     P (mkWorld (self w1) (fs_write (record_path (self w1) sid) Truncated (disk w1)))) ->
  P w ->
  let r := analyze_video env perf vp ap sid0 w in
  match r.1 with
  | inl _ => P r.2
  | inr summary =>
      exists w1 audio,
        P w1
        /\ r.2 = mkWorld (self w1)
                   (fs_write (record_path (self w1) sid)
                      (Json (session_log env summary audio)) (disk w1))
  end.
Proof.
  intros sid ed Hdir Hstep Hspk Hopen HP r. subst r.
  destruct (blocked (disk w) ed) as [e|] eqn:Hb.
  { by rewrite (analyze_video_blocked _ _ _ _ _ _ e). }
  destruct (VideoCapture env vp) as [cap|] eqn:Hcap.
  2:{ rewrite analyze_video_unopenable by done. simpl. by apply Hdir. }
  rewrite (analyze_video_opened _ _ _ _ _ cap) by done. fold sid. fold ed.
  rewrite run_session_eq.
  pose proof (loop_invariant P env perf sid ed (float_or (cap_fps cap) 30%float)
                (Hstep _) (cap_frames cap) locals_init
                (mkWorld (self w) (mkdir_p ed (disk w))) (Hdir _ HP)) as HL.
  destruct (for_each _ (cap_frames cap) locals_init _) as [[e|l] w1]; [exact HL|].
  simpl in HL. cbv zeta.
  assert (forall audio w2,
            P w2 ->
            match (finish env (summary_after sid cap l) audio w2).1 with
            | inl _ => P (finish env (summary_after sid cap l) audio w2).2
            | inr summary =>
                exists w3 audio0,
                  P w3
                  /\ (finish env (summary_after sid cap l) audio w2).2
                     = mkWorld (self w3)
                         (fs_write (record_path (self w3) sid)
                            (Json (session_log env summary audio0)) (disk w3))
            end) as Hfin.
  { intros audio w2 HP2.
    destruct (finish_cases env (summary_after sid cap l) audio w2)
      as [[e ->]|[[_ ->]|(_ & _ & ->)]]; simpl.
    - done.
    - by apply Hopen.
    - exists w2, audio. done. }
  destruct (audio_enabled (self w1) && str_truthy ap).
  - destruct (speaker_analyze env (logs_dir (self w1)) (default ""%string ap)) as [e|res].
    + simpl. by apply Hspk.
    + apply Hfin. by apply Hspk.
  - by apply Hfin.
Qed.

(** ** What a call leaves of the analyzer *)

Lemma settle_range thr c sig :
  0 < thr -> 0 <= c -> 0 <= settle thr c sig < thr.
Proof.
  intros Ht Hc. unfold settle, fires, tick.
  destruct sig; destruct (Z.leb_spec thr (c + 1)); destruct (Z.leb_spec thr 0); lia.
Qed.

Lemma frame_self_range gd mm mf a :
  counters_in_range a -> counters_in_range (frame_self gd mm mf a).
Proof.
  intros (Hg & Hm & Hk). unfold counters_in_range, frame_self. simpl.
  split_and!; apply settle_range; lia.
Qed.

(** X1: the debounce counters stay within their range.  If each counter is
    at least 0 and below its threshold (3, 3 and 5) when [analyze_video] is
    called, it is so again when the call ends, whether it returns or
    raises. *)
Theorem counters_stay_in_range env perf vp ap sid w :
  counters_in_range (self w) ->
  counters_in_range (self (analyze_video env perf vp ap sid w).2).
Proof.
  intros H.
  pose proof (analyze_video_world (fun w1 => counters_in_range (self w1))
                env perf vp ap sid w) as HW.
  cbv zeta in HW.
  destruct (analyze_video env perf vp ap sid w) as [[e|s] w'] eqn:E; simpl in *.
  - apply HW; try done.
    intros fps fr l w1 l' w1' HP (fr' & fp & gd & mm & objs & nf & mf & Hp).
    cbv zeta in Hp. destruct Hp as (_ & _ & _ & _ & _ & _ & _ & ->). simpl.
    by apply frame_self_range.
  - destruct HW as (w1 & audio & HP & ->); try done.
    intros fps fr l w1 l' w1' HP (fr' & fp & gd & mm & objs & nf & mf & Hp).
    cbv zeta in Hp. destruct Hp as (_ & _ & _ & _ & _ & _ & _ & ->). simpl.
    by apply frame_self_range.
Qed.

Lemma counters_stay_in_range_witness :
  counters_in_range (self demo_world)
  /\ counters_in_range (self (demo_run "gaze3.mp4" "s1" demo_world).2).
Proof.
  assert (counters_in_range (self demo_world)) as H
    by (vm_compute; repeat split; discriminate).
  split; [exact H|].
  exact (counters_stay_in_range demo_env perf_default "gaze3.mp4" None
           (Some "s1"%string) demo_world H).
Defined.

(** X2: [analyze_video] changes nothing of the analyzer but the three
    counters and the speaker analyzer: configuration, directories, detectors
    and audio flag are the same after the call, whether it returns or
    raises. *)
Theorem analyzer_setup_kept env perf vp ap sid w :
  same_setup (self w) (self (analyze_video env perf vp ap sid w).2).
Proof.
  pose proof (analyze_video_world (fun w1 => same_setup (self w) (self w1))
                env perf vp ap sid w) as HW.
  cbv zeta in HW.
  assert (same_setup (self w) (self w)) as H0 by (by repeat split).
  assert (forall fps fr l w1 l' w1',
            same_setup (self w) (self w1) ->
            processed env perf (effective_session_id env vp sid)
              (evidence_root (self w) // effective_session_id env vp sid)
              fps fr l w1 l' w1' ->
            same_setup (self w) (self w1')) as Hstep.
  { intros fps fr l w1 l' w1' HP (fr' & fp & gd & mm & objs & nf & mf & Hp).
    cbv zeta in Hp. destruct Hp as (_ & _ & _ & _ & _ & _ & _ & ->). exact HP. }
  destruct (analyze_video env perf vp ap sid w) as [[e|s] w'] eqn:E; simpl in *.
  - by apply HW.
  - destruct HW as (w1 & audio & HP & ->); done.
Qed.

(** ** The alerts of a completed session *)

Lemma int_gt_1_inv v : int_gt_1 v = true -> exists n, 1 < n /\ v = VInt n.
Proof.
  destruct v; simpl; try discriminate. intros H. apply Z.ltb_lt in H. eauto.
Qed.

Lemma frame_alerts_fields sid i fps ed fp gd mm mf nf objs a :
  mf = int_gt_1 nf ->
  let al := frame_alerts sid i (PrimFloat.div (float_of_Z i) fps) ed
              fp gd mm mf nf objs a in
  Forall (alert_ok sid ed fps) al /\ Forall details_ok al.
Proof.
  intros Hmf. cbv zeta. unfold frame_alerts.
  assert (Forall (alert_ok sid ed fps)
            (event sid (PrimFloat.div (float_of_Z i) fps) i ed
               "OBJECT_DETECTED" "high" "object" <$> objs)
          /\ Forall details_ok
               (event sid (PrimFloat.div (float_of_Z i) fps) i ed
                  "OBJECT_DETECTED" "high" "object" <$> objs)) as [Ho1 Ho2].
  { split; apply Forall_fmap, Forall_true; intros o.
    - split_and!; try done. apply (bool_decide_unpack _); by vm_compute.
    - split; simpl; [discriminate|done]. }
  assert (fires 5 (_multi_face_frames a) mf = true ->
          exists n, 1 < n /\ nf = VInt n) as Hnf.
  { destruct mf; [intros _; by apply int_gt_1_inv|].
    unfold fires, tick. discriminate. }
  destruct (negb (truthy fp)), (fires 3 (_gaze_away_frames a) (ne_str gd "center")),
    (fires 3 (_mouth_moving_frames a) (truthy mm)),
    (fires 5 (_multi_face_frames a) mf).
  all: try (destruct (Hnf eq_refl) as (n & Hn & ->)).
  all: split; repeat (apply Forall_app; split); try done; repeat constructor;
         try done; try (apply (bool_decide_unpack _); by vm_compute);
         try (simpl; discriminate); try (simpl; intros _; eauto).
Qed.

(** A call that returns: the evidence directory was created, the capture
    opened, the loop completed, the audio analysis (if any) returned, and the
    record was written last. *)
Lemma analyze_video_completed env perf vp ap sid0 w summary w' :
  analyze_video env perf vp ap sid0 w = (inr summary, w') ->
  let sid := effective_session_id env vp sid0 in
  let ed := evidence_root (self w) // sid in
  exists cap l w1 audio,
    VideoCapture env vp = Some cap
    /\ for_each (loop_body env perf sid ed (float_or (cap_fps cap) 30%float))
         (cap_frames cap) locals_init
         (mkWorld (self w) (mkdir_p ed (disk w))) = (inr l, w1)
    /\ summary = summary_after sid cap l
    /\ disk w' = fs_write (record_path (self w1) sid)
                   (Json (session_log env summary audio)) (disk w1)
    /\ ((audio_enabled (self w1) && str_truthy ap = true
         /\ exists res,
              speaker_analyze env (logs_dir (self w1)) (default ""%string ap) = inr res
              /\ audio = Some res
              /\ self w' = set_speaker (Some (logs_dir (self w1))) (self w1))
        \/ (audio_enabled (self w1) && str_truthy ap = false
            /\ audio = None /\ self w' = self w1))
    /\ blocked (disk w) ed = None
    /\ json_ok_log (session_log env summary audio) = true.
Proof.
  intros H sid ed.
  apply analyze_video_inr in H as (cap & Hcap & Hb & H).
  fold sid in H, Hb. fold ed in H, Hb. rewrite run_session_eq in H.
  destruct (for_each _ (cap_frames cap) locals_init _) as [[e|l] w1] eqn:Hloop;
    [discriminate|].
  cbv zeta in H.
  destruct (audio_enabled (self w1) && str_truthy ap) eqn:Haudio.
  - destruct (speaker_analyze env (logs_dir (self w1)) (default ""%string ap))
      as [e|res] eqn:Hres; [discriminate|].
    destruct (finish_cases env (summary_after sid cap l) (Some res)
                (mkWorld (set_speaker (Some (logs_dir (self w1))) (self w1)) (disk w1)))
      as [[e He]|[[_ He]|(Hj & _ & He)]];
      rewrite He in H; [discriminate|discriminate|].
    injection H as <- <-. exists cap, l, w1, (Some res).
    split_and!; try done. left. split; [done|]. exists res. done.
  - destruct (finish_cases env (summary_after sid cap l) None w1)
      as [[e He]|[[_ He]|(Hj & _ & He)]];
      rewrite He in H; [discriminate|discriminate|].
    injection H as <- <-. exists cap, l, w1, None.
    split_and!; try done. right. done.
Qed.

Lemma by_frame_app al block n :
  by_frame al ->
  Forall (fun e => a_frame_index e < n) al ->
  Forall (fun e => a_frame_index e = n) block ->
  by_frame (al ++ block).
Proof.
  intros Hs Hlt Hb i j e1 e2 Hij H1 H2.
  rewrite Forall_forall in Hlt, Hb.
  apply lookup_app_Some in H1 as [H1|[Hi H1]];
    apply lookup_app_Some in H2 as [H2|[Hj H2]].
  - by eapply Hs.
  - apply list_elem_of_lookup_2 in H1, H2.
    specialize (Hlt _ H1). specialize (Hb _ H2). lia.
  - apply lookup_lt_Some in H2. lia.
  - apply list_elem_of_lookup_2 in H1, H2.
    rewrite (Hb _ H1), (Hb _ H2). lia.
Qed.

Lemma loop_alert_fields env perf sid ed fps frames l w l' w' :
  for_each (loop_body env perf sid ed fps) frames l w = (inr l', w') ->
  last_multi l = int_gt_1 (last_faces l) ->
  Forall (alert_ok sid ed fps) (alerts_so_far l) ->
  Forall details_ok (alerts_so_far l) ->
  last_multi l' = int_gt_1 (last_faces l')
  /\ Forall (alert_ok sid ed fps) (alerts_so_far l')
  /\ Forall details_ok (alerts_so_far l').
Proof.
  intros H H1 H2 H3.
  apply (loop_invariant_locals
           (fun l _ => last_multi l = int_gt_1 (last_faces l)
                       /\ Forall (alert_ok sid ed fps) (alerts_so_far l)
                       /\ Forall details_ok (alerts_so_far l))
           env perf sid ed fps) with frames l w w'; try done.
  clear. intros fr l w l' w' _ _ (Hm & Ha & Hd)
    (fr' & fp & gd & mm & objs & nf & mf & Hp).
  cbv zeta in Hp. destruct Hp as (_ & _ & _ & _ & _ & Vmf & -> & _). simpl.
  assert (mf = int_gt_1 nf) as Hmf.
  { unfold multi_value in Vmf.
    destruct (multi_face_detector (self w)) as [d|].
    - destruct Vmf as [_ Vmf].
      destruct (processed_idx l mod MF_DETECT_EVERY perf =? 0).
      + by destruct Vmf as (res & _ & _ & ->).
      + destruct Vmf as [-> ->]. done.
    - destruct Vmf as [-> ->]. done. }
  split; [done|].
  destruct (frame_alerts_fields sid (frame_idx l) fps ed fp gd mm mf nf objs
              (self w) Hmf) as [F1 F2].
  split; by apply Forall_app.
Qed.

Lemma loop_alert_order env perf sid ed fps frames l w l' w' :
  for_each (loop_body env perf sid ed fps) frames l w = (inr l', w') ->
  0 <= frame_idx l ->
  Forall (fun e => 0 <= a_frame_index e < frame_idx l
                   /\ a_frame_index e mod FRAME_STRIDE perf = 0) (alerts_so_far l) ->
  by_frame (alerts_so_far l) ->
  0 <= frame_idx l'
  /\ Forall (fun e => 0 <= a_frame_index e < frame_idx l'
                      /\ a_frame_index e mod FRAME_STRIDE perf = 0) (alerts_so_far l')
  /\ by_frame (alerts_so_far l').
Proof.
  intros H H1 H2 H3.
  apply (loop_invariant_locals
           (fun l _ =>
              0 <= frame_idx l
              /\ Forall (fun e => 0 <= a_frame_index e < frame_idx l
                                  /\ a_frame_index e mod FRAME_STRIDE perf = 0)
                   (alerts_so_far l)
              /\ by_frame (alerts_so_far l))
           env perf sid ed fps) with frames l w w'; try done.
  - intros l0 _ (H0 & Ha & Hs). simpl. split_and!; [lia| |done].
    eapply Forall_impl; [exact Ha|]. simpl. lia.
  - intros fr l0 w0 l0' w0' _ Hon (H0 & Ha & Hs)
      (fr' & fp & gd & mm & objs & nf & mf & Hp).
    cbv zeta in Hp. destruct Hp as (_ & _ & _ & _ & _ & _ & -> & _). simpl.
    destruct (frame_alerts_block sid (frame_idx l0)
                (PrimFloat.div (float_of_Z (frame_idx l0)) fps) ed fp gd mm mf nf
                objs (self w0)) as (_ & B & _).
    split_and!; [lia| |].
    + apply Forall_app. split.
      * eapply Forall_impl; [exact Ha|]. simpl. lia.
      * eapply Forall_impl; [exact B|]. simpl. intros e ->. lia.
    + eapply by_frame_app; [exact Hs| |exact B].
      eapply Forall_impl; [exact Ha|]. simpl. lia.
Qed.

(** X3: every alert of a session that completed carries the session's
    identifier, one of the five alert types, the severity of its type (high
    for MULTI_FACE and OBJECT_DETECTED, medium otherwise), the timestamp
    [frame_index / fps] and an evidence path in the session's evidence
    directory; a MULTI_FACE alert reports a face count above 1, and
    FACE_MISSING, GAZE_AWAY and MOUTH_MOVEMENT alerts have empty details. *)
Theorem alerts_well_formed env perf vp ap sid w summary w' :
  analyze_video env perf vp ap sid w = (inr summary, w') ->
  Forall (alert_ok (session_id summary)
            (evidence_root (self w) // session_id summary) (fps summary))
    (alerts summary)
  /\ Forall details_ok (alerts summary).
Proof.
  intros H. apply analyze_video_completed in H.
  destruct H as (cap & l & w1 & audio & _ & Hloop & -> & _). simpl.
  apply loop_alert_fields in Hloop as (_ & Ha & Hd); done.
Qed.

(** X4: the alerts of a session that completed are in the order of their
    frames, and every alert's frame index is the index of a frame of the
    video that the stride keeps: not negative, below [num_frames] and a
    multiple of the stride. *)
Theorem alerts_in_frame_order env perf vp ap sid w summary w' :
  analyze_video env perf vp ap sid w = (inr summary, w') ->
  by_frame (alerts summary)
  /\ Forall (fun e => 0 <= a_frame_index e < num_frames summary
                      /\ a_frame_index e mod FRAME_STRIDE perf = 0)
       (alerts summary).
Proof.
  intros H. apply analyze_video_completed in H.
  destruct H as (cap & l & w1 & audio & _ & Hloop & -> & _). simpl.
  apply loop_alert_order in Hloop as (_ & Ha & Hs); done.
Qed.

Lemma alerts_well_formed_witness :
  analyze_video demo_env perf_default "gaze3.mp4" None (Some "s3"%string) demo_world
  = (inr (summary_of gaze_run), gaze_run.2)
  /\ Forall (alert_ok "s3" "logs/evidence/s3" 30%float) (alerts (summary_of gaze_run))
  /\ Forall details_ok (alerts (summary_of gaze_run)).
Proof.
  assert (analyze_video demo_env perf_default "gaze3.mp4" None (Some "s3"%string)
            demo_world = (inr (summary_of gaze_run), gaze_run.2)) as H
    by (vm_compute; reflexivity).
  split; [exact H|].
  exact (alerts_well_formed _ _ _ _ _ _ _ _ H).
Defined.

Lemma alerts_in_frame_order_witness :
  analyze_video cut_env perf_default "chair.mp4" None (Some "s7"%string) demo_world
  = (inr (summary_of chair_run), chair_run.2)
  /\ a_frame_index <$> alerts (summary_of chair_run) = [0; 5; 10]
  /\ by_frame (alerts (summary_of chair_run))
  /\ Forall (fun e => 0 <= a_frame_index e < 11 /\ a_frame_index e mod 5 = 0)
       (alerts (summary_of chair_run)).
Proof.
  assert (analyze_video cut_env perf_default "chair.mp4" None (Some "s7"%string)
            demo_world = (inr (summary_of chair_run), chair_run.2)) as H
    by (vm_compute; reflexivity).
  split; [exact H|]. split; [vm_compute; reflexivity|].
  exact (alerts_in_frame_order _ _ _ _ _ _ _ _ H).
Defined.

(** ** Which files a call writes *)

Lemma string_app_assoc (s t u : string) :
  ((s ++ t) ++ u = s ++ (t ++ u))%string.
Proof.
  induction s as [|c s IH]; [done|].
  change (String c ((s ++ t) ++ u) = String c (s ++ (t ++ u)))%string.
  by rewrite IH.
Qed.

Lemma last_ascii_app_cons s c r :
  last_ascii (s ++ String c r) = last_ascii (String c r).
Proof.
  induction s as [|a s IH]; [done|].
  change (String a s ++ String c r)%string with (String a (s ++ String c r)).
  cbn [last_ascii]. rewrite IH. by destruct s.
Qed.

Lemma ends_with_last suffix c r s :
  suffix = String c r -> ends_with suffix s -> last_ascii s = last_ascii suffix.
Proof. intros -> [p ->]. apply last_ascii_app_cons. Qed.

Lemma jpg_not_json s : ends_with ".jpg" s -> ~ ends_with ".json" s.
Proof.
  intros H1 H2.
  apply (ends_with_last _ _ _ _ eq_refl) in H1.
  apply (ends_with_last _ _ _ _ eq_refl) in H2.
  rewrite H1 in H2. discriminate.
Qed.

Lemma record_path_json a sid : ends_with ".json" (record_path a sid).
Proof.
  exists (logs_dir a ++ "/" ++ sid)%string.
  unfold record_path, path_join. by rewrite !string_app_assoc.
Qed.

Lemma evidence_file_jpg ed tag (i : Z) :
  ends_with ".jpg" (ed // (tag ++ "_" ++ pretty i ++ ".jpg")%string).
Proof.
  exists (ed ++ "/" ++ tag ++ "_" ++ pretty i)%string.
  unfold path_join. by rewrite !string_app_assoc.
Qed.


Lemma write_evidence_cons env fr e al d :
  write_evidence env fr (e :: al) d
  = write_evidence env fr al
      (match a_image_path e with
       | Some p => fs_imwrite (cv2_imwrite env p fr) p fr d
       | None => d
       end).
Proof. reflexivity. Qed.

Lemma fs_imwrite_dirs ok p fr d : dirs (fs_imwrite ok p fr d) = dirs d.
Proof. unfold fs_imwrite. by destruct (_ && _). Qed.

Lemma fs_imwrite_other ok p fr d q :
  p <> q -> files (fs_imwrite ok p fr d) !! q = files d !! q.
Proof.
  intros H. unfold fs_imwrite. destruct (_ && _); [|done].
  simpl. by apply lookup_insert_ne.
Qed.

Lemma write_evidence_dirs env fr al : forall d,
  dirs (write_evidence env fr al d) = dirs d.
Proof.
  induction al as [|e al IH]; intros d; [done|].
  rewrite write_evidence_cons, IH. destruct (a_image_path e); [|done].
  apply fs_imwrite_dirs.
Qed.

(** Only the evidence paths of the alerts are written. *)
Lemma write_evidence_other env fr al q : forall d,
  Forall (fun e => a_image_path e <> Some q) al ->
  files (write_evidence env fr al d) !! q = files d !! q.
Proof.
  induction al as [|e al IH]; intros d H; [done|].
  apply Forall_cons in H as [He H].
  rewrite write_evidence_cons, IH by done.
  destruct (a_image_path e) as [p|]; [|done].
  apply fs_imwrite_other. congruence.
Qed.

(** Whether [cv2.imwrite] puts [frame] at [p]. *)
Lemma is_dir_dirs d d' p : dirs d' = dirs d -> is_dir d' p = is_dir d p.
Proof. unfold is_dir. by intros ->. Qed.

Lemma parent_ok_dirs d d' p : dirs d' = dirs d -> parent_ok d' p = parent_ok d p.
Proof.
  intros H. unfold parent_ok. destruct (parent p); [|done]. by apply is_dir_dirs.
Qed.

(** What the evidence path of one of the alerts holds afterwards. *)
Lemma write_evidence_at env fr al e p : forall d,
  e ∈ al -> a_image_path e = Some p ->
  files (write_evidence env fr al d) !! p
  = if cv2_imwrite env p fr && negb (is_dir d p) && parent_ok d p
    then Some (Image fr) else files d !! p.
Proof.
  induction al as [|x al IH]; intros d He Hp; [by apply elem_of_nil in He|].
  rewrite write_evidence_cons.
  destruct (decide (a_image_path x = Some p)) as [Hx|Hx].
  - rewrite Hx.
    assert (forall al' d',
              dirs d' = dirs d ->
              files d' !! p
              = (if cv2_imwrite env p fr && negb (is_dir d p) && parent_ok d p
                 then Some (Image fr) else files d !! p) ->
              files (write_evidence env fr al' d') !! p
              = (if cv2_imwrite env p fr && negb (is_dir d p) && parent_ok d p
                 then Some (Image fr) else files d !! p)) as Hkeep.
    { clear. induction al' as [|y al' IH']; intros d' Hd Hf; [done|].
      rewrite write_evidence_cons. destruct (a_image_path y) as [q|]; [|by apply IH'].
      apply IH'; [by rewrite fs_imwrite_dirs|].
      destruct (decide (q = p)) as [->|Hq]; [|by rewrite fs_imwrite_other].
      unfold fs_imwrite. rewrite (is_dir_dirs d d'), (parent_ok_dirs d d') by done.
      destruct (_ && _ && _); [|done]. simpl. apply lookup_insert_eq. }
    apply Hkeep; [apply fs_imwrite_dirs|].
    unfold fs_imwrite. destruct (_ && _ && _); [|done]. simpl. apply lookup_insert_eq.
  - apply elem_of_cons in He as [->|He]; [done|].
    rewrite (IH _ He Hp).
    destruct (a_image_path x) as [q|]; [|done].
    rewrite (is_dir_dirs d), (parent_ok_dirs d) by apply fs_imwrite_dirs.
    rewrite fs_imwrite_other by congruence. done.
Qed.




(** ** What the evidence files hold *)

Lemma string_app_nil_r (s : string) : (s ++ "")%string = s.
Proof.
  induction s as [|c s IH]; [done|].
  change (String c (s ++ "") = String c s)%string. by rewrite IH.
Qed.

Lemma slices_app (s t : string) :
  slices (s ++ t) = slices s ++ (String.append s <$> slices t).
Proof.
  induction s as [|c s IH].
  - simpl. by rewrite list_fmap_id.
  - change (String c s ++ t)%string with (String c (s ++ t)). cbn [slices].
    rewrite IH, fmap_app, <- list_fmap_compose, app_assoc. done.
Qed.

Lemma slices_join (p c : string) :
  slices (p // c)
  = slices p ++ [p] ++ (String.append (p ++ "/") <$> slices c).
Proof.
  unfold path_join. rewrite slices_app.
  change ("/" ++ c)%string with (String slash c). cbn [slices].
  change (Ascii.eqb slash slash) with true. cbn [app].
  rewrite fmap_cons, string_app_nil_r, <- list_fmap_compose. do 2 f_equal.
  apply list_fmap_ext. intros _ x _. simpl. by rewrite string_app_assoc.
Qed.

Lemma digit_no_slash (n : N) : Ascii.eqb (pretty_N_char n) slash = false.
Proof. unfold pretty_N_char. repeat case_match; reflexivity. Qed.

Lemma pretty_N_go_slices (x : N) : forall s,
  slices s = [] -> slices (pretty_N_go x s) = [].
Proof.
  induction (N.lt_wf_0 x) as [x _ IH]. intros s Hs.
  destruct (decide (x = 0%N)) as [->|Hx].
  - by rewrite pretty_N_go_0.
  - rewrite pretty_N_go_step by lia. apply IH.
    + apply N.div_lt; lia.
    + cbn [slices]. rewrite digit_no_slash, Hs. done.
Qed.

Lemma pretty_N_slices (x : N) : slices (pretty x) = [].
Proof.
  unfold pretty, pretty_N. case_decide; [done|]. by apply pretty_N_go_slices.
Qed.

(** A frame index is written without a ["/"]. *)
Lemma pretty_Z_slices (i : Z) : slices (pretty i) = [].
Proof.
  destruct i as [|p|p]; [done| |].
  - apply (pretty_N_slices (N.pos p)).
  - change (pretty (Z.neg p)) with ("-" +:+ pretty (N.pos p))%string.
    rewrite slices_app, (pretty_N_slices (N.pos p)). done.
Qed.

(** The ancestors of an evidence file are its directory and the ancestors
    of that. *)
Lemma evidence_path_slices ed ty i :
  ty ∈ alert_types ->
  slices (evidence_path ed ty i) = slices ed ++ [ed].
Proof.
  intros Hty. unfold evidence_path. rewrite slices_join.
  assert (slices (evidence_tag ty ++ "_" ++ pretty i ++ ".jpg") = []) as ->.
  { rewrite !slices_app, pretty_Z_slices.
    unfold alert_types in Hty. rewrite !elem_of_cons, elem_of_nil in Hty.
    destruct Hty as [->|[->|[->|[->|[->|[]]]]]]; reflexivity. }
  by rewrite fmap_nil, app_nil_r.
Qed.

Lemma parents_snoc ed : forall l,
  last (filter (fun s => s <> ""%string) (l ++ [ed]))
  = if decide (ed = ""%string) then last (filter (fun s => s <> ""%string) l)
    else Some ed.
Proof.
  intros l. rewrite filter_app. case_decide as He.
  - subst. rewrite filter_cons_False; [by rewrite filter_nil, app_nil_r|].
    intros H. by apply H.
  - rewrite filter_cons_True, filter_nil by done. apply last_snoc.
Qed.

(** Once its directory exists, an evidence file can be created there. *)
Lemma evidence_parent_ok ed ty i d :
  ty ∈ alert_types -> ed ∈ dirs d ->
  Forall (fun q => q ∈ dirs d) (parents ed) ->
  parent_ok d (evidence_path ed ty i) = true.
Proof.
  intros Hty Hed Hanc. unfold parent_ok, parent, parents.
  rewrite evidence_path_slices by done. rewrite parents_snoc.
  case_decide as He.
  - destruct (last _) as [q|] eqn:Hl; [|done].
    unfold is_dir. apply bool_decide_eq_true.
    rewrite Forall_forall in Hanc. apply Hanc.
    rewrite last_Some in Hl. destruct Hl as [l' Hl]. unfold parents. rewrite Hl.
    apply elem_of_app. right. by left.
  - unfold is_dir. by apply bool_decide_eq_true.
Qed.

(** An evidence path is longer than its directory and its ancestors. *)
Lemma slices_shorter p : Forall (fun q => (String.length q < String.length p)%nat) (slices p).
Proof.
  induction p as [|c p IH]; [constructor|].
  cbn [slices]. apply Forall_app. split.
  - destruct (Ascii.eqb c slash); [|constructor].
    apply Forall_cons. split; [simpl; lia|constructor].
  - apply Forall_fmap. eapply Forall_impl; [exact IH|]. simpl. lia.
Qed.

Lemma evidence_path_new ed ty i d :
  evidence_path ed ty i ∈ dirs (mkdir_p ed d) <-> evidence_path ed ty i ∈ dirs d.
Proof.
  unfold mkdir_p, add_dirs. simpl. rewrite elem_of_union, elem_of_list_to_set.
  split; [|by right]. intros [H|H]; [|done]. exfalso.
  assert (String.length ed < String.length (evidence_path ed ty i))%nat as Hlen.
  { unfold evidence_path, path_join. rewrite !string_length_app. simpl. lia. }
  apply elem_of_app in H as [H|H].
  - unfold parents in H. apply list_elem_of_filter in H as [_ H].
    pose proof (slices_shorter ed) as Hs. rewrite Forall_forall in Hs.
    specialize (Hs _ H). lia.
  - apply list_elem_of_singleton in H. rewrite H in Hlen. lia.
Qed.

Lemma loop_dirs env perf sid ed fps frames l w l' w' :
  for_each (loop_body env perf sid ed fps) frames l w = (inr l', w') ->
  dirs (disk w') = dirs (disk w).
Proof.
  intros H.
  apply (loop_invariant_locals (fun _ w1 => dirs (disk w1) = dirs (disk w))
           env perf sid ed fps) with frames l w l'; try done.
  intros fr l0 w0 l0' w0' _ _ HP (fr' & fp & gd & mm & objs & nf & mf & Hp).
  cbv zeta in Hp. destruct Hp as (_ & _ & _ & _ & _ & _ & _ & ->). simpl.
  by rewrite write_evidence_dirs.
Qed.

(** The evidence of every alert collected so far, for a loop over the
    frames [frames] that follow the frames [pre] of the video [all], started
    on a disk [d0] whose directories include [ed] and its ancestors; the
    evidence paths of the frames to come are still as they were on [d0]. *)
Lemma loop_evidence_state env perf sid ed fps all d0 : forall frames pre l w l' w',
  all = pre ++ frames ->
  frame_idx l = Z.of_nat (length pre) ->
  ed ∈ dirs d0 -> Forall (fun q => q ∈ dirs d0) (parents ed) ->
  dirs (disk w) = dirs d0 ->
  for_each (loop_body env perf sid ed fps) frames l w = (inr l', w') ->
  Forall (fun e => wf_alert ed e /\ 0 <= a_frame_index e < frame_idx l
                   /\ evidence_state env perf all d0 (disk w) e) (alerts_so_far l) ->
  (forall ty i, ty ∈ alert_types -> frame_idx l <= i ->
     files (disk w) !! evidence_path ed ty i = files d0 !! evidence_path ed ty i) ->
  Forall (fun e => wf_alert ed e /\ 0 <= a_frame_index e < frame_idx l'
                   /\ evidence_state env perf all d0 (disk w') e) (alerts_so_far l').
Proof.
  induction frames as [|fr frames IH];
    intros pre l w l' w' Hall Hidx Hed Hanc Hd H Hinv Hnew.
  - simpl in H. by simplify_eq.
  - apply for_each_cons_inr in H as (l1 & w1 & Hb & H).
    pose proof (loop_body_frame_idx _ _ _ _ _ _ _ _ _ _ Hb) as Hidx1.
    assert (dirs (disk w1) = dirs d0) as Hd1.
    { rewrite <- Hd. apply (loop_dirs env perf sid ed fps [fr] l w l1 w1).
      cbn [for_each]. unfold bind. by rewrite Hb. }
    apply loop_body_processed in Hb as [_ Hb].
    apply (IH (pre ++ [fr]) l1 w1 l' w'); [| |done|done|done|exact H| |]; clear IH H.
    + by rewrite <- app_assoc.
    + rewrite Hidx1, Hidx, length_app. simpl. lia.
    + destruct Hb as [(_ & -> & ->)|[_ Hp]].
      * eapply Forall_impl; [exact Hinv|]. simpl.
        intros e (Hw & Hr & Hs). split; [done|]. split; [lia|done].
      * destruct Hp as (fr' & fp & gd & mm & objs & nf & mf & Hp).
        cbv zeta in Hp. destruct Hp as (Hseen & _ & _ & _ & _ & _ & -> & ->).
        simpl.
        destruct (frame_alerts_block sid (frame_idx l)
                    (PrimFloat.div (float_of_Z (frame_idx l)) fps) ed fp gd mm mf
                    nf objs (self w)) as (Bw & Bi & _).
        rewrite Forall_forall in Bw, Bi.
        apply Forall_app. split.
        -- eapply Forall_impl; [exact Hinv|]. simpl.
           intros e ([Hty Hpath] & Hr & (p & f' & [Hp Hf] & Hfile)).
           split; [done|]. split; [lia|].
           exists p, f'. split; [done|].
           rewrite write_evidence_other; [done|].
           apply Forall_forall. intros e' He' Heq.
           destruct (Bw e' He') as [Hty' Hpath'].
           rewrite Hpath' in Heq. rewrite Hpath in Hp.
           simplify_eq. apply evidence_path_inj in Hp as [_ Hi]; [|done..].
           rewrite (Bi e' He') in Hi. lia.
        -- apply Forall_forall. intros e He.
           destruct (Bw e He) as [Hty Hpath]. pose proof (Bi e He) as Hi.
           split; [done|]. split; [lia|].
           exists (evidence_path ed (a_type e) (a_frame_index e)), fr'.
           split.
           ++ split; [done|]. exists fr. split; [|done].
              rewrite Hi, Hidx, Nat2Z.id, Hall. by apply list_lookup_middle.
           ++ rewrite (write_evidence_at env fr' _ e _ _ He Hpath).
              rewrite (is_dir_dirs d0 (disk w)), (parent_ok_dirs d0 (disk w)) by done.
              rewrite evidence_parent_ok by done. rewrite andb_true_r.
              destruct (_ && _); [done|].
              apply Hnew; [done|lia].
    + intros ty i Hty Hi. destruct Hb as [(_ & -> & ->)|[_ Hp]].
      * apply Hnew; [done|]. simpl in Hi. lia.
      * destruct Hp as (fr' & fp & gd & mm & objs & nf & mf & Hp).
        cbv zeta in Hp. destruct Hp as (_ & _ & _ & _ & _ & _ & -> & ->).
        simpl in *.
        destruct (frame_alerts_block sid (frame_idx l)
                    (PrimFloat.div (float_of_Z (frame_idx l)) fps) ed fp gd mm mf
                    nf objs (self w)) as (Bw & Bi & _).
        rewrite Forall_forall in Bw, Bi.
        rewrite write_evidence_other; [apply Hnew; [done|lia]|].
        apply Forall_forall. intros e' He' Heq.
        destruct (Bw e' He') as [Hty' Hpath'].
        rewrite Hpath' in Heq. injection Heq as Heq.
        apply evidence_path_inj in Heq as [_ Heq]; [|done..].
        rewrite (Bi e' He') in Heq. lia.
Qed.

(** The evidence of the alerts of a session that completed. *)
Lemma analyze_video_evidence env perf vp ap sid w summary w' cap :
  VideoCapture env vp = Some cap ->
  analyze_video env perf vp ap sid w = (inr summary, w') ->
  Forall (evidence_state env perf (cap_frames cap) (disk w) (disk w'))
    (alerts summary).
Proof.
  intros Hcap H. apply analyze_video_completed in H.
  destruct H as (cap' & l & w1 & audio & Hcap' & Hloop & -> & Hd & _). simpl.
  rewrite Hcap in Hcap'. simplify_eq.
  set (ed := evidence_root (self w) // effective_session_id env vp sid) in *.
  apply (loop_evidence_state _ _ _ _ _ (cap_frames cap') (mkdir_p ed (disk w))
           (cap_frames cap') []) in Hloop; try done.
  - eapply Forall_impl; [exact Hloop|]. simpl.
    intros e ([Hty Hpath] & _ & (p & f' & [Hp Hf] & Hfile)).
    exists p, f'. split; [done|].
    rewrite Hpath in Hp. injection Hp as <-.
    rewrite Hd. simpl. rewrite lookup_insert_ne.
    + rewrite Hfile. unfold is_dir.
      rewrite (bool_decide_ext _ _ (evidence_path_new ed (a_type e)
                                      (a_frame_index e) (disk w))).
      done.
    + intros Heq.
      apply (jpg_not_json (evidence_path ed (a_type e) (a_frame_index e))).
      * unfold evidence_path. apply evidence_file_jpg.
      * rewrite <- Heq. apply record_path_json.
  - unfold mkdir_p, add_dirs. simpl. apply elem_of_union_l, elem_of_list_to_set.
    apply elem_of_app. right. by left.
  - apply Forall_forall. intros q Hq. unfold mkdir_p, add_dirs. simpl.
    apply elem_of_union_l, elem_of_list_to_set, elem_of_app. by left.
Qed.

(** The evidence paths of a completed session end in ".jpg". *)
Lemma alerts_have_paths env perf vp ap sid w summary w' :
  analyze_video env perf vp ap sid w = (inr summary, w') ->
  Forall (fun e => exists p, a_image_path e = Some p /\ ends_with ".jpg" p)
    (alerts summary).
Proof.
  intros H. apply analyze_video_completed in H.
  destruct H as (cap & l & w1 & audio & _ & Hloop & -> & _). simpl.
  apply loop_alerts_inv in Hloop; [|simpl; split_and!; constructor].
  destruct Hloop as (Hw & _). eapply Forall_impl; [exact Hw|]. simpl.
  intros e [_ Hp]. eexists. split; [exact Hp|].
  unfold evidence_path. apply evidence_file_jpg.
Qed.



(** X18: the evidence file of an alert shows the frame the alert was raised
    on.  When [analyze_video] returns, [cv2.imwrite] having reported success
    each time and no directory standing where an image goes, the file at each
    alert's evidence path holds the frame of the video at the alert's frame
    index, in the form the detectors were given (resized when wider than
    [RESIZE_WIDTH]); no later frame has overwritten it. *)
Theorem evidence_shows_its_frame env perf vp ap sid w summary w' cap :
  VideoCapture env vp = Some cap ->
  analyze_video env perf vp ap sid w = (inr summary, w') ->
  (forall p frame, cv2_imwrite env p frame = true) ->
  (forall q, q ∈ dirs (disk w) -> ~ ends_with ".jpg" q) ->
  Forall (shows_frame env perf (cap_frames cap) (disk w')) (alerts summary).
Proof.
  intros Hcap H Hok Hdirs.
  pose proof (alerts_have_paths _ _ _ _ _ _ _ _ H) as Hjpg.
  pose proof (analyze_video_evidence _ _ _ _ _ _ _ _ _ Hcap H) as HE.
  apply Forall_forall. intros e He.
  rewrite Forall_forall in Hjpg, HE.
  destruct (HE e He) as (p & f' & [Hp Hf] & Hfile).
  destruct (Hjpg e He) as (p' & Hp' & Hj). rewrite Hp in Hp'. injection Hp' as <-.
  exists p, f'. split; [done|]. rewrite Hfile, Hok.
  unfold is_dir. rewrite bool_decide_eq_false_2; [done|].
  intros Hin. by apply (Hdirs p).
Qed.

Lemma evidence_shows_its_frame_witness :
  alert_keys chair_run
  = inr [("FACE_MISSING"%string, 0); ("FACE_MISSING"%string, 5);
         ("FACE_MISSING"%string, 10)]
  /\ Forall (shows_frame cut_env perf_default chair_frames (disk chair_run.2))
       (alerts (summary_of chair_run))
  /\ files (disk chair_run.2) !! "logs/evidence/s7/face_missing_0.jpg"%string
     = Some (Image (mkFrame 360 480 1))
  /\ files (disk chair_run.2) !! "logs/evidence/s7/face_missing_5.jpg"%string
     = Some (Image (mkFrame 270 480 1)).
Proof.
  assert (VideoCapture cut_env "chair.mp4" = Some (mkVideo 30%float chair_frames))
    as Hcap by (vm_compute; reflexivity).
  assert (analyze_video cut_env perf_default "chair.mp4" None (Some "s7"%string)
            demo_world = (inr (summary_of chair_run), chair_run.2)) as H
    by (vm_compute; reflexivity).
  assert (forall p frame, cv2_imwrite cut_env p frame = true) as Hok by done.
  assert (forall q, q ∈ dirs (disk demo_world) -> ~ ends_with ".jpg" q) as Hdirs.
  { intros q Hq Hj.
    assert (q = "logs/evidence"%string \/ q = "logs"%string) as [-> | ->].
    { change (dirs (disk demo_world))
        with (list_to_set ["logs/evidence"%string]
              ∪ (list_to_set ([] ++ ["logs"%string]) ∪ (∅ : gset string))) in Hq.
      rewrite !elem_of_union, !elem_of_list_to_set, elem_of_empty in Hq.
      simpl in Hq. rewrite !list_elem_of_singleton in Hq. tauto. }
    - apply (ends_with_last _ _ _ _ eq_refl) in Hj. discriminate Hj.
    - apply (ends_with_last _ _ _ _ eq_refl) in Hj. discriminate Hj. }
  pose proof (evidence_shows_its_frame _ _ _ _ _ _ _ _ _ Hcap H Hok Hdirs) as HF.
  split; [vm_compute; reflexivity|]. split; [exact HF|].
  split.
  - assert (exists e, alerts (summary_of chair_run) !! 0%nat = Some e
                      /\ a_image_path e
                         = Some "logs/evidence/s7/face_missing_0.jpg"%string
                      /\ a_frame_index e = 0)
      as (e & He & Hpath & Hidx) by (eexists; split_and!; vm_compute; reflexivity).
    destruct (Forall_lookup_1 _ _ _ _ HF He) as (p & f' & [Hp [fr [Hfr Hs]]] & Hfile).
    rewrite Hpath in Hp. injection Hp as <-. rewrite Hfile.
    rewrite Hidx in Hfr. vm_compute in Hfr. injection Hfr as <-.
    vm_compute in Hs. by injection Hs as <-.
  - assert (exists e, alerts (summary_of chair_run) !! 1%nat = Some e
                      /\ a_image_path e
                         = Some "logs/evidence/s7/face_missing_5.jpg"%string
                      /\ a_frame_index e = 5)
      as (e & He & Hpath & Hidx) by (eexists; split_and!; vm_compute; reflexivity).
    destruct (Forall_lookup_1 _ _ _ _ HF He) as (p & f' & [Hp [fr [Hfr Hs]]] & Hfile).
    rewrite Hpath in Hp. injection Hp as <-. rewrite Hfile.
    rewrite Hidx in Hfr. vm_compute in Hfr. injection Hfr as <-.
    vm_compute in Hs. by injection Hs as <-.
Defined.

(** ** Disabled detectors *)

Lemma fires_false thr c : 0 < thr -> fires thr c false = false.
Proof. intros H. unfold fires, tick. by apply Z.leb_gt. Qed.

Lemma loop_disabled env perf sid ed fps frames l w l' w' :
  for_each (loop_body env perf sid ed fps) frames l w = (inr l', w') ->
  (multi_face_detector (self w) = None -> last_multi l = false) ->
  alerts_so_far l = [] ->
  (face_detector (self w) = None ->
   alerts_of_type "FACE_MISSING" (alerts_so_far l') = [])
  /\ (eye_tracker (self w) = None ->
      alerts_of_type "GAZE_AWAY" (alerts_so_far l') = [])
  /\ (mouth_monitor (self w) = None ->
      alerts_of_type "MOUTH_MOVEMENT" (alerts_so_far l') = [])
  /\ (multi_face_detector (self w) = None ->
      alerts_of_type "MULTI_FACE" (alerts_so_far l') = [])
  /\ (object_detector (self w) = None ->
      alerts_of_type "OBJECT_DETECTED" (alerts_so_far l') = []).
Proof.
  intros H Hm0 Ha0.
  pose (P := fun (l1 : Locals) (w1 : World) =>
    face_detector (self w1) = face_detector (self w)
    /\ eye_tracker (self w1) = eye_tracker (self w)
    /\ mouth_monitor (self w1) = mouth_monitor (self w)
    /\ multi_face_detector (self w1) = multi_face_detector (self w)
    /\ object_detector (self w1) = object_detector (self w)
    /\ (face_detector (self w) = None ->
        alerts_of_type "FACE_MISSING" (alerts_so_far l1) = [])
    /\ (eye_tracker (self w) = None ->
        alerts_of_type "GAZE_AWAY" (alerts_so_far l1) = [])
    /\ (mouth_monitor (self w) = None ->
        alerts_of_type "MOUTH_MOVEMENT" (alerts_so_far l1) = [])
    /\ (multi_face_detector (self w) = None ->
        last_multi l1 = false
        /\ alerts_of_type "MULTI_FACE" (alerts_so_far l1) = [])
    /\ (object_detector (self w) = None ->
        alerts_of_type "OBJECT_DETECTED" (alerts_so_far l1) = [])).
  assert (P l' w') as (_ & _ & _ & _ & _ & F1 & F2 & F3 & F4 & F5).
  { apply (loop_invariant_locals P env perf sid ed fps) with frames l w; try done.
    - intros fr l0 w0 l0' w0' _ _
        (D1 & D2 & D3 & D4 & D5 & F1 & F2 & F3 & F4 & F5)
        (fr' & fp & gd & mm & objs & nf & mf & Hp).
      cbv zeta in Hp.
      destruct Hp as (_ & Vfp & Vgd & Vmm & Vobj & Vmf & -> & ->).
      rewrite D1 in Vfp. rewrite D2 in Vgd. rewrite D3 in Vmm.
      rewrite D5 in Vobj. rewrite D4 in Vmf.
      unfold P. simpl. split_and!; try done.
      + intros Hn. rewrite Hn in Vfp. simpl in Vfp. subst fp.
        by rewrite alerts_of_type_app, F1, face_missing_alerts.
      + intros Hn. rewrite Hn in Vgd. simpl in Vgd. subst gd.
        rewrite alerts_of_type_app, F2, gaze_alerts by done.
        change (ne_str (VStr "center") "center") with false.
        by rewrite fires_false.
      + intros Hn. rewrite Hn in Vmm. simpl in Vmm. subst mm.
        rewrite alerts_of_type_app, F3, mouth_alerts by done.
        change (truthy (VBool false)) with false. by rewrite fires_false.
      + intros Hn. rewrite Hn in Vmf. simpl in Vmf. destruct Vmf as [-> ->].
        destruct (F4 Hn) as [Hlm Hal]. split; [done|].
        rewrite alerts_of_type_app, Hal, multi_face_alerts, Hlm.
        by rewrite fires_false.
      + intros Hn. rewrite Hn in Vobj. simpl in Vobj. subst objs.
        by rewrite alerts_of_type_app, F5, object_alerts.
    - unfold P. rewrite Ha0. split_and!; try done.
      intros Hn. split; [by apply Hm0|done]. }
  split_and!; try done. intros Hn. by apply F4.
Qed.

(** X7: a detector that is disabled gives no alert of its type.  In a
    session that completed, there is no FACE_MISSING alert when the face
    detector is disabled, no GAZE_AWAY alert when the eye tracker is, no
    MOUTH_MOVEMENT alert when the mouth monitor is, no MULTI_FACE alert when
    the multi-face detector is and no OBJECT_DETECTED alert when the object
    detector is, whatever the debounce counters held at the start. *)
Theorem disabled_detector_raises_no_alert env perf vp ap sid w summary w' :
  analyze_video env perf vp ap sid w = (inr summary, w') ->
  (face_detector (self w) = None ->
   alerts_of_type "FACE_MISSING" (alerts summary) = [])
  /\ (eye_tracker (self w) = None ->
      alerts_of_type "GAZE_AWAY" (alerts summary) = [])
  /\ (mouth_monitor (self w) = None ->
      alerts_of_type "MOUTH_MOVEMENT" (alerts summary) = [])
  /\ (multi_face_detector (self w) = None ->
      alerts_of_type "MULTI_FACE" (alerts summary) = [])
  /\ (object_detector (self w) = None ->
      alerts_of_type "OBJECT_DETECTED" (alerts summary) = []).
Proof.
  intros H. apply analyze_video_completed in H.
  destruct H as (cap & l & w1 & audio & _ & Hloop & -> & _). simpl.
  by apply loop_disabled in Hloop.
Qed.

Lemma disabled_detector_raises_no_alert_witness :
  analyze_video idle_env perf_default "desk.mp4" None (Some "s1"%string) idle_world
  = (inr (summary_of idle_run), idle_run.2)
  /\ face_detector (self idle_world) = None
  /\ object_detector (self idle_world) = None
  /\ alerts_of_type "FACE_MISSING" (alerts (summary_of idle_run)) = []
  /\ alerts_of_type "OBJECT_DETECTED" (alerts (summary_of idle_run)) = [].
Proof.
  assert (analyze_video idle_env perf_default "desk.mp4" None (Some "s1"%string)
            idle_world = (inr (summary_of idle_run), idle_run.2)) as H
    by (vm_compute; reflexivity).
  assert (face_detector (self idle_world) = None) as Hf by reflexivity.
  assert (object_detector (self idle_world) = None) as Ho by reflexivity.
  split_and!; [exact H|exact Hf|exact Ho| |].
  - exact (proj1 (disabled_detector_raises_no_alert _ _ _ _ _ _ _ _ H) Hf).
  - exact (proj2 (proj2 (proj2 (proj2
             (disabled_detector_raises_no_alert _ _ _ _ _ _ _ _ H)))) Ho).
Defined.

Lemma no_alert_of_any_type (al : list AlertEvent) :
  Forall (fun e => a_type e ∈ alert_types) al ->
  (forall ty, ty ∈ alert_types -> alerts_of_type ty al = []) ->
  al = [].
Proof.
  intros Hty Hnone. destruct al as [|e al]; [done|].
  apply Forall_cons in Hty as [He _].
  specialize (Hnone _ He). unfold alerts_of_type in Hnone.
  rewrite filter_cons_True in Hnone by done. discriminate.
Qed.

Lemma verdict_no_alerts score :
  verdict_of (Counter []) score 0
  = if PrimFloat.ltb score 0.7%float then "SUSPICIOUS"%string else "CLEAN"%string.
Proof. unfold verdict_of. simpl. by destruct (PrimFloat.ltb score 0.7). Qed.

(** X8: with every detector disabled, a session that completes has no
    alert at all, whatever the video shows and whatever the counters held,
    and the verdict in its record is CLEAN, unless the overall score is
    below 0.7, which makes it SUSPICIOUS; it is never CHEATING. *)
Theorem no_detectors_no_alerts env perf vp ap sid w summary w' :
  no_detectors (self w) ->
  analyze_video env perf vp ap sid w = (inr summary, w') ->
  alerts summary = []
  /\ exists log,
       files (disk w') !! record_path (self w) (session_id summary) = Some (Json log)
       /\ log_verdict log
          = if PrimFloat.ltb (log_overall_score log) 0.7%float
            then "SUSPICIOUS"%string else "CLEAN"%string.
Proof.
  intros (N1 & N2 & N3 & N4 & N5) H. apply analyze_video_completed in H.
  destruct H as (cap & l & w1 & audio & _ & Hloop & -> & Hd & _). simpl.
  pose proof (loop_logs_dir _ _ _ _ _ _ _ _ _ _ Hloop) as Hld. simpl in Hld.
  pose proof Hloop as Hloop2.
  apply loop_disabled in Hloop as (F1 & F2 & F3 & F4 & F5); [|done|done].
  apply loop_alert_fields in Hloop2 as (_ & Ha & _); [|done|done|done].
  assert (alerts_so_far l = []) as Hnil.
  { apply no_alert_of_any_type.
    - eapply Forall_impl; [exact Ha|]. by intros e (_ & Hty & _).
    - intros ty Hty. unfold alert_types in Hty.
      rewrite !elem_of_cons, elem_of_nil in Hty.
      destruct Hty as [->|[->|[->|[->|[->|[]]]]]]; auto. }
  split; [done|].
  eexists. split.
  - rewrite Hd. unfold record_path. rewrite Hld. apply lookup_insert_eq.
  - unfold session_log, summary_after. simpl. rewrite Hnil. simpl.
    apply verdict_no_alerts.
Qed.

Lemma no_detectors_no_alerts_witness :
  no_detectors (self idle_world)
  /\ analyze_video idle_env perf_default "desk.mp4" None (Some "s1"%string) idle_world
     = (inr (summary_of idle_run), idle_run.2)
  /\ alerts (summary_of idle_run) = []
  /\ exists log,
       files (disk idle_run.2) !! "logs/s1.json"%string = Some (Json log)
       /\ log_verdict log = "CLEAN"%string.
Proof.
  assert (no_detectors (self idle_world)) as Hn by (by repeat split).
  assert (analyze_video idle_env perf_default "desk.mp4" None (Some "s1"%string)
            idle_world = (inr (summary_of idle_run), idle_run.2)) as H
    by (vm_compute; reflexivity).
  split; [exact Hn|]. split; [exact H|].
  destruct (no_detectors_no_alerts _ _ _ _ _ _ _ _ Hn H) as (Hal & log & Hf & Hv).
  split; [exact Hal|]. exists log. split; [exact Hf|].
  rewrite Hv. vm_compute in Hf. injection Hf as <-. vm_compute. reflexivity.
Defined.

(** ** How many alerts a session can have *)

Lemma fire_cost thr c sig :
  0 < thr -> 0 <= c ->
  thr * Z.of_nat (length (if fires thr c sig then [tt] else []))
  + settle thr c sig <= c + 1.
Proof.
  intros Ht Hc. unfold settle, fires, tick.
  destruct sig; destruct (Z.leb_spec thr (c + 1)); destruct (Z.leb_spec thr 0);
    simpl; lia.
Qed.

Lemma sustained_step sid i t ed fp gd mm mf nf objs a (k : Sustained) :
  0 <= counter k a ->
  threshold k
  * Z.of_nat (length (alerts_of_type (alert_type k)
                        (frame_alerts sid i t ed fp gd mm mf nf objs a)))
  + counter k (frame_self gd mm mf a) <= counter k a + 1
  /\ 0 <= counter k (frame_self gd mm mf a).
Proof.
  intros Hc.
  destruct k; simpl in *;
    [rewrite gaze_alerts | rewrite mouth_alerts | rewrite multi_face_alerts].
  - pose proof (fire_cost 3 (_gaze_away_frames a) (ne_str gd "center")
                  ltac:(lia) Hc) as Hf.
    pose proof (settle_range 3 (_gaze_away_frames a) (ne_str gd "center")
                  ltac:(lia) Hc).
    destruct (fires 3 _ _); simpl in *; lia.
  - pose proof (fire_cost 3 (_mouth_moving_frames a) (truthy mm) ltac:(lia) Hc) as Hf.
    pose proof (settle_range 3 (_mouth_moving_frames a) (truthy mm) ltac:(lia) Hc).
    destruct (fires 3 _ _); simpl in *; lia.
  - pose proof (fire_cost 5 (_multi_face_frames a) mf ltac:(lia) Hc) as Hf.
    pose proof (settle_range 5 (_multi_face_frames a) mf ltac:(lia) Hc).
    destruct (fires 5 _ _); simpl in *; lia.
Qed.

Lemma loop_alert_budget env perf sid ed fps (k : Sustained) c0 frames l w l' w' :
  for_each (loop_body env perf sid ed fps) frames l w = (inr l', w') ->
  0 <= counter k (self w) ->
  threshold k * Z.of_nat (length (alerts_of_type (alert_type k) (alerts_so_far l)))
  + counter k (self w) <= c0 + processed_idx l ->
  Z.of_nat (length (alerts_of_type "FACE_MISSING" (alerts_so_far l)))
  <= processed_idx l ->
  threshold k * Z.of_nat (length (alerts_of_type (alert_type k) (alerts_so_far l')))
  <= c0 + processed_idx l'
  /\ Z.of_nat (length (alerts_of_type "FACE_MISSING" (alerts_so_far l')))
     <= processed_idx l'.
Proof.
  intros H Hc Hb Hf.
  pose (P := fun (l1 : Locals) (w1 : World) =>
    0 <= counter k (self w1)
    /\ threshold k
       * Z.of_nat (length (alerts_of_type (alert_type k) (alerts_so_far l1)))
       + counter k (self w1) <= c0 + processed_idx l1
    /\ Z.of_nat (length (alerts_of_type "FACE_MISSING" (alerts_so_far l1)))
       <= processed_idx l1).
  assert (P l' w') as (Hc' & Hb' & Hf').
  { apply (loop_invariant_locals P env perf sid ed fps) with frames l w; try done.
    intros fr l0 w0 l0' w0' _ _ (C & B & F)
      (fr' & fp & gd & mm & objs & nf & mf & Hp).
    cbv zeta in Hp. destruct Hp as (_ & _ & _ & _ & _ & _ & -> & ->).
    unfold P. simpl. rewrite !alerts_of_type_app, !length_app.
    destruct (sustained_step sid (frame_idx l0)
                (PrimFloat.div (float_of_Z (frame_idx l0)) fps) ed fp gd mm mf nf
                objs (self w0) k C) as [S1 S2].
    rewrite face_missing_alerts.
    split_and!; [done|lia|]. destruct (truthy fp); simpl; lia. }
  split; lia.
Qed.

(** X9: a session cannot have more sustained alerts than its frames allow.
    For gaze away, mouth movement (threshold 3) and multiple faces
    (threshold 5): when the stride [S] is positive and the counter is not
    negative at the start, threshold times the number of alerts of that type
    in a completed session is at most the counter at the start plus the
    number of processed frames, [ceil (num_frames / S)]; and there is at most
    one FACE_MISSING alert per processed frame. *)
Theorem sustained_alert_budget env perf vp ap sid w summary w' (k : Sustained) :
  0 < FRAME_STRIDE perf ->
  0 <= counter k (self w) ->
  analyze_video env perf vp ap sid w = (inr summary, w') ->
  threshold k * Z.of_nat (length (alerts_of_type (alert_type k) (alerts summary)))
  <= counter k (self w) + ceil_div (num_frames summary) (FRAME_STRIDE perf)
  /\ Z.of_nat (length (alerts_of_type "FACE_MISSING" (alerts summary)))
     <= ceil_div (num_frames summary) (FRAME_STRIDE perf).
Proof.
  intros HS Hc H. apply analyze_video_completed in H.
  destruct H as (cap & l & w1 & audio & _ & Hloop & -> & _). simpl.
  pose proof (loop_sampling _ _ _ _ _ _ _ _ _ _ HS Hloop) as (Hf & _ & Hp).
  simpl in Hf, Hp. rewrite multiples_below in Hp by done.
  rewrite length_fmap, length_seqZ in Hp.
  pose proof (ceil_div_spec (Z.of_nat (length (cap_frames cap))) (FRAME_STRIDE perf) HS).
  assert (processed_idx l = ceil_div (frame_idx l) (FRAME_STRIDE perf)) as Hpi.
  { rewrite Hp, Hf. rewrite Z2Nat.id; [done|nia]. }
  rewrite <- Hpi.
  eapply (loop_alert_budget _ _ _ _ _ k (counter k (self w))) in Hloop; simpl; try done.
  simpl. lia.
Qed.

Lemma sustained_alert_budget_witness :
  0 < FRAME_STRIDE perf_default
  /\ 0 <= counter GazeAway (self demo_world)
  /\ analyze_video demo_env perf_default "gaze3.mp4" None (Some "s3"%string) demo_world
     = (inr (summary_of gaze_run), gaze_run.2)
  /\ 3 * Z.of_nat (length (alerts_of_type "GAZE_AWAY" (alerts (summary_of gaze_run))))
     <= 0 + ceil_div 11 5.
Proof.
  assert (0 < FRAME_STRIDE perf_default) as HS by reflexivity.
  assert (0 <= counter GazeAway (self demo_world)) as Hc by discriminate.
  assert (analyze_video demo_env perf_default "gaze3.mp4" None (Some "s3"%string)
            demo_world = (inr (summary_of gaze_run), gaze_run.2)) as H
    by (vm_compute; reflexivity).
  split_and!; [exact HS|exact Hc|exact H|].
  exact (proj1 (sustained_alert_budget _ _ _ _ _ _ _ _ GazeAway HS Hc H)).
Defined.

(** ** The summary and the record *)

Lemma loop_frame_count env perf sid ed fps frames : forall l w l' w',
  for_each (loop_body env perf sid ed fps) frames l w = (inr l', w') ->
  frame_idx l' = frame_idx l + Z.of_nat (length frames).
Proof.
  induction frames as [|fr frames IH]; intros l w l' w' H.
  - simpl in H. simplify_eq. simpl. lia.
  - apply for_each_cons_inr in H as (l1 & w1 & Hb & H).
    apply IH in H. rewrite H.
    apply loop_body_processed in Hb as [_ [(_ & -> & _)|[_ Hp]]].
    + simpl. lia.
    + destruct Hp as (fr' & fp & gd & mm & objs & nf & mf & Hp).
      cbv zeta in Hp. destruct Hp as (_ & _ & _ & _ & _ & _ & -> & _).
      simpl. lia.
Qed.

(** X10: the summary of a session that completed.  Its identifier is the
    one supplied, or the video's stem and the time when none or an empty one
    was supplied; [num_frames] is the number of frames the capture yielded,
    kept or dropped by the stride; [fps] is the rate the capture reports,
    or 30.0 when it reports zero, and so never zero; the duration is
    [num_frames / fps]. *)
Theorem summary_counts_all_frames env perf vp ap sid w cap summary w' :
  VideoCapture env vp = Some cap ->
  analyze_video env perf vp ap sid w = (inr summary, w') ->
  session_id summary
  = match sid with
    | Some s => if String.eqb s "" then _generate_session_id env vp else s
    | None => _generate_session_id env vp
    end
  /\ num_frames summary = Z.of_nat (length (cap_frames cap))
  /\ fps summary
     = (if PrimFloat.eqb (cap_fps cap) 0%float then 30%float else cap_fps cap)
  /\ PrimFloat.eqb (fps summary) 0%float = false
  /\ duration_seconds summary
     = PrimFloat.div (float_of_Z (num_frames summary)) (fps summary).
Proof.
  intros Hcap H. apply analyze_video_completed in H.
  destruct H as (cap' & l & w1 & audio & Hcap' & Hloop & -> & _).
  rewrite Hcap in Hcap'. injection Hcap' as <-. simpl.
  apply loop_frame_count in Hloop. simpl in Hloop.
  split_and!; try done.
  - unfold effective_session_id, str_truthy. destruct sid as [s|]; [|done].
    by destruct (String.eqb s "").
  - apply float_or_nonzero.
Qed.

Lemma summary_counts_all_frames_witness :
  VideoCapture demo_env "desk.mp4" = Some (mkVideo 0%float [shot 4])
  /\ analyze_video demo_env perf_default "desk.mp4" None (Some "s1"%string) demo_world
     = (inr (summary_of desk_run), desk_run.2)
  /\ session_id (summary_of desk_run) = "s1"%string
  /\ num_frames (summary_of desk_run) = 1
  /\ fps (summary_of desk_run) = 30%float.
Proof.
  assert (VideoCapture demo_env "desk.mp4" = Some (mkVideo 0%float [shot 4])) as Hc
    by (vm_compute; reflexivity).
  assert (analyze_video demo_env perf_default "desk.mp4" None (Some "s1"%string)
            demo_world = (inr (summary_of desk_run), desk_run.2)) as H
    by (vm_compute; reflexivity).
  split; [exact Hc|]. split; [exact H|].
  destruct (summary_counts_all_frames _ _ _ _ _ _ _ _ _ Hc H) as (A & B & C & _).
  split_and!; [exact A|exact B|exact C].
Defined.

(** X11: the audio analysis.  In the record of a session that completed,
    the audio summary is absent when audio monitoring is disabled or no
    (or an empty) audio path was given, and the speaker analyzer is then not
    touched; otherwise the audio analyzer returned, the record holds its
    result and the analyzer's speaker analyzer was set.  Either way the audio
    score is the one computed from that summary. *)
Theorem audio_summary_recorded env perf vp ap sid w summary w' :
  analyze_video env perf vp ap sid w = (inr summary, w') ->
  exists log,
    files (disk w') !! record_path (self w) (session_id summary) = Some (Json log)
    /\ log_audio_score log = compute_audio_score env (log_audio log)
    /\ (audio_enabled (self w) && str_truthy ap = false ->
        log_audio log = None
        /\ speaker_analyzer (self w') = speaker_analyzer (self w))
    /\ (audio_enabled (self w) && str_truthy ap = true ->
        exists res,
          speaker_analyze env (logs_dir (self w)) (default ""%string ap) = inr res
          /\ log_audio log = Some res
          /\ speaker_analyzer (self w') = Some (logs_dir (self w))).
Proof.
  intros H. apply analyze_video_completed in H.
  destruct H as (cap & l & w1 & audio & _ & Hloop & -> & Hd & Haudio & _). simpl.
  pose proof (loop_invariant
                (fun w2 => audio_enabled (self w2) = audio_enabled (self w)
                           /\ logs_dir (self w2) = logs_dir (self w)
                           /\ speaker_analyzer (self w2) = speaker_analyzer (self w))
                env perf (effective_session_id env vp sid)
                (evidence_root (self w) // effective_session_id env vp sid)
                (float_or (cap_fps cap) 30%float)) as Hinv.
  specialize (Hinv ltac:(
    intros fr l0 w0 l0' w0' HP (fr' & fp & gd & mm & objs & nf & mf & Hp);
    cbv zeta in Hp; destruct Hp as (_ & _ & _ & _ & _ & _ & _ & ->); exact HP)
    (cap_frames cap) locals_init
    (mkWorld (self w)
       (mkdir_p (evidence_root (self w) // effective_session_id env vp sid)
          (disk w)))
    ltac:(done)).
  rewrite Hloop in Hinv. simpl in Hinv. destruct Hinv as (Ha & Hl & Hs).
  eexists. split.
  { rewrite Hd. unfold record_path. rewrite Hl. apply lookup_insert_eq. }
  split; [done|]. simpl. rewrite Ha, Hl in Haudio.
  split; intros Hcond; rewrite Hcond in Haudio.
  - destruct Haudio as [[? _]|(_ & -> & ->)]; [discriminate|]. done.
  - destruct Haudio as [(_ & res & Hres & -> & ->)|[? _]]; [|discriminate].
    exists res. done.
Qed.

Lemma audio_summary_recorded_witness :
  analyze_video demo_env perf_default "calm.mp4" (Some "exam.wav"%string)
    (Some "s5"%string) demo_world
  = (inr (summary_of audio_run), audio_run.2)
  /\ audio_enabled (self demo_world) && str_truthy (Some "exam.wav"%string) = true
  /\ exists log,
       files (disk audio_run.2) !! "logs/s5.json"%string = Some (Json log)
       /\ log_audio log = Some (VDict [])
       /\ speaker_analyzer (self audio_run.2) = Some "logs"%string.
Proof.
  assert (analyze_video demo_env perf_default "calm.mp4" (Some "exam.wav"%string)
            (Some "s5"%string) demo_world
          = (inr (summary_of audio_run), audio_run.2)) as H
    by (vm_compute; reflexivity).
  assert (audio_enabled (self demo_world) && str_truthy (Some "exam.wav"%string)
          = true) as Hc by reflexivity.
  split; [exact H|]. split; [exact Hc|].
  destruct (audio_summary_recorded _ _ _ _ _ _ _ _ H) as (log & Hf & _ & _ & Ht).
  destruct (Ht Hc) as (res & Hres & Hlog & Hspk).
  exists log. split; [exact Hf|]. split; [|exact Hspk].
  rewrite Hlog. f_equal. vm_compute in Hres. by injection Hres as <-.
Defined.

(** ** The wrapper [analyze_recording] *)

Lemma analyze_video_dirs env perf vp ap sid w :
  let ed := evidence_root (self w) // effective_session_id env vp sid in
  dirs (disk (analyze_video env perf vp ap sid w).2)
  = match blocked (disk w) ed with
    | Some _ => dirs (disk w)
    | None => dirs (mkdir_p ed (disk w))
    end.
Proof.
  intros ed.
  destruct (blocked (disk w) ed) as [e|] eqn:Hb.
  { by rewrite (analyze_video_blocked _ _ _ _ _ _ e). }
  destruct (VideoCapture env vp) as [cap|] eqn:Hcap.
  2:{ by rewrite analyze_video_unopenable. }
  rewrite (analyze_video_opened _ _ _ _ _ cap) by done. fold ed.
  rewrite run_session_eq.
  set (P := fun w1 : World => dirs (disk w1) = dirs (mkdir_p ed (disk w))).
  assert (forall fps fr l w1 l' w1',
            P w1 ->
            processed env perf (effective_session_id env vp sid) ed fps fr l w1 l' w1' ->
            P w1') as Hstep.
  { intros fps fr l w1 l' w1' HP (fr' & fp & gd & mm & objs & nf & mf & Hp).
    cbv zeta in Hp. destruct Hp as (_ & _ & _ & _ & _ & _ & _ & ->).
    unfold P in *. simpl. by rewrite write_evidence_dirs. }
  pose proof (loop_invariant P env perf (effective_session_id env vp sid) ed
                (float_or (cap_fps cap) 30%float)
                (Hstep _) (cap_frames cap) locals_init
                (mkWorld (self w) (mkdir_p ed (disk w))) eq_refl) as HL.
  destruct (for_each _ (cap_frames cap) locals_init _) as [[e|l] w1]; [exact HL|].
  simpl in HL. cbv zeta.
  assert (forall audio w2,
            P w2 ->
            P (finish env (summary_after (effective_session_id env vp sid) cap l)
                 audio w2).2) as Hfin.
  { intros audio w2 HP2.
    destruct (finish_cases env (summary_after (effective_session_id env vp sid) cap l)
                audio w2)
      as [[e ->]|[[_ ->]|(_ & _ & ->)]]; simpl; done. }
  destruct (audio_enabled (self w1) && str_truthy ap).
  - destruct (speaker_analyze env (logs_dir (self w1)) (default ""%string ap)) as [e|res].
    + simpl. exact HL.
    + apply Hfin. exact HL.
  - by apply Hfin.
Qed.

Lemma filter_nonempty_joined (p : string) (l : list string) :
  filter (fun s => s <> ""%string) (String.append (p ++ "/") <$> l)
  = String.append (p ++ "/") <$> l.
Proof.
  induction l as [|x l IH]; [done|].
  rewrite fmap_cons, filter_cons_True, IH; [done|].
  intros H. apply (f_equal String.length) in H.
  rewrite !string_length_app in H. simpl in H. lia.
Qed.

(** The ancestors of [p / c] are those of [p], then [p], then what [c]
    adds. *)
Lemma parents_join (p c : string) :
  parents (p // c)
  = parents p ++ (if decide (p = ""%string) then [] else [p])
    ++ (String.append (p ++ "/") <$> slices c).
Proof.
  unfold parents. rewrite slices_join, !filter_app, filter_nonempty_joined.
  do 2 f_equal. case_decide as Hp.
  - subst. rewrite filter_cons_False; [done|]. intros H. by apply H.
  - by rewrite filter_cons_True.
Qed.

Lemma existsb_app_false {A} (f : A -> bool) l1 l2 :
  existsb f l1 = false -> existsb f l2 = false -> existsb f (l1 ++ l2) = false.
Proof. intros H1 H2. by rewrite existsb_app, H1, H2. Qed.

(** The second [mkdir] of [__init__] (line 71) on the disk the first one
    left. *)
Lemma init_evidence_root ld d :
  blocked d ld = None ->
  files d !! (ld // "evidence") = None ->
  exists d2,
    fs_mkdir false (ld // "evidence") (mkdir_p ld d) = inr d2
    /\ files d2 = files d
    /\ dirs d2 = {[ ld // "evidence" ]} ∪ list_to_set (parents ld) ∪ {[ ld ]}
                 ∪ dirs d.
Proof.
  intros Hb Hf. unfold blocked in Hb.
  destruct (existsb (is_file d) (parents ld)) eqn:Hanc; [discriminate|].
  destruct (is_file d ld) eqn:Hld; [discriminate|]. clear Hb.
  assert (dirs (add_dirs [ld // "evidence"] (mkdir_p ld d))
          = {[ ld // "evidence" ]} ∪ list_to_set (parents ld) ∪ {[ ld ]} ∪ dirs d)
    as Hdirs.
  { unfold add_dirs, mkdir_p. simpl. apply set_eq. intros x.
    rewrite !elem_of_union, !elem_of_list_to_set, elem_of_app,
      !elem_of_singleton, list_elem_of_singleton, elem_of_empty. tauto. }
  unfold fs_mkdir, blocked.
  change (files (mkdir_p ld d)) with (files d).
  assert (is_file (mkdir_p ld d) = is_file d) as -> by done.
  rewrite parents_join. change (slices "evidence") with (@nil string).
  rewrite fmap_nil, app_nil_r.
  rewrite existsb_app_false; [|done|by case_decide; simpl; rewrite ?Hld].
  assert (is_file d (ld // "evidence") = false) as ->.
  { unfold is_file. apply bool_decide_eq_false. rewrite Hf. by intros [? ?]. }
  destruct (is_dir (mkdir_p ld d) (ld // "evidence")) eqn:Hd.
  - exists (mkdir_p ld d). split_and!; try done.
    rewrite <- Hdirs. rewrite add_dirs_present; [done|].
    unfold is_dir in Hd. by apply bool_decide_eq_true in Hd.
  - assert (parent_ok (mkdir_p ld d) (ld // "evidence") = true) as ->.
    { unfold parent_ok, parent. rewrite parents_join.
      change (slices "evidence") with (@nil string).
      rewrite fmap_nil, app_nil_r.
      case_decide as Hp.
      - rewrite app_nil_r. destruct (last (parents ld)) as [q|] eqn:Hl; [|done].
        unfold is_dir. apply bool_decide_eq_true.
        unfold mkdir_p, add_dirs. simpl.
        apply elem_of_union_l, elem_of_list_to_set, elem_of_app. left.
        rewrite last_Some in Hl. destruct Hl as [l' ->].
        apply elem_of_app. right. by left.
      - rewrite last_snoc. unfold is_dir. apply bool_decide_eq_true.
        unfold mkdir_p, add_dirs. simpl.
        apply elem_of_union_l, elem_of_list_to_set, elem_of_app. right. by left. }
    eexists. split_and!; [done|done|exact Hdirs].
Qed.

(** The attributes [__init__] sets: the paths are those derived from the
    logs directory. *)
Lemma attributes_paths env c ld er a :
  attributes env c ld er = inr a -> logs_dir a = ld /\ evidence_root a = er.
Proof.
  intros H. unfold attributes in H. inv_obind H. by injection H as <-.
Qed.

(** X12: the wrapper [analyze_recording].  When the configuration cannot be
    loaded it raises that error and leaves the disk as it is.  When it
    returns a summary, the directories on disk are those before plus the
    logs directory, the evidence directory of the session and the ancestors
    of that (the logs directory's ancestors and its [evidence] directory among
    them), and the record of the summary is in the logs directory under the
    session's identifier.  When the configuration was read but the
    attributes cannot be set from it (an entry is missing, or a detector
    class raises), that error is raised after the logs directory and its
    [evidence] directory were created: both are left behind. *)
Theorem analyze_recording_layout env perf vp ap sid cp ld d :
  let r := analyze_recording env perf vp ap sid cp ld d in
  match load_config env cp with
  | inl e => r = (inl e, d)
  | inr c =>
      (forall summary,
         r.1 = inr summary ->
         let ed := ld // "evidence" // session_id summary in
         dirs r.2 = {[ ed ]} ∪ list_to_set (parents ed) ∪ {[ ld ]} ∪ dirs d
         /\ exists log,
              files r.2 !! (ld // (session_id summary ++ ".json")%string)
              = Some (Json log)
              /\ log_session log = summary)
      /\ (forall e,
            attributes env c ld (ld // "evidence") = inl e ->
            blocked d ld = None ->
            files d !! (ld // "evidence") = None ->
            r.1 = inl e
            /\ dirs r.2 = {[ ld // "evidence" ]} ∪ list_to_set (parents ld)
                          ∪ {[ ld ]} ∪ dirs d
            /\ files r.2 = files d)
  end.
Proof.
  cbv zeta. unfold analyze_recording.
  destruct (load_config env cp) as [e|c] eqn:Hc.
  { unfold __init__. by rewrite Hc. }
  split.
  - intros summary Hs.
    destruct (__init__ env cp ld d) as [[e|a] d1] eqn:Hinit; [discriminate|].
    apply init_inr in Hinit as (c' & Hc' & Hb & -> & Hattr).
    rewrite Hc in Hc'. injection Hc' as <-.
    apply attributes_paths in Hattr as [Hld Her].
    cbn [fst snd] in *.
    match type of Hs with
    | (analyze_video env perf vp ap sid ?w0).1 = _ => set (w := w0) in *
    end.
    destruct (analyze_video env perf vp ap sid w) as [o w'] eqn:E.
    simpl in Hs. subst o. cbn [snd].
    pose proof (analyze_video_dirs env perf vp ap sid w) as Hdirs.
    rewrite E in Hdirs. cbv zeta in Hdirs. cbn [snd] in Hdirs.
    apply analyze_video_completed in E.
    destruct E as (cap & l & w1 & audio & _ & Hloop & -> & Hd & _ & Hblk & _).
    rewrite Hblk in Hdirs.
    pose proof (loop_logs_dir _ _ _ _ _ _ _ _ _ _ Hloop) as Hld1.
    simpl in Hld1. simpl. split.
    + rewrite Hdirs. subst w. cbn [self disk]. rewrite Her.
      set (ed := ld // "evidence" // effective_session_id env vp sid).
      assert (Forall (fun q => q ∈ parents ed) (parents ld)
              /\ (ld // "evidence") ∈ parents ed) as [Hanc Hev].
      { unfold ed. rewrite (parents_join (ld // "evidence")), (parents_join ld).
        split.
        - apply Forall_forall. intros q Hq. rewrite !elem_of_app. by do 2 left.
        - rewrite !elem_of_app. right. left. rewrite decide_False; [by left|].
          intros H. apply (f_equal String.length) in H.
          unfold path_join in H. rewrite !string_length_app in H. simpl in H. lia. }
      rewrite Forall_forall in Hanc.
      unfold mkdir_p, add_dirs. simpl. apply set_eq. intros x.
      rewrite !elem_of_union, !elem_of_list_to_set, !elem_of_app,
        !elem_of_singleton, !list_elem_of_singleton, elem_of_empty.
      split.
      * intros [[?|?]|[[?|[]]|[[?|?]|?]]]; subst; auto.
      * intros [[[?|?]|?]|?]; subst; auto.
    + eexists. split.
      * rewrite Hd. unfold record_path. rewrite Hld1. subst w. cbn [self].
        rewrite Hld. apply lookup_insert_eq.
      * reflexivity.
  - intros e Hattr Hb Hf.
    destruct (init_evidence_root ld d Hb Hf) as (d2 & Hmk & Hfiles & Hdirs).
    assert (__init__ env cp ld d = (inl e, d2)) as ->.
    { unfold __init__. rewrite Hc.
      assert (fs_mkdir true ld d = inr (mkdir_p ld d)) as ->
        by (unfold fs_mkdir; by rewrite Hb).
      by rewrite Hmk, Hattr. }
    done.
Qed.

Lemma analyze_recording_layout_witness :
  (exists summary,
     default_recording.1 = inr summary
     /\ session_id summary = "s1"%string
     /\ dirs default_recording.2
        = {[ "logs/sessions/evidence/s1"%string ]}
          ∪ list_to_set ["logs"; "logs/sessions"; "logs/sessions/evidence"]%string
          ∪ {[ "logs/sessions"%string ]} ∪ ∅
     /\ exists log,
          files default_recording.2 !! "logs/sessions/s1.json"%string
          = Some (Json log)
          /\ log_session log = summary)
  /\ (analyze_recording broken_env perf_default "desk.mp4" None (Some "s1"%string)
        "config/config.yaml" "logs/sessions" empty_disk).1
     = inl (KeyError "detection")
  /\ dirs (analyze_recording broken_env perf_default "desk.mp4" None
             (Some "s1"%string) "config/config.yaml" "logs/sessions" empty_disk).2
     = {[ "logs/sessions/evidence"%string ]} ∪ list_to_set ["logs"%string]
       ∪ {[ "logs/sessions"%string ]} ∪ ∅.
Proof.
  assert (exists summary,
            default_recording.1 = inr summary
            /\ session_id summary = "s1"%string) as (summary & H & Hsid).
  { eexists. split; vm_compute; reflexivity. }
  pose proof (analyze_recording_layout demo_env perf_default "desk.mp4" None
                (Some "s1"%string) "config/config.yaml" "logs/sessions" empty_disk)
    as HL.
  pose proof (analyze_recording_layout broken_env perf_default "desk.mp4" None
                (Some "s1"%string) "config/config.yaml" "logs/sessions" empty_disk)
    as HB.
  cbv zeta in HL, HB.
  change (load_config demo_env "config/config.yaml")
    with (@inr exn PyVal all_enabled) in HL.
  change (load_config broken_env "config/config.yaml")
    with (@inr exn PyVal
            (VDict [("audio_monitoring"%string,
                     VDict [("enabled"%string, VBool false)])])) in HB.
  destruct HL as [HL _]. destruct HB as [_ HB].
  destruct (HL _ H) as [Hd Hr]. rewrite Hsid in Hd, Hr.
  destruct (HB (KeyError "detection") eq_refl eq_refl eq_refl) as (He & Hbd & _).
  split; [|split; [exact He|exact Hbd]].
  exists summary. split; [exact H|]. split; [exact Hsid|].
  split; [exact Hd|exact Hr].
Defined.

(** ** Frames the stride drops are never looked at *)

Lemma loop_body_off_stride env perf sid ed fps fr1 fr2 l w :
  FRAME_STRIDE perf = 0 \/ frame_idx l mod FRAME_STRIDE perf <> 0 ->
  loop_body env perf sid ed fps fr1 l w = loop_body env perf sid ed fps fr2 l w.
Proof.
  intros H. unfold loop_body, py_mod.
  destruct (FRAME_STRIDE perf =? 0) eqn:E; [reflexivity|].
  apply Z.eqb_neq in E. destruct H as [H|H]; [done|].
  apply Z.eqb_neq in H. simpl. by rewrite H.
Qed.

Lemma for_each_same_sampled env perf sid ed fps : forall fs1 fs2 l w,
  length fs1 = length fs2 ->
  (forall i f1 f2,
     fs1 !! i = Some f1 -> fs2 !! i = Some f2 ->
     (frame_idx l + Z.of_nat i) mod FRAME_STRIDE perf = 0 -> f1 = f2) ->
  for_each (loop_body env perf sid ed fps) fs1 l w
  = for_each (loop_body env perf sid ed fps) fs2 l w.
Proof.
  induction fs1 as [|f1 fs1 IH]; intros [|f2 fs2] l w Hlen Hs; try done.
  cbn [for_each].
  assert (loop_body env perf sid ed fps f1 l w
          = loop_body env perf sid ed fps f2 l w) as Hhd.
  { destruct (decide (FRAME_STRIDE perf = 0)) as [H0|H0];
      [by apply loop_body_off_stride; left|].
    destruct (decide (frame_idx l mod FRAME_STRIDE perf = 0)) as [Hm|Hm];
      [|by apply loop_body_off_stride; right].
    rewrite (Hs 0%nat f1 f2); [done..|]. by rewrite Z.add_0_r. }
  unfold bind. rewrite Hhd.
  destruct (loop_body env perf sid ed fps f2 l w) as [[e|l1] w1] eqn:E; [done|].
  apply loop_body_frame_idx in E. apply IH.
  - simpl in Hlen. lia.
  - intros i g1 g2 H1 H2 Hm. apply (Hs (S i) g1 g2); [done..|].
    rewrite E in Hm. by replace (frame_idx l + Z.of_nat (S i))
      with (frame_idx l + 1 + Z.of_nat i) by lia.
Qed.

(** X14: frames the stride drops are never looked at.  Two videos with the
    same rate and the same number of frames that agree on every frame whose
    index is a multiple of [FRAME_STRIDE] are analysed alike (same result or
    exception, same state and disk afterwards) under the same session
    identifier, whatever their other frames hold; this includes a stride of
    0, for which both runs raise at the first frame. *)
Theorem dropped_frames_ignored env perf vp1 vp2 cap1 cap2 ap sid w :
  VideoCapture env vp1 = Some cap1 ->
  VideoCapture env vp2 = Some cap2 ->
  cap_fps cap1 = cap_fps cap2 ->
  same_sampled (FRAME_STRIDE perf) (cap_frames cap1) (cap_frames cap2) ->
  effective_session_id env vp1 sid = effective_session_id env vp2 sid ->
  analyze_video env perf vp1 ap sid w = analyze_video env perf vp2 ap sid w.
Proof.
  intros H1 H2 Hfps [Hlen Hs] Hsid.
  destruct (blocked (disk w)
              (evidence_root (self w) // effective_session_id env vp2 sid))
    as [e|] eqn:Hb.
  { rewrite !(analyze_video_blocked _ _ _ _ _ _ e); [done|done|by rewrite Hsid]. }
  rewrite (analyze_video_opened _ _ _ _ _ cap1), (analyze_video_opened _ _ _ _ _ cap2);
    [|done|done|done|by rewrite Hsid].
  rewrite Hsid, !run_session_eq, Hfps.
  rewrite (for_each_same_sampled _ _ _ _ _ (cap_frames cap1) (cap_frames cap2))
    by done.
  destruct (for_each _ (cap_frames cap2) locals_init _) as [[e|l] w1]; [done|].
  unfold summary_after. by rewrite Hfps.
Qed.

Lemma dropped_frames_ignored_witness :
  analyze_video cut_env perf_default "take1.mp4" None (Some "s6"%string) demo_world
  = analyze_video cut_env perf_default "take2.mp4" None (Some "s6"%string) demo_world.
Proof.
  apply (dropped_frames_ignored cut_env perf_default "take1.mp4" "take2.mp4"
           (mkVideo 30%float (replicate 6 (shot 2)))
           (mkVideo 30%float [shot 2; shot 7; shot 3; shot 5; shot 1; shot 2]));
    [reflexivity | reflexivity | reflexivity | | reflexivity].
  split; [reflexivity|].
  intros i f1 f2 Hf1 Hf2 Hm.
  do 6 (destruct i as [|i]; [simpl in *; first [congruence | discriminate Hm]|]).
  discriminate Hf1.
Defined.

(** ** The counts and the verdict of the record *)

Lemma type_counts_sum (al : list AlertEvent) :
  Forall (fun e => a_type e ∈ alert_types) al ->
  counter_get (type_counts al) "FACE_MISSING" 0
  + counter_get (type_counts al) "GAZE_AWAY" 0
  + counter_get (type_counts al) "MOUTH_MOVEMENT" 0
  + counter_get (type_counts al) "MULTI_FACE" 0
  + counter_get (type_counts al) "OBJECT_DETECTED" 0
  = Z.of_nat (length al).
Proof.
  unfold type_counts. rewrite !Counter_get.
  induction 1 as [|e al He _ IH]; [done|].
  rewrite fmap_cons. unfold alert_types in He.
  repeat (apply elem_of_cons in He as [He|He]);
    [..|by apply elem_of_nil in He];
    rewrite He, !filter_cons; repeat case_decide; try done;
    cbn [length]; lia.
Qed.

Lemma type_counts_other (al : list AlertEvent) k :
  Forall (fun e => a_type e ∈ alert_types) al ->
  k ∉ alert_types ->
  type_counts al !! k = None.
Proof.
  intros Hal Hk. unfold type_counts, Counter.
  assert (forall xs (m : gmap string Z),
            k ∉ xs -> m !! k = None ->
            fold_left (fun m k => <[ k := default 0 (m !! k) + 1 ]> m) xs m !! k
            = None) as Hfold.
  { induction xs as [|x xs IH]; intros m Hx Hm; [done|]. simpl.
    apply not_elem_of_cons in Hx as [Hx1 Hx2].
    apply IH; [done|]. by rewrite lookup_insert_ne. }
  apply Hfold; [|apply lookup_empty].
  intros Hin. apply list_elem_of_fmap in Hin as (e & -> & He).
  rewrite Forall_forall in Hal. by apply Hk, Hal.
Qed.

(** X15: in the record of a session that completed, the counts by type
    account for every alert: the counts of the five alert types add up to
    the number of alerts, and no other type has an entry. *)
Theorem type_counts_add_up env perf vp ap sid w summary w' :
  analyze_video env perf vp ap sid w = (inr summary, w') ->
  let counts := type_counts (alerts summary) in
  counter_get counts "FACE_MISSING" 0
  + counter_get counts "GAZE_AWAY" 0
  + counter_get counts "MOUTH_MOVEMENT" 0
  + counter_get counts "MULTI_FACE" 0
  + counter_get counts "OBJECT_DETECTED" 0
  = Z.of_nat (length (alerts summary))
  /\ forall k, k ∉ alert_types -> counts !! k = None.
Proof.
  intros H. apply analyze_video_completed in H.
  destruct H as (cap & l & w1 & audio & _ & Hloop & -> & _). simpl.
  apply loop_alert_fields in Hloop as (_ & Ha & _); [|done..].
  assert (Forall (fun e => a_type e ∈ alert_types) (alerts_so_far l)) as Hty.
  { eapply Forall_impl; [exact Ha|]. by intros e (_ & He & _). }
  split; [by apply type_counts_sum|].
  intros k Hk. by apply type_counts_other.
Qed.

Lemma type_counts_add_up_witness :
  let counts := type_counts (alerts (summary_of gaze_run)) in
  counter_get counts "FACE_MISSING" 0
  + counter_get counts "GAZE_AWAY" 0
  + counter_get counts "MOUTH_MOVEMENT" 0
  + counter_get counts "MULTI_FACE" 0
  + counter_get counts "OBJECT_DETECTED" 0
  = Z.of_nat (length (alerts (summary_of gaze_run)))
  /\ forall k, k ∉ alert_types -> counts !! k = None.
Proof.
  apply (type_counts_add_up demo_env perf_default "gaze3.mp4" None
           (Some "s3"%string) demo_world (summary_of gaze_run) gaze_run.2).
  vm_compute. reflexivity.
Defined.

(** X16: for a given overall score, the verdict of lines 267-271 never
    falls when alerts are added: with CLEAN below SUSPICIOUS below CHEATING,
    the verdict for a list of alerts is at most the verdict for that list
    with further alerts. *)
Theorem verdict_never_falls (al more : list AlertEvent) (score : float) :
  verdict_rank (verdict_of (type_counts al) score (Z.of_nat (length al)))
  <= verdict_rank
       (verdict_of (type_counts (al ++ more)) score
          (Z.of_nat (length (al ++ more)))).
Proof.
  unfold type_counts. rewrite !verdict_of_policy. unfold verdict_policy.
  destruct (PrimFloat.ltb score 0.7); simpl;
    repeat case_bool_decide; try (vm_compute; discriminate).
  all: try (exfalso; rewrite ?Exists_app, ?length_app in *; tauto || lia).
Qed.

(** ** A recording analysed by the wrapper starts afresh *)

Lemma construct_off class cfg det name od v :
  construct class cfg det name = inr od ->
  (let? section := getitem det name in getitem section "enabled") = inr v ->
  truthy v = false ->
  od = None.
Proof.
  unfold construct. intros H Hv Ht.
  destruct (getitem det name) as [e|section]; [discriminate|]. cbn [obind] in *.
  rewrite Hv in H. cbn [obind] in H. rewrite Ht in H. by injection H as <-.
Qed.

(** A detector the configuration switches off is not built. *)
Lemma attributes_off env c ld er a :
  attributes env c ld er = inr a ->
  (configured_off c "face" -> face_detector a = None)
  /\ (configured_off c "eyes" -> eye_tracker a = None)
  /\ (configured_off c "mouth" -> mouth_monitor a = None)
  /\ (configured_off c "multi_face" -> multi_face_detector a = None)
  /\ (configured_off c "objects" -> object_detector a = None).
Proof.
  unfold attributes, configured_off, flag. intros H.
  destruct (getitem c "detection") as [e|det]; [discriminate|]. cbn [obind] in *.
  destruct (construct (FaceDetector env) c det "face") as [e|o1] eqn:E1;
    [discriminate|]. cbn [obind] in H.
  destruct (construct (EyeTracker env) c det "eyes") as [e|o2] eqn:E2;
    [discriminate|]. cbn [obind] in H.
  destruct (construct (MouthMonitor env) c det "mouth") as [e|o3] eqn:E3;
    [discriminate|]. cbn [obind] in H.
  destruct (construct (MultiFaceDetector env) c det "multi_face") as [e|o4] eqn:E4;
    [discriminate|]. cbn [obind] in H.
  destruct (construct (ObjectDetector env) c det "objects") as [e|o5] eqn:E5;
    [discriminate|]. cbn [obind] in H.
  inv_obind H. injection H as <-. simpl.
  split_and!; intros (v & Hv & Ht); eapply construct_off; eauto.
Qed.

(** X17: [analyze_recording] builds its own analyzer, so nothing is carried
    into the session.  When it returns a summary (stride positive), threshold
    times the number of GAZE_AWAY, MOUTH_MOVEMENT or MULTI_FACE alerts is at
    most the number of processed frames, [ceil (num_frames / S)], with no
    allowance for counts left by an earlier session; and a detector the
    configuration switches off (its [enabled] entry is falsy) gives no alert
    of its type. *)
Theorem recording_starts_fresh env perf vp ap sid cp ld d c summary :
  0 < FRAME_STRIDE perf ->
  load_config env cp = inr c ->
  (analyze_recording env perf vp ap sid cp ld d).1 = inr summary ->
  (forall k : Sustained,
     threshold k * Z.of_nat (length (alerts_of_type (alert_type k) (alerts summary)))
     <= ceil_div (num_frames summary) (FRAME_STRIDE perf))
  /\ (configured_off c "face" ->
      alerts_of_type "FACE_MISSING" (alerts summary) = [])
  /\ (configured_off c "eyes" ->
      alerts_of_type "GAZE_AWAY" (alerts summary) = [])
  /\ (configured_off c "mouth" ->
      alerts_of_type "MOUTH_MOVEMENT" (alerts summary) = [])
  /\ (configured_off c "multi_face" ->
      alerts_of_type "MULTI_FACE" (alerts summary) = [])
  /\ (configured_off c "objects" ->
      alerts_of_type "OBJECT_DETECTED" (alerts summary) = []).
Proof.
  intros HS Hc. unfold analyze_recording.
  destruct (__init__ env cp ld d) as [[e|a] d1] eqn:Hinit; [discriminate|].
  pose proof (init_counters_zero _ _ _ _ _ _ Hinit) as (Z1 & Z2 & Z3).
  apply init_inr in Hinit as (c' & Hc' & _ & _ & Hattr).
  rewrite Hc in Hc'. injection Hc' as <-.
  apply attributes_off in Hattr as (O1 & O2 & O3 & O4 & O5).
  simpl. intros H.
  destruct (analyze_video env perf vp ap sid (mkWorld a d1)) as [o w'] eqn:E.
  simpl in H. subst o. apply analyze_video_completed in E.
  destruct E as (cap & l & w1 & audio & _ & Hloop & -> & _). simpl.
  split.
  - intros k.
    pose proof (loop_sampling _ _ _ _ _ _ _ _ _ _ HS Hloop) as (Hf & _ & Hp).
    simpl in Hf, Hp. rewrite multiples_below in Hp by done.
    rewrite length_fmap, length_seqZ in Hp.
    pose proof (ceil_div_spec (Z.of_nat (length (cap_frames cap)))
                  (FRAME_STRIDE perf) HS).
    assert (processed_idx l = ceil_div (frame_idx l) (FRAME_STRIDE perf)) as Hpi.
    { rewrite Hp, Hf. rewrite Z2Nat.id; [done|nia]. }
    rewrite <- Hpi.
    eapply (loop_alert_budget _ _ _ _ _ k 0) in Hloop; simpl.
    + destruct Hloop as [Hb _]. simpl in Hb. lia.
    + destruct k; simpl; lia.
    + destruct k; simpl; lia.
    + lia.
  - apply loop_disabled in Hloop; [|done..]. simpl in Hloop.
    destruct Hloop as (Hf & Hg & Hm & Hmf & Ho).
    split_and!; intros Hoff; [apply Hf|apply Hg|apply Hm|apply Hmf|apply Ho]; auto.
Qed.

Lemma recording_starts_fresh_witness :
  3 * Z.of_nat (length (alerts_of_type "GAZE_AWAY" (alerts (summary_of gaze_run))))
  <= ceil_div (num_frames (summary_of gaze_run)) 5
  /\ configured_off all_disabled "objects"
  /\ alerts_of_type "OBJECT_DETECTED" (alerts (summary_of idle_run)) = [].
Proof.
  assert (configured_off all_disabled "objects") as Hoff
    by (exists (VBool false); split; reflexivity).
  assert ((analyze_recording idle_env perf_default "desk.mp4" None
             (Some "s1"%string) "config/config.yaml" "logs" empty_disk).1
          = inr (summary_of idle_run)) as Hidle by (vm_compute; reflexivity).
  assert (load_config idle_env "config/config.yaml" = inr all_disabled) as Hci
    by reflexivity.
  split; [|split; [exact Hoff|
    exact (proj2 (proj2 (proj2 (proj2 (proj2
             (recording_starts_fresh idle_env perf_default _ _ _ _ _ _ _ _
                eq_refl Hci Hidle))))) Hoff)]].
  assert (0 < FRAME_STRIDE perf_default) as HS by reflexivity.
  assert (load_config demo_env "config/config.yaml" = inr all_enabled) as Hc
    by reflexivity.
  assert ((analyze_recording demo_env perf_default "gaze3.mp4" None
             (Some "s3"%string) "config/config.yaml" "logs" empty_disk).1
          = inr (summary_of gaze_run)) as H by (vm_compute; reflexivity).
  exact (proj1 (recording_starts_fresh _ _ _ _ _ _ _ _ _ _ HS Hc H) GazeAway).
Defined.
